(** * VimeoGrabber: the URL-to-stream resolution pipeline

    A shallow embedding of the two direct downloaders of the repository,

    - [CLI]: class [VimeoDownloaderCLI] of [vimeo_dl_cli.py],
    - [GUI]: class [VimeoDownloader] of [vimeo_downloader.py],

    and the properties of the specification checked against them.  The
    parts from [File names] on prove further properties of the same code:
    the names of the output files, the entry check of the window, the
    shape of the references, what a fetch writes, and whole runs.

    Conventions of the model.
    - A Python [str] is a Rocq [string]: the sequence of the bytes of its
      UTF-8 encoding.  The classes that Python reads off the Unicode
      database ([str.isdigit], [int], the [\d] of [re], the white space
      of [str.strip()]) are those of Unicode 14.0, the database of
      CPython 3.11; [PyStr.isdigit] and [PyStr.is_space] are their
      restrictions to ASCII text.
    - A Python exception is a value [Raise e] of the error monad [res].
    - A Python [dict] whose iteration order matters is an association list
      in insertion order; one that is only looked up is a [gmap].
    - Network and file-system effects are explicit: a file system is a
      finite map from paths to contents, the network is an oracle. *)

From Stdlib Require Import ZArith Ascii String List Bool Lia.
From stdpp Require Import base option list strings gmap.

Local Open Scope string_scope.
Local Open Scope Z_scope.
Local Set Warnings "-register-all".

(** ** Python exceptions and the error monad *)

Inductive exn : Type :=
  | TypeError
  | KeyError
  | AttributeError
  | ValueError.

Inductive res (A : Type) : Type :=
  | Ok (a : A)
  | Raise (e : exn).
Arguments Ok {A} a.
Arguments Raise {A} e.

Global Instance res_ret : MRet res := @Ok.
Global Instance res_bind : MBind res := λ A B f m,
  match m with
  | Ok a => f a
  | Raise e => Raise e
  end.
Arguments res_bind {_ _} _ !_ /.

(** Short-circuit [a and b] and [a or b] on conditions that may raise. *)
Definition py_and (a b : res bool) : res bool :=
  x ← a; if x : bool then b else Ok false.
Definition py_or (a b : res bool) : res bool :=
  x ← a; if x : bool then Ok true else b.

(** ** Python string operations *)

Module PyStr.

Definition code (c : ascii) : N := N_of_ascii c.

Definition in_range (lo hi : N) (c : ascii) : bool :=
  ((lo <=? code c) && (code c <=? hi))%N.

Definition is_digit : ascii -> bool := in_range 48 57.
Definition is_upper : ascii -> bool := in_range 65 90.
Definition is_lower : ascii -> bool := in_range 97 122.
Definition is_alpha (c : ascii) : bool := is_upper c || is_lower c.
Definition is_alnum (c : ascii) : bool := is_alpha c || is_digit c.

(** [str.isspace] on ASCII: tab, LF, VT, FF, CR, FS, GS, RS, US, space. *)
Definition is_space (c : ascii) : bool :=
  in_range 9 13 c || in_range 28 32 c.

Definition eqc (a b : ascii) : bool := Ascii.eqb a b.

Fixpoint all_chars (p : ascii -> bool) (s : string) : bool :=
  match s with
  | EmptyString => true
  | String c s' => p c && all_chars p s'
  end.

Fixpoint any_char (p : ascii -> bool) (s : string) : bool :=
  match s with
  | EmptyString => false
  | String c s' => p c || any_char p s'
  end.

Definition is_empty (s : string) : bool :=
  match s with EmptyString => true | _ => false end.

(** Truthiness of a [str]. *)
Definition truthy (s : string) : bool := negb (is_empty s).

(** A non-empty string of the digits [0] to [9]: what [s.isdigit()] tells
    of ASCII text ([str_isdigit] below is [s.isdigit()] of any text). *)
Definition isdigit (s : string) : bool := truthy s && all_chars is_digit s.

(** [c in s] for a single character [c]. *)
Definition has_char (c : ascii) (s : string) : bool := any_char (eqc c) s.

(** [s.startswith(p)]. *)
Fixpoint startswith (p s : string) : bool :=
  match p, s with
  | EmptyString, _ => true
  | String a p', String b s' => eqc a b && startswith p' s'
  | String _ _, EmptyString => false
  end.

(** [p in s] for strings: [p] occurs in [s]. *)
Fixpoint contains (p s : string) : bool :=
  startswith p s ||
  match s with
  | EmptyString => false
  | String _ s' => contains p s'
  end.

(** [s.lstrip(chars)], [s.rstrip(chars)], [s.strip(chars)], the set of
    characters given as a predicate. *)
Fixpoint lstrip (p : ascii -> bool) (s : string) : string :=
  match s with
  | EmptyString => EmptyString
  | String c s' => if p c then lstrip p s' else s
  end.

Fixpoint rstrip (p : ascii -> bool) (s : string) : string :=
  match s with
  | EmptyString => EmptyString
  | String c s' =>
      let r := rstrip p s' in
      if is_empty r && p c then EmptyString else String c r
  end.

Definition strip (p : ascii -> bool) (s : string) : string :=
  rstrip p (lstrip p s).

(** [s.split(sep)] for a one-character separator: never empty. *)
Fixpoint split (sep : ascii) (s : string) : list string :=
  match s with
  | EmptyString => [EmptyString]
  | String c s' =>
      if eqc c sep then EmptyString :: split sep s'
      else match split sep s' with
           | h :: t => String c h :: t
           | [] => [String c EmptyString]
           end
  end.

(** [s.split(sep, 1)]: the text before the first [sep] and, when there is
    one, the text after it. *)
Fixpoint split1 (sep : ascii) (s : string) : string * option string :=
  match s with
  | EmptyString => (EmptyString, None)
  | String c s' =>
      if eqc c sep then (EmptyString, Some s')
      else let '(h, t) := split1 sep s' in (String c h, t)
  end.

(** [s.replace(a, b)] for single characters, [s.replace(a, '')]. *)
Fixpoint replace (a b : ascii) (s : string) : string :=
  match s with
  | EmptyString => EmptyString
  | String c s' => String (if eqc c a then b else c) (replace a b s')
  end.

Fixpoint remove (p : ascii -> bool) (s : string) : string :=
  match s with
  | EmptyString => EmptyString
  | String c s' => if p c then remove p s' else String c (remove p s')
  end.

Definition lower_char (c : ascii) : ascii :=
  if is_upper c then ascii_of_N (code c + 32) else c.

Fixpoint lower (s : string) : string :=
  match s with
  | EmptyString => EmptyString
  | String c s' => String (lower_char c) (lower s')
  end.

(** [sep.join(l)]. *)
Fixpoint join (sep : string) (l : list string) : string :=
  match l with
  | [] => EmptyString
  | [x] => x
  | x :: l' => x ++ sep ++ join sep l'
  end.

(** The longest prefix of characters satisfying [p], and the rest. *)
Fixpoint span (p : ascii -> bool) (s : string) : string * string :=
  match s with
  | EmptyString => (EmptyString, EmptyString)
  | String c s' =>
      if p c then let '(h, t) := span p s' in (String c h, t)
      else (EmptyString, s)
  end.

(** [s[len(p):]] when [s] starts with [p]. *)
Fixpoint drop_prefix (p s : string) : option string :=
  match p, s with
  | EmptyString, _ => Some s
  | String a p', String b s' => if eqc a b then drop_prefix p' s' else None
  | String _ _, EmptyString => None
  end.

(** [int(s)] for a string of ASCII digits (the limit that CPython puts on
    the number of digits of such a string is not modelled). *)
Fixpoint int_acc (acc : Z) (s : string) : Z :=
  match s with
  | EmptyString => acc
  | String c s' => int_acc (10 * acc + (Z.of_N (code c) - 48)) s'
  end.
Definition int (s : string) : Z := int_acc 0 s.

(** [s.endswith(p)]. *)
Fixpoint endswith (p s : string) : bool :=
  String.eqb p s ||
  match s with
  | EmptyString => false
  | String _ s' => endswith p s'
  end.

(** *** Text beyond ASCII

    A character outside ASCII takes two to four bytes of the text.
    [char_at] reads the character that a text starts with: its code point
    and the number of bytes that follow its first byte.  Bytes that are no
    UTF-8 encoding of a character (no [str] has them) are read as being
    in none of the classes below. *)

Definition continuation (c : ascii) : bool := in_range 128 191 c.

Definition char_at (s : string) : option (N * nat) :=
  match s with
  | EmptyString => None
  | String b0 s1 =>
      if (code b0 <? 128)%N then Some (code b0, 0%nat)
      else
        match s1 with
        | EmptyString => None
        | String b1 s2 =>
            if in_range 194 223 b0 && continuation b1
            then Some (((code b0 - 192) * 64 + (code b1 - 128))%N, 1%nat)
            else
              match s2 with
              | EmptyString => None
              | String b2 s3 =>
                  let cp3 := ((code b0 - 224) * 4096 + (code b1 - 128) * 64
                              + (code b2 - 128))%N in
                  if in_range 224 239 b0 && continuation b1
                     && continuation b2 && (2048 <=? cp3)%N
                     && negb ((55296 <=? cp3) && (cp3 <=? 57343))%N
                  then Some (cp3, 2%nat)
                  else
                    match s3 with
                    | EmptyString => None
                    | String b3 _ =>
                        let cp4 := ((code b0 - 240) * 262144
                                    + (code b1 - 128) * 4096
                                    + (code b2 - 128) * 64
                                    + (code b3 - 128))%N in
                        if in_range 240 244 b0 && continuation b1
                           && continuation b2 && continuation b3
                           && (65536 <=? cp4)%N && (cp4 <=? 1114111)%N
                        then Some (cp4, 3%nat)
                        else None
                    end
              end
        end
  end.

(** The decimal digits (category [Nd]) come in runs of ten, from the zero
    to the nine of a script: the code points of the 66 zeros. *)
Definition decimal_zeros : list N :=
  [48; 1632; 1776; 1984; 2406; 2534; 2662; 2790; 2918; 3046; 3174; 3302;
   3430; 3558; 3664; 3792; 3872; 4160; 4240; 6112; 6160; 6470; 6608; 6784;
   6800; 6992; 7088; 7232; 7248; 42528; 43216; 43264; 43472; 43504; 43600;
   44016; 65296; 66720; 68912; 69734; 69872; 69942; 70096; 70384; 70736;
   70864; 71248; 71360; 71472; 71904; 72016; 72784; 73040; 73120; 92768;
   92864; 93008; 120782; 120792; 120802; 120812; 120822; 123200; 123632;
   125264; 130032]%N.

(** The value of a decimal digit. *)
Definition decimal_value (cp : N) : option Z :=
  match find (λ zero, (zero <=? cp) && (cp <? zero + 10))%N decimal_zeros with
  | Some zero => Some (Z.of_N (cp - zero))
  | None => None
  end.

Definition decimal_cp (cp : N) : bool :=
  match decimal_value cp with Some _ => true | None => false end.

Definition in_ranges (ranges : list (N * N)) (cp : N) : bool :=
  existsb (λ r, (fst r <=? cp) && (cp <=? snd r))%N ranges.

(** The digits that are not decimal (superscripts, circled digits and the
    like): [str.isdigit] holds of them, [int] does not read them. *)
Definition other_digits : list (N * N) :=
  [(178, 179); (185, 185); (4969, 4977); (6618, 6618); (8304, 8304);
   (8308, 8313); (8320, 8329); (9312, 9320); (9332, 9340); (9352, 9360);
   (9450, 9450); (9461, 9469); (9471, 9471); (10102, 10110);
   (10112, 10120); (10122, 10130); (68160, 68163); (69216, 69224);
   (69714, 69722); (127232, 127242)]%N.

Definition digit_cp (cp : N) : bool :=
  decimal_cp cp || in_ranges other_digits cp.

(** The characters of which [str.isspace] holds. *)
Definition white_space : list (N * N) :=
  [(9, 13); (28, 32); (133, 133); (160, 160); (5760, 5760); (8192, 8202);
   (8232, 8233); (8239, 8239); (8287, 8287); (12288, 12288)]%N.

Definition space_cp : N -> bool := in_ranges white_space.

(** The functions below walk a text character by character; [skip]
    counts the bytes still to pass of the character being read. *)

(** Every character of the text is in the class. *)
Fixpoint all_text (p : N -> bool) (skip : nat) (s : string) : bool :=
  match s with
  | EmptyString => true
  | String _ s' =>
      match skip with
      | S k => all_text p k s'
      | O =>
          match char_at s with
          | Some (cp, width) => p cp && all_text p width s'
          | None => false
          end
      end
  end.

(** The longest prefix of characters of the class, and the rest. *)
Fixpoint span_text (p : N -> bool) (skip : nat) (s : string)
    : string * string :=
  match s with
  | EmptyString => (EmptyString, EmptyString)
  | String b s' =>
      match skip with
      | S k => let '(h, t) := span_text p k s' in (String b h, t)
      | O =>
          match char_at s with
          | Some (cp, width) =>
              if p cp
              then let '(h, t) := span_text p width s' in (String b h, t)
              else (EmptyString, s)
          | None => (EmptyString, s)
          end
      end
  end.

(** [s.isdigit()]: not empty, and every character is a digit. *)
Definition str_isdigit (s : string) : bool :=
  truthy s && all_text digit_cp 0 s.

(** [int(s)] for a text with [s.isdigit()]: the decimal digits of any
    script are read, any other digit raises [ValueError] (the limit that
    CPython puts on the number of digits is not modelled). *)
Fixpoint int_text (skip : nat) (acc : Z) (s : string) : res Z :=
  match s with
  | EmptyString => Ok acc
  | String _ s' =>
      match skip with
      | S k => int_text k acc s'
      | O =>
          match char_at s with
          | Some (cp, width) =>
              match decimal_value cp with
              | Some v => int_text width (10 * acc + v) s'
              | None => Raise ValueError
              end
          | None => Raise ValueError
          end
      end
  end.

Definition str_int (s : string) : res Z :=
  if is_empty s then Raise ValueError else int_text 0 0 s.

(** [s.strip()]: the text without the white space at its two ends. *)
Fixpoint lstrip_text (p : N -> bool) (skip : nat) (s : string) : string :=
  match s with
  | EmptyString => EmptyString
  | String _ s' =>
      match skip with
      | S k => lstrip_text p k s'
      | O =>
          match char_at s with
          | Some (cp, width) => if p cp then lstrip_text p width s' else s
          | None => s
          end
      end
  end.

Fixpoint rstrip_text (p : N -> bool) (s : string) : string :=
  match s with
  | EmptyString => EmptyString
  | String b s' =>
      if all_text p 0 s then EmptyString else String b (rstrip_text p s')
  end.

Definition strip_space (s : string) : string :=
  rstrip_text space_cp (lstrip_text space_cp 0 s).

End PyStr.

(** ** [urllib.parse] (CPython 3.11)

    The library functions the downloaders call.  Not modelled: the
    validation of a bracketed (IPv6) host, for which [urlsplit] here raises
    [ValueError] whenever the netloc holds a bracket, and the NFKC check of
    a non-ASCII netloc. *)

Module urllib.
Import PyStr.

Record SplitResult : Type := mkSplit {
  sp_scheme : string;
  sp_netloc : string;
  sp_url : string;
  sp_query : string;
  sp_fragment : string }.

Record ParseResult : Type := mkParse {
  scheme : string;
  netloc : string;
  path : string;
  params : string;
  query : string;
  fragment : string }.

Definition scheme_char (c : ascii) : bool :=
  is_alnum c || eqc c "+" || eqc c "-" || eqc c ".".

Definition c0_control_or_space : ascii -> bool := in_range 0 32.

Definition unsafe_url_byte (c : ascii) : bool :=
  eqc c "009" || eqc c "013" || eqc c "010".

Definition uses_params : list string :=
  [""; "ftp"; "hdl"; "prospero"; "http"; "imap"; "https"; "shttp"; "rtsp";
   "rtspu"; "sip"; "sips"; "mms"; "sftp"; "tel"].

Definition netloc_delim (c : ascii) : bool :=
  eqc c "/" || eqc c "?" || eqc c "#".

(** [_splitnetloc(url, 2)] on a url that starts with two slashes, given
    without them. *)
Definition _splitnetloc (after_slashes : string) : string * string :=
  span (λ c, negb (netloc_delim c)) after_slashes.

Definition split_scheme (url : string) : string * string :=
  match split1 ":" url with
  | (before, Some after) =>
      match before with
      | String c0 _ =>
          if is_alpha c0 && all_chars scheme_char before
          then (lower before, after)
          else (EmptyString, url)
      | EmptyString => (EmptyString, url)
      end
  | (_, None) => (EmptyString, url)
  end.

Definition urlsplit (url : string) : res SplitResult :=
  let url := lstrip c0_control_or_space url in
  let url := remove unsafe_url_byte url in
  let '(scheme, url) := split_scheme url in
  '(netloc, url) ←
     match drop_prefix "//" url with
     | Some rest =>
         let '(netloc, url) := _splitnetloc rest in
         if has_char "[" netloc || has_char "]" netloc
         then Raise ValueError
         else Ok (netloc, url)
     | None => Ok (EmptyString, url)
     end;
  let '(url, fragment) :=
    match split1 "#" url with
    | (u, Some f) => (u, f)
    | (u, None) => (u, EmptyString)
    end in
  let '(url, query) :=
    match split1 "?" url with
    | (u, Some q) => (u, q)
    | (u, None) => (u, EmptyString)
    end in
  Ok (mkSplit scheme netloc url query fragment).

(** [url.find(';', url.rfind('/'))] and the split around it: the first
    semicolon of the last path segment. *)
Fixpoint _splitparams_from (url : string) : option (string * string) :=
  match url with
  | EmptyString => None
  | String c url' =>
      if has_char "/" url' then
        match _splitparams_from url' with
        | Some (a, b) => Some (String c a, b)
        | None => None
        end
      else
        match split1 ";" url with
        | (a, Some b) => Some (a, b)
        | (_, None) => None
        end
  end.

Definition _splitparams (url : string) : string * string :=
  match _splitparams_from url with
  | Some r => r
  | None => (url, EmptyString)
  end.

Definition urlparse (url : string) : res ParseResult :=
  r ← urlsplit url;
  let '(url, params) :=
    if bool_decide (sp_scheme r ∈ uses_params) && has_char ";" (sp_url r)
    then _splitparams (sp_url r)
    else (sp_url r, EmptyString) in
  Ok (mkParse (sp_scheme r) (sp_netloc r) url params
              (sp_query r) (sp_fragment r)).

(** *** Percent-encoding *)

Definition hex_value (c : ascii) : option N :=
  if is_digit c then Some (code c - 48)%N
  else if in_range 65 70 c then Some (code c - 55)%N
  else if in_range 97 102 c then Some (code c - 87)%N
  else None.

Definition hex_digit (n : N) : ascii :=
  if (n <? 10)%N then ascii_of_N (48 + n) else ascii_of_N (55 + n).

(** [unquote]: a percent sign followed by two hexadecimal digits is the
    byte they denote, any other percent sign stands for itself. *)
Fixpoint unquote (s : string) : string :=
  match s with
  | EmptyString => EmptyString
  | String c t =>
      if eqc c "%" then
        match t with
        | String a (String b r) =>
            match hex_value a, hex_value b with
            | Some x, Some y => String (ascii_of_N (16 * x + y)) (unquote r)
            | _, _ => String c (unquote t)
            end
        | _ => String c (unquote t)
        end
      else String c (unquote t)
  end.

Definition always_safe (c : ascii) : bool :=
  is_alnum c || eqc c "_" || eqc c "." || eqc c "-" || eqc c "~".

Definition quote_char (safe : ascii -> bool) (c : ascii) : string :=
  if always_safe c || safe c then String c EmptyString
  else String "%" (String (hex_digit (code c / 16))
                          (String (hex_digit (code c mod 16)) EmptyString)).

(** [quote(s, safe)], the extra safe characters given as a predicate. *)
Fixpoint quote (safe : ascii -> bool) (s : string) : string :=
  match s with
  | EmptyString => EmptyString
  | String c s' => quote_char safe c ++ quote safe s'
  end.

Definition quote_plus (s : string) : string :=
  if negb (has_char " " s) then quote (λ _, false) s
  else replace " " "+" (quote (eqc " ") s).

(** *** Query strings *)

(** [parse_qsl(qs)] with the defaults: blank values dropped, fields
    without an equals sign skipped, separator [&]. *)
Definition parse_qsl (qs : string) : list (string * string) :=
  let query_args := if truthy qs then split "&" qs else [] in
  flat_map (λ name_value,
    match split1 "=" name_value with
    | (name, Some value) =>
        if truthy value
        then [(unquote (replace "+" " " name),
               unquote (replace "+" " " value))]
        else []
    | (_, None) => []
    end) query_args.

(** [parse_qs(qs)]: every name with the list of its values, in order. *)
Fixpoint group_pairs (pairs : list (string * string))
    (parsed : gmap string (list string)) : gmap string (list string) :=
  match pairs with
  | [] => parsed
  | (name, value) :: rest =>
      group_pairs rest
        (match parsed !! name with
         | Some vs => <[name := (vs ++ [value])%list]> parsed
         | None => <[name := [value]]> parsed
         end)
  end.

Definition parse_qs (qs : string) : gmap string (list string) :=
  group_pairs (parse_qsl qs) ∅.

End urllib.

(** ** The regular expressions of the two resolvers

    Each pattern is a literal prefix followed by greedy runs of one
    character class, and the character required after a run is outside the
    class of the run.  Giving back characters of a run can therefore never
    make a failed match succeed, and matching the longest run is exactly
    what the backtracking matcher of [re] does. *)

Module re.
Import PyStr.

(** [re.search]: the match at the leftmost start position that has one. *)
Fixpoint search {A} (m : string -> option A) (s : string) : option A :=
  match m s with
  | Some r => Some r
  | None =>
      match s with
      | EmptyString => None
      | String _ s' => search m s'
      end
  end.

(** A non-empty greedy run of a class: the run and what follows it. *)
Definition run1 (p : ascii -> bool) (s : string) : option (string * string) :=
  let '(r, rest) := span p s in
  if truthy r then Some (r, rest) else None.

(** [\d+]: a non-empty greedy run of decimal digits.  The patterns are
    [str] patterns, so the digits of every script are in the class. *)
Definition digits (s : string) : option (string * string) :=
  let '(r, rest) := span_text decimal_cp 0 s in
  if truthy r then Some (r, rest) else None.

(** [vimeo\.com/(\d+)/([a-zA-Z0-9]+)] and, with the prefix
    [player.vimeo.com/video/], the pattern of player links with a hash. *)
Definition id_slash_hash (prefix : string) (s : string)
    : option (string * string) :=
  rest ← drop_prefix prefix s;
  '(g1, rest) ← digits rest;
  rest ← drop_prefix "/" rest;
  '(g2, _) ← run1 is_alnum rest;
  Some (g1, g2).

(** [vimeo\.com/(\d+)] and [player\.vimeo\.com/video/(\d+)]. *)
Definition id_after (prefix : string) (s : string) : option string :=
  rest ← drop_prefix prefix s;
  '(g1, _) ← digits rest;
  Some g1.

(** [$]: at the end of the string, or before a newline that ends it. *)
Definition at_dollar (s : string) : bool :=
  match s with
  | EmptyString => true
  | String c EmptyString => eqc c "010"
  | _ => false
  end.

(** [/(\d+)(?:/|\?|$)], the fallback of the command-line resolver. *)
Definition slash_id (s : string) : option string :=
  rest ← drop_prefix "/" s;
  '(g1, rest) ← digits rest;
  if startswith "/" rest || startswith "?" rest || at_dollar rest
  then Some g1 else None.

(** The class of the characters that the downloaders take out of a title
    before it names a file: backslash, slash, star, question mark, colon,
    double quote, the two angle brackets and the bar. *)
Definition reserved_char (c : ascii) : bool :=
  eqc c "092" || eqc c "/" || eqc c "*" || eqc c "?" || eqc c ":"
  || eqc c "034" || eqc c "<" || eqc c ">" || eqc c "|".

(** [re.sub(pattern, repl, s)] for a pattern that is one character class
    and a replacement without group references: every character of the
    class is replaced by [repl]. *)
Fixpoint sub (class : ascii -> bool) (repl : string) (s : string) : string :=
  match s with
  | EmptyString => EmptyString
  | String c s' =>
      (if class c then repl else String c EmptyString) ++ sub class repl s'
  end.

End re.

(** ** [os.path] on a POSIX system *)

Module posixpath.
Import PyStr.

(** [os.path.join(a, b)]: a component that starts with a slash replaces
    what is in front of it. *)
Definition join (a b : string) : string :=
  if startswith "/" b then b
  else if negb (truthy a) || endswith "/" a then a ++ b
  else a ++ "/" ++ b.

End posixpath.

(** ** JSON documents and the Python operations applied to them

    [response.json()] yields nested dictionaries, lists, strings, numbers,
    booleans and [None].  Numbers are integers here (no floats).  A
    dictionary is the list of its items in insertion order; the keys of a
    parsed document are pairwise distinct ([wf_json]). *)

Inductive json : Type :=
  | JNull
  | JBool (b : bool)
  | JNum (n : Z)
  | JStr (s : string)
  | JList (l : list json)
  | JDict (d : list (string * json)).

(** [d.get(k)]: the value of the first item with key [k]. *)
Fixpoint dict_get {V} (k : string) (d : list (string * V)) : option V :=
  match d with
  | [] => None
  | (k', v) :: d' => if String.eqb k' k then Some v else dict_get k d'
  end.

(** [d[k] = v] on an insertion-ordered dictionary: an existing key keeps
    its place, a new one goes last; and [d.update(u)]. *)
Fixpoint dict_set {V} (k : string) (v : V) (d : list (string * V))
    : list (string * V) :=
  match d with
  | [] => [(k, v)]
  | (k', v') :: d' =>
      if String.eqb k' k then (k', v) :: d' else (k', v') :: dict_set k v d'
  end.

Definition dict_update {V} (d u : list (string * V)) : list (string * V) :=
  fold_left (λ d kv, dict_set kv.1 kv.2 d) u d.

(** The keys of every dictionary of a document are pairwise distinct. *)
Fixpoint wf_json (v : json) : bool :=
  match v with
  | JList l => forallb wf_json l
  | JDict d =>
      bool_decide (NoDup d.*1)
      && (fix wf_items (d : list (string * json)) : bool :=
            match d with
            | [] => true
            | kv :: d' => wf_json kv.2 && wf_items d'
            end) d
  | _ => true
  end.

Module Py.
Import PyStr.

(** What [hash] and [==] see of a hashable JSON value: [True] and [False]
    are the integers 1 and 0. *)
Inductive hkey : Type :=
  | KNone
  | KInt (n : Z)
  | KStr (s : string).

Global Instance hkey_eq_dec : EqDecision hkey.
Proof. solve_decision. Defined.

Global Instance hkey_countable : Countable hkey.
Proof.
  refine (inj_countable'
    (λ k, match k with
          | KNone => inl ()
          | KInt n => inr (inl n)
          | KStr s => inr (inr s)
          end)
    (λ x, match x with
          | inl _ => KNone
          | inr (inl n) => KInt n
          | inr (inr s) => KStr s
          end) _).
  by intros [].
Defined.

(** [hash(v)]: lists and dictionaries are unhashable. *)
Definition hash (v : json) : res hkey :=
  match v with
  | JNull => Ok KNone
  | JBool b => Ok (KInt (Z.b2z b))
  | JNum n => Ok (KInt n)
  | JStr s => Ok (KStr s)
  | JList _ | JDict _ => Raise TypeError
  end.

(** [k in v] for a string [k]: a key of a dictionary, an element of a
    list, a substring of a string. *)
Definition contains (k : string) (v : json) : res bool :=
  match v with
  | JDict d => Ok (bool_decide (is_Some (dict_get k d)))
  | JList l =>
      Ok (existsb (λ x, match x with
                        | JStr s => String.eqb s k
                        | _ => false
                        end) l)
  | JStr s => Ok (PyStr.contains k s)
  | JNull | JBool _ | JNum _ => Raise TypeError
  end.

(** [v[k]] for a string [k]. *)
Definition getitem (v : json) (k : string) : res json :=
  match v with
  | JDict d =>
      match dict_get k d with
      | Some x => Ok x
      | None => Raise KeyError
      end
  | _ => Raise TypeError
  end.

(** The elements [list.extend(v)] appends: of a list its items, of a
    dictionary its keys, of a string its characters. *)
Definition iter (v : json) : res (list json) :=
  match v with
  | JList l => Ok l
  | JDict d => Ok (map (λ kv, JStr kv.1) d)
  | JStr s => Ok (map (λ c, JStr (String c EmptyString))
                      (list_ascii_of_string s))
  | JNull | JBool _ | JNum _ => Raise TypeError
  end.

(** Truthiness. *)
Definition truth (v : json) : bool :=
  match v with
  | JNull => false
  | JBool b => b
  | JNum n => negb (n =? 0)
  | JStr s => truthy s
  | JList l => negb (bool_decide (l = []))
  | JDict d => negb (bool_decide (d = []))
  end.

(** [v.items()]. *)
Definition items (v : json) : res (list (string * json)) :=
  match v with
  | JDict d => Ok d
  | _ => Raise AttributeError
  end.

Definition is_list (v : json) : bool :=
  match v with JList _ => true | _ => false end.
Definition is_dict (v : json) : bool :=
  match v with JDict _ => true | _ => false end.

End Py.

(** ** Data model *)

(** What a resolver extracts from a link: in the source a 4-tuple
    (command line) or a dictionary with optional keys (GUI). *)
Record VideoReference : Type := mkRef {
  video_id : option string;
  unlock_hash : option string;
  h_param : option string;
  share_token : option string }.

(** A stream as the quality selection reads it: a dictionary of the
    configuration whose [height] and [width], when present, are integers. *)
Record Rendition : Type := mkRendition {
  url : string;
  width : option Z;
  height : option Z;
  mime : option string }.

(** [x.get('height', 0)]. *)
Definition height_of (x : Rendition) : Z := default 0 (height x).

(** Truthiness of an optional string: [None] and [''] are false. *)
Definition is_set (o : option string) : bool :=
  match o with
  | Some s => PyStr.truthy s
  | None => false
  end.

(** [query_params[k][0]] guarded by [k in query_params]. *)
Definition first_value (k : string) (d : gmap string (list string))
    : option string :=
  d !! k ≫= head.

(** ** Code that the two downloaders have in common

    [build_config_url] differs between the two files only in the fixed
    parameters it adds; the four probes and the de-duplication loop of
    [extract_streams] are the same text in both. *)

Module Common.
Import PyStr urllib.

Definition config_base (video_id : string) (unlock_hash : option string)
    : string :=
  if is_set unlock_hash
  then "https://player.vimeo.com/video/" ++ video_id ++ "/"
       ++ default "" unlock_hash ++ "/config"
  else "https://player.vimeo.com/video/" ++ video_id ++ "/config".

Definition config_params (fixed : list (string * string))
    (h_param share_token : option string) : list (string * string) :=
  let params := [] in
  let params :=
    if is_set h_param then dict_set "h" (default "" h_param) params
    else params in
  let params :=
    if is_set share_token
    then dict_set "share" (default "" share_token) params
    else params in
  dict_update params fixed.

Definition query_string (params : list (string * string)) : string :=
  join "&" (map (λ kv, kv.1 ++ "=" ++ quote_plus kv.2) params).

Definition build_config_url (fixed : list (string * string))
    (video_id : string) (unlock_hash h_param share_token : option string)
    : string :=
  let config_url := config_base video_id unlock_hash in
  let params := config_params fixed h_param share_token in
  match params with
  | [] => config_url
  | _ => config_url ++ "?" ++ query_string params
  end.

(** [streams.extend(v)]. *)
Definition extend (streams : list json) (v : json) : res (list json) :=
  new ← Py.iter v; Ok (streams ++ new)%list.

(** ['request' in config_data and 'files' in config_data['request']]. *)
Definition has_files (config_data : json) : res bool :=
  py_and (Py.contains "request" config_data)
         (request ← Py.getitem config_data "request";
          Py.contains "files" request).

(** [config_data['request']['files']]. *)
Definition files_of (config_data : json) : res json :=
  request ← Py.getitem config_data "request"; Py.getitem request "files".

(** The standard location of the progressive streams. *)
Definition probe_progressive (config_data : json) (streams : list json)
    : res (list json) :=
  c ← Py.contains "request" config_data;
  if c : bool then
    req_data ← Py.getitem config_data "request";
    c ← py_and (Py.contains "files" req_data)
               (files ← Py.getitem req_data "files";
                Py.contains "progressive" files);
    if c : bool then
      files ← Py.getitem req_data "files";
      progressive ← Py.getitem files "progressive";
      extend streams progressive
    else Ok streams
  else Ok streams.

(** The alternate location [video.progressive_download]. *)
Definition probe_progressive_download (config_data : json)
    (streams : list json) : res (list json) :=
  c ← py_and (Py.contains "video" config_data)
             (video ← Py.getitem config_data "video";
              Py.contains "progressive_download" video);
  if c : bool then
    video ← Py.getitem config_data "video";
    progressive_download ← Py.getitem video "progressive_download";
    if Py.truth progressive_download
    then extend streams progressive_download
    else Ok streams
  else Ok streams.

(** The entries of [request.files.mime], the [video/mp4] lists kept. *)
Fixpoint mime_loop (items : list (string * json)) (streams : list json)
    : res (list json) :=
  match items with
  | [] => Ok streams
  | (mime_type, mime_streams) :: rest =>
      streams ← (if String.eqb mime_type "video/mp4"
                    && Py.is_list mime_streams
                 then extend streams mime_streams
                 else Ok streams);
      mime_loop rest streams
  end.

Definition probe_mime (config_data : json) (streams : list json)
    : res (list json) :=
  c ← has_files config_data;
  if c : bool then
    file_info ← files_of config_data;
    c ← Py.contains "mime" file_info;
    if c : bool then
      mime ← Py.getitem file_info "mime";
      items ← Py.items mime;
      mime_loop items streams
    else Ok streams
  else Ok streams.

(** The test an entry of [request.files] passes to be taken for a list of
    streams: a non-empty list of dictionaries whose first one has a [url]
    and a [width] or a [height]. *)
Definition looks_like_streams (value : json) : res bool :=
  match value with
  | JList (first :: _ as items) =>
      if forallb Py.is_dict items then
        py_and (Py.contains "url" first)
               (py_or (Py.contains "width" first)
                      (Py.contains "height" first))
      else Ok false
  | _ => Ok false
  end.

Fixpoint nested_loop (items : list (string * json)) (streams : list json)
    : res (list json) :=
  match items with
  | [] => Ok streams
  | (key, value) :: rest =>
      c ← looks_like_streams value;
      streams ← (if c : bool then extend streams value else Ok streams);
      nested_loop rest streams
  end.

Definition probe_nested (config_data : json) (streams : list json)
    : res (list json) :=
  c ← has_files config_data;
  if c : bool then
    files ← files_of config_data;
    items ← Py.items files;
    nested_loop items streams
  else Ok streams.

(** The candidates, in the order the four probes find them. *)
Definition collect_streams (config_data : json) : res (list json) :=
  let streams := [] in
  streams ← probe_progressive config_data streams;
  streams ← probe_progressive_download config_data streams;
  streams ← probe_mime config_data streams;
  probe_nested config_data streams.

(** The loop that keeps the first stream of every [url]. *)
Fixpoint unique_loop (streams : list json) (seen_urls : gset Py.hkey)
    (unique_streams : list json) : res (list json) :=
  match streams with
  | [] => Ok unique_streams
  | stream :: rest =>
      c ← py_and (Py.contains "url" stream)
                 (u ← Py.getitem stream "url";
                  k ← Py.hash u;
                  Ok (bool_decide (k ∉ seen_urls)));
      if c : bool then
        u ← Py.getitem stream "url";
        k ← Py.hash u;
        unique_loop rest ({[k]} ∪ seen_urls) (unique_streams ++ [stream])%list
      else unique_loop rest seen_urls unique_streams
  end.

Definition unique (streams : list json) : res (list json) :=
  unique_loop streams ∅ [].

End Common.

(** ** The network and the file system

    The requests of a run are recorded with the step that issued them.
    The server is an oracle: its answer may depend on the requests made
    before.  No answer stands for a [RequestException] (no connection,
    timeout).  A file system maps a path to the bytes of the file there.
    Response headers, and with them the progress arithmetic, are left
    out; opening the destination for writing always succeeds. *)

Inductive step : Type :=
  | Landing
  | Config
  | Embed
  | Media.

Global Instance step_eq_dec : EqDecision step.
Proof. solve_decision. Defined.

(** What iterating over a streamed body yields next: a block of data, a
    block whose write to disk raises, or an exception in place of a
    block. *)
Inductive chunk : Type :=
  | Data (bytes : string)
  | WriteError (bytes : string)
  | ReadError.

Record response : Type := mkResponse {
  status_code : Z;
  json_body : option json;
  content : list chunk }.

Definition network : Type := list (step * string) → string → option response.

Record world : Type := mkWorld {
  requests : list (step * string);
  files : gmap string string }.

Definition session_get (net : network) (s : step) (url : string) (w : world)
    : option response * world :=
  (net (requests w) url, mkWorld (requests w ++ [(s, url)]) (files w)).

(** [response.raise_for_status()] raises on a 4xx or 5xx status. *)
Definition raises_for_status (r : response) : bool :=
  (400 <=? status_code r) && (status_code r <? 600).

Definition set_files (fs : gmap string string) (w : world) : world :=
  mkWorld (requests w) fs.

(** [open(path, 'wb')], [f.write(bytes)] and
    [if os.path.exists(path): os.remove(path)]. *)
Definition open_wb (path : string) (fs : gmap string string)
    : gmap string string :=
  <[path := EmptyString]> fs.

Definition write (path bytes : string) (fs : gmap string string)
    : gmap string string :=
  <[path := default EmptyString (fs !! path) ++ bytes]> fs.

Definition remove_if_exists (path : string) (fs : gmap string string)
    : gmap string string :=
  delete path fs.

(** [list.sort(key=key)], and with [reverse=True]: Python's sort is stable
    in both directions, which fixes its result; insertion from the right
    computes it.  [before a b] tells that key [a] may stay in front of
    key [b]. *)
Section Sort.
Context {A : Type} (before : Z → Z → bool) (key : A → Z).

Fixpoint insert_sorted (x : A) (l : list A) : list A :=
  match l with
  | [] => [x]
  | y :: l' =>
      if before (key x) (key y) then x :: l else y :: insert_sorted x l'
  end.

Definition sort_by (l : list A) : list A := foldr insert_sorted [] l.
End Sort.

(** ** [vimeo_dl_cli.py]: class [VimeoDownloaderCLI] *)

Module CLI.
Import PyStr urllib Common.

Definition parse_vimeo_url (url : string) : res VideoReference :=
  parsed_url ← urlparse url;
  let path_parts := split "/" (strip (eqc "/") (path parsed_url)) in
  let query_params := parse_qs (query parsed_url) in
  let h_param := first_value "h" query_params in
  let share_token :=
    if truthy (fragment parsed_url)
    then first_value "share" (parse_qs (fragment parsed_url))
    else first_value "share" query_params in
  let '(video_id, unlock_hash) :=
    if String.eqb (netloc parsed_url) "vimeo.com" then
      (path_parts !! 0%nat,
       match path_parts !! 1%nat with
       | Some p => if negb (startswith "?" p) then Some p else None
       | None => None
       end)
    else if PyStr.contains "player.vimeo.com" (netloc parsed_url) then
      (match path_parts with
       | p0 :: p1 :: _ => if String.eqb p0 "video" then Some p1 else None
       | _ => None
       end,
       path_parts !! 2%nat)
    else (None, None) in
  let video_id :=
    if negb (is_set video_id) then
      match re.search re.slash_id url with
      | Some g1 => Some g1
      | None => video_id
      end
    else video_id in
  Ok (mkRef video_id unlock_hash h_param share_token).

Definition player_params : list (string * string) :=
  [("autopause", "0"); ("byline", "0"); ("collections", "0");
   ("context", "Vimeo%25FFFFFFC"); ("default_to_hd", "1");
   ("portrait", "0"); ("speed", "1"); ("title", "0");
   ("transparent", "1"); ("app_id", "122963"); ("player_id", "player");
   ("api", "1"); ("autoplay", "0")].

Definition build_config_url : string → option string → option string
    → option string → string :=
  Common.build_config_url player_params.

(** What [extract_streams] prints. *)
Inductive message : Type :=
  | ResponseKeys (keys : option (list string))
  | FoundHls (hls_url : json)
  | FoundMaster (config_url : json)
  | NoStandardStreams.

(** The HLS branch: the manifest address is printed, nothing else. *)
Definition probe_hls (config_data : json) (out : list message)
    : res (list message) :=
  c ← has_files config_data;
  if c : bool then
    file_info ← files_of config_data;
    c ← py_and (Py.contains "hls" file_info)
               (hls ← Py.getitem file_info "hls"; Py.contains "url" hls);
    if c : bool then
      hls ← Py.getitem file_info "hls";
      hls_url ← Py.getitem hls "url";
      Ok (out ++ [FoundHls hls_url])%list
    else Ok out
  else Ok out.

Definition probe_master (config_data : json) (out : list message)
    : res (list message) :=
  c ← py_and (Py.contains "player" config_data)
             (player ← Py.getitem config_data "player";
              Py.contains "config_url" player);
  if c : bool then
    player ← Py.getitem config_data "player";
    config_url ← Py.getitem player "config_url";
    Ok (out ++ [FoundMaster config_url])%list
  else Ok out.

(** The printed messages and the returned streams. *)
Definition extract_streams (config_data : json)
    : res (list message * list json) :=
  let out :=
    [ResponseKeys (match config_data with
                   | JDict d => Some (map fst d)
                   | _ => None
                   end)] in
  streams ← collect_streams config_data;
  out ← probe_hls config_data out;
  out ← probe_master config_data out;
  unique_streams ← unique streams;
  let out :=
    match unique_streams with
    | [] => (out ++ [NoStandardStreams])%list
    | _ => out
    end in
  Ok (out, unique_streams).

(** The loop of the target-quality branch: the first stream whose height
    is closest to the requested one. *)
Definition closest_stream (requested_height : Z) (streams : list Rendition)
    : option Rendition :=
  match streams with
  | [] => None
  | first :: _ =>
      let start := (first, Z.abs (height_of first - requested_height)) in
      Some (fold_left
              (λ (acc : Rendition * Z) stream,
                 let diff := Z.abs (height_of stream - requested_height) in
                 if diff <? acc.2 then (stream, diff) else acc)
              streams start).1
  end.

(** [int(quality) if quality.isdigit() else 0]. *)
Definition requested_height (quality : string) : res Z :=
  if str_isdigit quality then str_int quality else Ok 0.

(** The quality selection of [download_video]; it is reached with a
    non-empty list only.  In the last branch the [ValueError] of [int] is
    caught, and the first stream is selected. *)
Definition select_stream (quality : string) (streams : list Rendition)
    : option Rendition :=
  if String.eqb quality "best" then
    head (sort_by Z.geb height_of streams)
  else if String.eqb quality "worst" then
    head (sort_by Z.leb height_of streams)
  else
    match requested_height quality with
    | Ok requested_height => closest_stream requested_height streams
    | Raise _ => head streams
    end.

(** The body of the writing loop: [false] when an exception ends it. *)
Fixpoint write_chunks (content : list chunk) (save_path : string)
    (fs : gmap string string) : bool * gmap string string :=
  match content with
  | [] => (true, fs)
  | Data chunk :: rest =>
      write_chunks rest save_path
        (if truthy chunk then write save_path chunk fs else fs)
  | WriteError chunk :: rest =>
      if truthy chunk then (false, fs) else write_chunks rest save_path fs
  | ReadError :: _ => (false, fs)
  end.

Definition download_file (net : network) (url save_path : string) (w : world)
    : bool * world :=
  let '(r, w) := session_get net Media url w in
  match r with
  | Some response =>
      if raises_for_status response
      then (false, set_files (remove_if_exists save_path (files w)) w)
      else
        let fs := open_wb save_path (files w) in
        let '(ok, fs) := write_chunks (content response) save_path fs in
        if ok : bool then (true, set_files fs w)
        else (false, set_files (remove_if_exists save_path fs) w)
  | None => (false, set_files (remove_if_exists save_path (files w)) w)
  end.

(** [download_video].  [plan] stands for the steps between the parsed
    configuration and the fetch (title, [extract_streams], quality
    selection, output path): they issue no request, and give the address
    of the chosen stream and the output file, or nothing when the run ends
    there. *)
Definition download_video (net : network)
    (plan : json → option (string * string)) (url : string) (w : world)
    : res (bool * world) :=
  r ← parse_vimeo_url url;
  if negb (is_set (video_id r)) then Ok (false, w)
  else
    let video_id := default EmptyString (video_id r) in
    let main_url :=
      if is_set (unlock_hash r)
      then "https://vimeo.com/" ++ video_id ++ "/"
           ++ default EmptyString (unlock_hash r)
      else "https://vimeo.com/" ++ video_id in
    let '(_, w) := session_get net Landing main_url w in
    let config_url :=
      build_config_url video_id (unlock_hash r) (h_param r)
                       (share_token r) in
    let '(response, w) := session_get net Config config_url w in
    match response with
    | None => Ok (false, w)
    | Some response =>
        if raises_for_status response then Ok (false, w)
        else
          match json_body response with
          | None => Ok (false, w)
          | Some config_data =>
              match plan config_data with
              | None => Ok (false, w)
              | Some (stream_url, output_file) =>
                  Ok (download_file net stream_url output_file w)
              end
          end
    end.

(** The output path of [download_video], from the title of the video and
    the stream that was selected.  [cwd] is what [os.getcwd()] returns;
    [output_dir] is the option of the command line, absent or a string. *)
Definition safe_title (video_title : string) : string :=
  re.sub re.reserved_char "_" video_title.

Definition output_dir (cwd : string) (output_dir : option string) : string :=
  if negb (is_set output_dir) then cwd else default EmptyString output_dir.

Definition ext (selected_stream : Rendition) : string :=
  match mime selected_stream with
  | Some mime => List.last (split "/" mime) EmptyString
  | None => "mp4"
  end.

Definition output_file (cwd : string) (output_dir_option : option string)
    (video_title : string) (selected_stream : Rendition) : string :=
  posixpath.join (output_dir cwd output_dir_option)
    (safe_title video_title ++ "." ++ ext selected_stream).

End CLI.

(** ** [vimeo_downloader.py]: class [VimeoDownloader] *)

Module GUI.
Import PyStr urllib Common.

Definition parse_vimeo_url (url : string) : res (option VideoReference) :=
  match re.search (re.id_slash_hash "vimeo.com/") url with
  | Some (g1, g2) => Ok (Some (mkRef (Some g1) (Some g2) None None))
  | None =>
  match re.search (re.id_slash_hash "player.vimeo.com/video/") url with
  | Some (g1, g2) => Ok (Some (mkRef (Some g1) (Some g2) None None))
  | None =>
  match re.search (re.id_after "vimeo.com/") url with
  | Some g1 =>
      parsed_url ← urlparse url;
      let query_params := parse_qs (query parsed_url) in
      Ok (Some (mkRef (Some g1) None
                  (first_value "h" query_params)
                  (first_value "share" query_params)))
  | None =>
  match re.search (re.id_after "player.vimeo.com/video/") url with
  | Some g1 => Ok (Some (mkRef (Some g1) None None None))
  | None =>
      if str_isdigit (strip_space url)
      then Ok (Some (mkRef (Some (strip_space url)) None None None))
      else Ok None
  end end end end.

Definition player_params : list (string * string) :=
  [("autopause", "0"); ("byline", "0"); ("collections", "0");
   ("context", "Vimeo%25FFFFFFC"); ("default_to_hd", "1");
   ("portrait", "0"); ("speed", "1"); ("title", "0");
   ("transparent", "1")].

Definition build_config_url : string → option string → option string
    → option string → string :=
  Common.build_config_url player_params.

Definition extract_streams (config_data : json) : res (list json) :=
  streams ← collect_streams config_data;
  unique streams.

(** [max(progressive_streams, key=...)]: the first stream of the greatest
    height. *)
Definition best_stream (streams : list Rendition) : option Rendition :=
  match streams with
  | [] => None
  | first :: rest =>
      Some (fold_left
              (λ best x, if height_of best <? height_of x then x else best)
              rest first)
  end.

(** How a download ends: the three ways [download_file] can end, and
    [Dismissed] for a run that the user ends at the save dialog. *)
Inductive outcome : Type :=
  | Completed
  | Cancelled
  | Failed
  | Dismissed.

(** The writing loop.  [cancelled i] is the value of the flag
    [self.cancelled], set by the Cancel button, when the loop polls it
    for the block of index [i]. *)
Fixpoint write_loop (content : list chunk) (cancelled : nat → bool)
    (i : nat) (save_path : string) (fs : gmap string string)
    : outcome * gmap string string :=
  match content with
  | [] => (Completed, fs)
  | ReadError :: _ => (Failed, fs)
  | Data data :: rest =>
      if cancelled i then (Cancelled, delete save_path fs)
      else write_loop rest cancelled (S i) save_path (write save_path data fs)
  | WriteError data :: _ =>
      if cancelled i then (Cancelled, delete save_path fs)
      else (Failed, fs)
  end.

Definition download_file (net : network) (cancelled : nat → bool)
    (url save_path : string) (w : world) : outcome * world :=
  let '(r, w) := session_get net Media url w in
  match r with
  | Some response =>
      if raises_for_status response then (Failed, w)
      else
        let fs := open_wb save_path (files w) in
        let '(o, fs) :=
          write_loop (content response) cancelled 0 save_path fs in
        (o, set_files fs w)
  | None => (Failed, w)
  end.

(** [download_video].  [plan] stands for the steps between the parsed
    configuration and the fetch (title, [extract_streams], choice of the
    best stream, save dialog): they issue no request, and give the address
    of the chosen stream and the path to save to, or the way the run ends
    there. *)
Definition download_video (net : network) (cancelled : nat → bool)
    (plan : json → outcome + string * string) (url : string) (w : world)
    : outcome * world :=
  match parse_vimeo_url url with
  | Raise _ | Ok None => (Failed, w)
  | Ok (Some video_info) =>
      let video_id := default EmptyString (video_id video_info) in
      let unlock_hash := unlock_hash video_info in
      let share_token := share_token video_info in
      let h_param := h_param video_info in
      let video_page_url :=
        if is_set unlock_hash
        then "https://vimeo.com/" ++ video_id ++ "/"
             ++ default EmptyString unlock_hash
        else if is_set share_token
        then "https://vimeo.com/" ++ video_id ++ "?share="
             ++ default EmptyString share_token
        else "https://vimeo.com/" ++ video_id in
      let '(page_response, w) := session_get net Landing video_page_url w in
      match page_response with
      | None => (Failed, w)
      | Some _ =>
      let config_url :=
        build_config_url video_id unlock_hash h_param share_token in
      let '(response, w) := session_get net Config config_url w in
      match response with
      | None => (Failed, w)
      | Some response =>
      let after_retry :=
        if negb (status_code response =? 200) then
          let embed_url :=
            if is_set unlock_hash
            then "https://player.vimeo.com/video/" ++ video_id ++ "/"
                 ++ default EmptyString unlock_hash
            else "https://player.vimeo.com/video/" ++ video_id in
          let '(embed_response, w) := session_get net Embed embed_url w in
          match embed_response with
          | None => (None, w)
          | Some _ =>
              let '(response, w) := session_get net Config config_url w in
              match response with
              | None => (None, w)
              | Some response =>
                  if negb (status_code response =? 200) then (None, w)
                  else (Some response, w)
              end
          end
        else (Some response, w) in
      let '(response, w) := after_retry in
      match response with
      | None => (Failed, w)
      | Some response =>
          match json_body response with
          | None => (Failed, w)
          | Some config_data =>
              match plan config_data with
              | inl o => (o, w)
              | inr (download_url, save_path) =>
                  download_file net cancelled download_url save_path w
              end
          end
      end end end
  end.

(** [start_download], the handler of the Download button: what it does
    with the text of the entry field.  It shows an error box, or starts
    the thread that runs [download_video] on the stripped text (the
    changes to the widgets are left out). *)
Inductive launch : Type :=
  | ShowError (message : string)
  | Start (url : string).

Definition start_download (url_var : string) : launch :=
  let url := strip_space url_var in
  if negb (truthy url) then ShowError "Please enter a Vimeo URL"
  else if negb (startswith "https://vimeo.com/" url
                || startswith "https://player.vimeo.com/" url)
  then ShowError "Invalid Vimeo URL"
  else Start url.

(** The file name that [download_video] proposes in the save dialog. *)
Definition safe_title (video_title : string) : string :=
  strip_space (re.sub re.reserved_char EmptyString video_title).

Definition suggested_filename (video_title : string) : string :=
  safe_title video_title ++ ".mp4".

End GUI.

(** ** Vocabulary of the properties *)

(** From here on [++] joins lists; strings are joined by [+:+]. *)
Local Open Scope list_scope.

(** [r] is the first element of [l] of least [cost]: every element in front
    of it costs more, none behind it costs less. *)
Definition first_min {A} (cost : A → Z) (l : list A) (r : A) : Prop :=
  ∃ l1 l2, l = l1 ++ r :: l2
    ∧ (∀ x, x ∈ l1 → cost r < cost x)
    ∧ (∀ x, x ∈ l2 → cost r ≤ cost x).

(** [r] is the first element of [l] of greatest [key]. *)
Definition first_max {A} (key : A → Z) (l : list A) (r : A) : Prop :=
  first_min (λ x, - key x) l r.

(** The url of a stream as the de-duplication sees it: the hash key of
    the value under [url] of a dictionary. *)
Definition stream_url (stream : json) : option Py.hkey :=
  match stream with
  | JDict d =>
      match dict_get "url" d with
      | Some u =>
          match Py.hash u with
          | Ok k => Some k
          | Raise _ => None
          end
      | None => None
      end
  | _ => None
  end.

(** What is kept of [streams] when the urls in [seen] are taken already:
    the first stream of every other url. *)
Fixpoint keep_first (streams : list json) (seen : gset Py.hkey) : list json :=
  match streams with
  | [] => []
  | s :: rest =>
      match stream_url s with
      | Some k =>
          if decide (k ∈ seen) then keep_first rest seen
          else s :: keep_first rest ({[k]} ∪ seen)
      | None => keep_first rest seen
      end
  end.


(** [del d[k]]: the dictionary without its item of key [k]. *)
Fixpoint dict_del {V} (k : string) (d : list (string * V))
    : list (string * V) :=
  match d with
  | [] => []
  | (k', v) :: d' =>
      if String.eqb k' k then d' else (k', v) :: dict_del k d'
  end.

(** The address of the HLS manifest of a configuration:
    [config_data['request']['files']['hls']['url']]. *)
Definition hls_url (config_data : json) : res json :=
  file_info ← Common.files_of config_data;
  hls ← Py.getitem file_info "hls";
  Py.getitem hls "url".

(** The configuration without its HLS entry. *)
Definition without_hls (config_data : json) : json :=
  match config_data with
  | JDict top =>
      match dict_get "request" top with
      | Some (JDict request) =>
          match dict_get "files" request with
          | Some (JDict files) =>
              let files := JDict (dict_del "hls" files) in
              let request := JDict (dict_set "files" files request) in
              JDict (dict_set "request" request top)
          | _ => config_data
          end
      | _ => config_data
      end
  | _ => config_data
  end.

(** How [quote_plus] writes one byte. *)
Definition quote_plus_char (c : ascii) : string :=
  if urllib.always_safe c then String c EmptyString
  else if PyStr.eqc c " " then "+"
  else String "%" (String (urllib.hex_digit (PyStr.code c / 16))
                     (String (urllib.hex_digit (PyStr.code c mod 16))
                             EmptyString)).

(** [quote_plus] byte by byte. *)
Fixpoint quote_plus_spec (s : string) : string :=
  match s with
  | EmptyString => EmptyString
  | String c s' => quote_plus_char c +:+ quote_plus_spec s'
  end.

(** The characters [quote_plus] can write. *)
Definition quoted_char (c : ascii) : bool :=
  urllib.always_safe c || PyStr.eqc c "%" || PyStr.eqc c "+".

(** One item of a query string. *)
Definition query_item (kv : string * string) : string :=
  kv.1 +:+ "=" +:+ urllib.quote_plus kv.2.

(** The characters of a query string made of such items. *)
Definition query_char (c : ascii) : bool :=
  quoted_char c || PyStr.eqc c "=" || PyStr.eqc c "&".

(** The path of the configuration endpoint after the fixed prefix. *)
Definition config_path (video_id : string) (unlock_hash : option string)
    : string :=
  if is_set unlock_hash
  then video_id +:+ "/" +:+ default "" unlock_hash +:+ "/config"
  else video_id +:+ "/config".

(** A token as the builders see it: an empty one is no token. *)
Definition token (o : option string) : option string :=
  if is_set o then o else None.

(** Query parameters that [query_string] writes so that they can be read
    back: names made of unreserved characters, values not empty. *)
Definition plain_params (params : list (string * string)) : bool :=
  forallb (λ kv, PyStr.all_chars urllib.always_safe kv.1 && PyStr.truthy kv.2)
          params.

(** The bytes of a streamed body, block after block. *)
Definition chunk_bytes (c : chunk) : string :=
  match c with
  | Data bytes | WriteError bytes => bytes
  | ReadError => ""
  end.

Definition payload (content : list chunk) : string :=
  foldr (λ c rest, chunk_bytes c +:+ rest) "" content.

(** The characters of a host name. *)
Definition host_char (c : ascii) : bool :=
  PyStr.is_alnum c || PyStr.eqc c "." || PyStr.eqc c "-".

(** The host that the requests of a step go to. *)
Definition host_of (s : step) : string :=
  match s with
  | Landing => "vimeo.com"
  | _ => "player.vimeo.com"
  end.

(** A property of one character is checked on the 256 of them. *)
Ltac by_cases_on_char c :=
  destruct c as [[] [] [] [] [] [] [] []]; by vm_compute.

(** The characters of a path made of letters, digits and slashes. *)
Definition path_char (c : ascii) : bool :=
  PyStr.is_alnum c || PyStr.eqc c "/".

(** The urls that the de-duplication loop has seen after [streams]. *)
Fixpoint seen_after (streams : list json) (seen : gset Py.hkey)
    : gset Py.hkey :=
  match streams with
  | [] => seen
  | s :: rest =>
      seen_after rest
        (match stream_url s with
         | Some k => if decide (k ∈ seen) then seen else {[k]} ∪ seen
         | None => seen
         end)
  end.

(** A candidate on which the de-duplication loop raises: [url] is found
    in it but it is no dictionary, or its url cannot be hashed. *)
Definition raises_on (stream : json) : bool :=
  match Py.contains "url" stream with
  | Ok true =>
      match Py.getitem stream "url" ≫= Py.hash with
      | Ok _ => false
      | Raise _ => true
      end
  | Ok false => false
  | Raise _ => true
  end.

(** The members of a short list, one after the other. *)
Ltac trace_cases :=
  let x := fresh "x" in
  let Hx := fresh "Hx" in
  intros x Hx;
  repeat (apply elem_of_cons in Hx as [->|Hx]; [by auto|]);
  by apply elem_of_nil in Hx.

(** The addresses that a run asks ahead of the configuration and, in the
    GUI downloader, ahead of its second attempt: [main_url] of the
    command-line [download_video], [video_page_url] and [embed_url] of
    the GUI [download_video], as functions of the reference. *)
Definition main_url (r : VideoReference) : string :=
  "https://vimeo.com/" +:+ default "" (video_id r)
  +:+ (if is_set (unlock_hash r) then "/" +:+ default "" (unlock_hash r)
       else "").

Definition video_page_url (r : VideoReference) : string :=
  "https://vimeo.com/" +:+ default "" (video_id r)
  +:+ (if is_set (unlock_hash r) then "/" +:+ default "" (unlock_hash r)
       else if is_set (share_token r)
       then "?share=" +:+ default "" (share_token r)
       else "").

Definition embed_url (r : VideoReference) : string :=
  "https://player.vimeo.com/video/" +:+ default "" (video_id r)
  +:+ (if is_set (unlock_hash r) then "/" +:+ default "" (unlock_hash r)
       else "").

(** The superscript two, U+00B2: the two bytes of its encoding. *)
Definition superscript_two : string :=
  String "194" (String "178" EmptyString).

(** A byte of ASCII text. *)
Definition is_ascii (c : ascii) : bool := (PyStr.code c <? 128)%N.

(** The text starts with [k] continuation bytes. *)
Fixpoint continued (k : nat) (s : string) : bool :=
  match k, s with
  | O, _ => true
  | S k', String c s' => PyStr.continuation c && continued k' s'
  | S _, EmptyString => false
  end.

(** Two texts have the same [k] first bytes. *)
Fixpoint agree (k : nat) (s t : string) : Prop :=
  match k, s, t with
  | O, _, _ => True
  | S k', String a s', String b t' => a = b ∧ agree k' s' t'
  | S _, _, _ => False
  end.

(** A byte of a text of digits: an ASCII digit, or a byte of a character
    outside ASCII. *)
Definition digit_byte (c : ascii) : bool :=
  PyStr.is_digit c || negb (is_ascii c).

(** The conjuncts of the boolean conjunctions among the hypotheses. *)
Ltac split_andb :=
  repeat match goal with
         | H : _ && _ = true |- _ => apply andb_prop in H as [? ?]
         end.

Ltac rewrite_all_true :=
  repeat match goal with
         | H : ?b = true |- context [?b] => rewrite H
         end.

(** * Text beyond ASCII *)

(** On ASCII text the classes of the Unicode database are the ASCII
    classes, and a character is one byte. *)
Lemma char_at_ascii c s :
  is_ascii c = true → PyStr.char_at (String c s) = Some (PyStr.code c, 0%nat).
Proof. unfold is_ascii, PyStr.char_at. by intros ->. Qed.

Lemma digit_ascii c : PyStr.is_digit c = true → is_ascii c = true.
Proof. by_cases_on_char c. Qed.

Lemma space_ascii c : PyStr.is_space c = true → is_ascii c = true.
Proof. by_cases_on_char c. Qed.

Lemma alnum_ascii c : PyStr.is_alnum c = true → is_ascii c = true.
Proof. by_cases_on_char c. Qed.

Lemma digit_cp_ascii c :
  is_ascii c = true → PyStr.digit_cp (PyStr.code c) = PyStr.is_digit c.
Proof. by_cases_on_char c. Qed.

Lemma decimal_cp_ascii c :
  is_ascii c = true → PyStr.decimal_cp (PyStr.code c) = PyStr.is_digit c.
Proof. by_cases_on_char c. Qed.

Lemma decimal_value_ascii c :
  PyStr.is_digit c = true →
  PyStr.decimal_value (PyStr.code c) = Some (Z.of_N (PyStr.code c) - 48).
Proof. by_cases_on_char c. Qed.

Lemma space_cp_ascii c :
  is_ascii c = true → PyStr.space_cp (PyStr.code c) = PyStr.is_space c.
Proof. by_cases_on_char c. Qed.

Lemma all_chars_impl (p q : ascii → bool) s :
  (∀ c, p c = true → q c = true) →
  PyStr.all_chars p s = true → PyStr.all_chars q s = true.
Proof.
  intros Hpq. induction s as [|c s IH]; simpl; [done|].
  intros [Hc Hs]%andb_prop. rewrite (Hpq c Hc). by apply IH.
Qed.

Lemma all_text_ascii (p : N → bool) (q : ascii → bool) s :
  (∀ c, is_ascii c = true → p (PyStr.code c) = q c) →
  PyStr.all_chars is_ascii s = true →
  PyStr.all_text p 0 s = PyStr.all_chars q s.
Proof.
  intros Hpq. induction s as [|c s IH]; [done|].
  cbn [PyStr.all_chars]. intros [Hc Hs]%andb_prop.
  cbn [PyStr.all_text]. by rewrite char_at_ascii, Hpq, IH.
Qed.

(** A string of the digits [0] to [9] is a text of digits, and [int]
    reads it. *)
Lemma str_isdigit_ascii s :
  PyStr.isdigit s = true → PyStr.str_isdigit s = true.
Proof.
  unfold PyStr.isdigit, PyStr.str_isdigit. intros [-> Hs]%andb_prop.
  rewrite (all_text_ascii _ PyStr.is_digit); [done|apply digit_cp_ascii|].
  revert Hs. apply all_chars_impl, digit_ascii.
Qed.

Lemma int_text_ascii acc s :
  PyStr.all_chars PyStr.is_digit s = true →
  PyStr.int_text 0 acc s = Ok (PyStr.int_acc acc s).
Proof.
  revert acc. induction s as [|c s IH]; intros acc; [done|].
  cbn [PyStr.all_chars]. intros [Hc Hs]%andb_prop.
  cbn [PyStr.int_text PyStr.int_acc].
  rewrite char_at_ascii by by apply digit_ascii.
  rewrite decimal_value_ascii by done. by apply IH.
Qed.

Lemma str_int_ascii s :
  PyStr.isdigit s = true → PyStr.str_int s = Ok (PyStr.int s).
Proof.
  unfold PyStr.isdigit, PyStr.str_int, PyStr.truthy.
  intros [Ht Hs]%andb_prop. apply negb_true_iff in Ht as ->.
  by apply int_text_ascii.
Qed.

(** On ASCII text [strip()] strips the ASCII white space. *)
Lemma lstrip_text_ascii s :
  PyStr.all_chars is_ascii s = true →
  PyStr.lstrip_text PyStr.space_cp 0 s = PyStr.lstrip PyStr.is_space s.
Proof.
  induction s as [|c s IH]; [done|].
  cbn [PyStr.all_chars]. intros [Hc Hs]%andb_prop.
  cbn [PyStr.lstrip_text PyStr.lstrip].
  rewrite char_at_ascii, space_cp_ascii by done.
  destruct (PyStr.is_space c); [by apply IH|done].
Qed.

Lemma rstrip_all_chars (p : ascii → bool) s :
  PyStr.is_empty (PyStr.rstrip p s) = PyStr.all_chars p s.
Proof.
  induction s as [|c s IH]; [done|].
  cbn [PyStr.rstrip PyStr.all_chars]. rewrite IH.
  destruct (PyStr.all_chars p s), (p c); done.
Qed.

Lemma rstrip_text_ascii s :
  PyStr.all_chars is_ascii s = true →
  PyStr.rstrip_text PyStr.space_cp s = PyStr.rstrip PyStr.is_space s.
Proof.
  induction s as [|c s IH]; [done|].
  intros Hs. pose proof Hs as [Hc Hs']%andb_prop.
  cbn [PyStr.rstrip_text PyStr.rstrip].
  rewrite (all_text_ascii _ PyStr.is_space) by (apply space_cp_ascii || done).
  cbn [PyStr.all_chars]. rewrite rstrip_all_chars, IH by done.
  by rewrite andb_comm.
Qed.

Lemma all_chars_lstrip (p q : ascii → bool) s :
  PyStr.all_chars p s = true → PyStr.all_chars p (PyStr.lstrip q s) = true.
Proof.
  induction s as [|c s IH]; [done|]. cbn [PyStr.lstrip].
  intros H. destruct (q c); [|done].
  apply andb_prop in H as [_ Hs]. by apply IH.
Qed.

Lemma strip_space_ascii s :
  PyStr.all_chars is_ascii s = true →
  PyStr.strip_space s = PyStr.strip PyStr.is_space s.
Proof.
  intros Hs. unfold PyStr.strip_space, PyStr.strip.
  rewrite lstrip_text_ascii by done.
  by rewrite rstrip_text_ascii by by apply all_chars_lstrip.
Qed.

(** What is stripped from a string is made of the characters to strip:
    a class that holds these and the characters of the result holds the
    whole string. *)
Lemma all_chars_of_lstrip (p q : ascii → bool) s :
  (∀ c, p c = true → q c = true) →
  PyStr.all_chars q (PyStr.lstrip p s) = true → PyStr.all_chars q s = true.
Proof.
  intros Hpq. induction s as [|c s IH]; [done|]. cbn [PyStr.lstrip].
  destruct (p c) eqn:Hc; [|done].
  intros H. cbn [PyStr.all_chars]. by rewrite (Hpq c Hc), IH.
Qed.

Lemma all_chars_of_rstrip (p q : ascii → bool) s :
  (∀ c, p c = true → q c = true) →
  PyStr.all_chars q (PyStr.rstrip p s) = true → PyStr.all_chars q s = true.
Proof.
  intros Hpq. induction s as [|c s IH]; [done|]. cbn [PyStr.rstrip].
  destruct (PyStr.is_empty (PyStr.rstrip p s) && p c) eqn:Hc.
  - intros _. apply andb_prop in Hc as [He Hc].
    cbn [PyStr.all_chars]. rewrite (Hpq c Hc). apply IH.
    by destruct (PyStr.rstrip p s).
  - cbn [PyStr.all_chars]. intros [-> Hs]%andb_prop. by apply IH.
Qed.

Lemma all_chars_of_strip (p q : ascii → bool) s :
  (∀ c, p c = true → q c = true) →
  PyStr.all_chars q (PyStr.strip p s) = true → PyStr.all_chars q s = true.
Proof.
  intros Hpq H. apply (all_chars_of_lstrip p); [done|].
  by apply (all_chars_of_rstrip p).
Qed.

(** A string of digits between ASCII white space is stripped by
    [strip()] as by the ASCII classes. *)
Lemma strip_space_digits s :
  PyStr.isdigit (PyStr.strip PyStr.is_space s) = true →
  PyStr.strip_space s = PyStr.strip PyStr.is_space s.
Proof.
  intros [_ Hd]%andb_prop. apply strip_space_ascii.
  apply (all_chars_of_strip PyStr.is_space); [apply space_ascii|].
  revert Hd. apply all_chars_impl, digit_ascii.
Qed.

(** A character is read off its own bytes: the first byte tells whether
    it is ASCII, and the bytes that follow it are continuation bytes. *)
Lemma char_at_continued c s cp width :
  PyStr.char_at (String c s) = Some (cp, width) →
  continued width s = true
  ∧ if is_ascii c then width = 0%nat ∧ cp = PyStr.code c
    else width ≠ 0%nat.
Proof.
  unfold PyStr.char_at, is_ascii.
  destruct (PyStr.code c <? 128)%N; [by intros [= <- <-]|].
  destruct s as [|b1 s2]; [done|].
  destruct (PyStr.in_range 194 223 c && PyStr.continuation b1) eqn:H2.
  { intros [= <- <-]. split_andb. cbn [continued]. by rewrite_all_true. }
  destruct s2 as [|b2 s3]; [done|]. cbv zeta.
  match goal with |- (if ?b then _ else _) = _ → _ => destruct b eqn:H3 end.
  { intros [= <- <-]. split_andb. cbn [continued]. by rewrite_all_true. }
  destruct s3 as [|b3 s4]; [done|].
  match goal with |- (if ?b then _ else _) = _ → _ => destruct b eqn:H4 end;
    [|done].
  intros [= <- <-]. split_andb. cbn [continued]. by rewrite_all_true.
Qed.

Lemma char_at_agree c s t cp width :
  PyStr.char_at (String c s) = Some (cp, width) → agree width s t →
  PyStr.char_at (String c t) = Some (cp, width).
Proof.
  unfold PyStr.char_at.
  destruct (PyStr.code c <? 128)%N; [done|].
  destruct s as [|b1 s2]; [done|].
  destruct (PyStr.in_range 194 223 c && PyStr.continuation b1) eqn:H2.
  { intros [= <- <-]. destruct t as [|a1 t2]; [done|].
    intros [<- _]. by rewrite H2. }
  destruct s2 as [|b2 s3]; [done|]. cbv zeta.
  match goal with |- (if ?b then _ else _) = _ → _ => destruct b eqn:H3 end.
  { intros [= <- <-]. destruct t as [|a1 [|a2 t3]]; [done|by intros [_ ?]|].
    intros (<- & <- & _). by rewrite H2, H3. }
  destruct s3 as [|b3 s4]; [done|].
  match goal with |- (if ?b then _ else _) = _ → _ => destruct b eqn:H4 end;
    [|done].
  intros [= <- <-].
  destruct t as [|a1 [|a2 [|a3 t4]]];
    [done|by intros [_ ?]|by intros (_ & _ & ?)|].
  intros (<- & <- & <- & _). by rewrite H2, H3, H4.
Qed.

Lemma continuation_not_ascii c :
  PyStr.continuation c = true → is_ascii c = false.
Proof. by_cases_on_char c. Qed.

Lemma span_text_agree p k s g rest :
  continued k s = true → PyStr.span_text p k s = (g, rest) → agree k s g.
Proof.
  revert s g. induction k as [|k IH]; intros s g; [done|].
  destruct s as [|b s]; [done|]. cbn [continued PyStr.span_text].
  intros [_ Hs]%andb_prop.
  destruct (PyStr.span_text p k s) as [h t] eqn:Hspan. intros [= <- <-].
  split; [done|]. by apply IH.
Qed.

(** What the run of a class is made of. *)
Lemma span_text_all p k s g rest :
  continued k s = true → PyStr.span_text p k s = (g, rest) →
  PyStr.all_text p k g = true.
Proof.
  revert k g. induction s as [|b s IH]; intros k g.
  { intros _. cbn [PyStr.span_text]. by intros [= <- <-]. }
  destruct k as [|k]; cbn [continued PyStr.span_text].
  - intros _.
    destruct (PyStr.char_at (String b s)) as [[cp width]|] eqn:Hc;
      [|by intros [= <- <-]].
    destruct (p cp) eqn:Hp; [|by intros [= <- <-]].
    destruct (PyStr.span_text p width s) as [h t] eqn:Hspan.
    intros [= <- <-]. cbn [PyStr.all_text].
    destruct (char_at_continued _ _ _ _ Hc) as [Hcont _].
    rewrite (char_at_agree _ _ h _ _ Hc) by by eapply span_text_agree.
    rewrite Hp. by eapply IH.
  - intros [_ Hs]%andb_prop.
    destruct (PyStr.span_text p k s) as [h t] eqn:Hspan.
    intros [= <- <-]. cbn [PyStr.all_text]. by eapply IH.
Qed.

Lemma all_text_impl (p q : N → bool) k s :
  (∀ cp, p cp = true → q cp = true) →
  PyStr.all_text p k s = true → PyStr.all_text q k s = true.
Proof.
  intros Hpq. revert k. induction s as [|b s IH]; intros k; [done|].
  destruct k as [|k]; cbn [PyStr.all_text]; [|apply IH].
  destruct (PyStr.char_at (String b s)) as [[cp width]|]; [|done].
  intros [Hp Hs]%andb_prop. by rewrite (Hpq cp Hp), IH.
Qed.

(** The bytes of a text whose characters are in a class: ASCII
    characters of the class, and bytes of characters outside ASCII. *)
Lemma all_text_bytes (p : N → bool) (q : ascii → bool) k s :
  (∀ c, is_ascii c = true → p (PyStr.code c) = true → q c = true) →
  (∀ c, is_ascii c = false → q c = true) →
  continued k s = true →
  PyStr.all_text p k s = true → PyStr.all_chars q s = true.
Proof.
  intros Hascii Hother. revert k. induction s as [|b s IH]; intros k; [done|].
  destruct k as [|k]; cbn [continued PyStr.all_text PyStr.all_chars].
  - intros _.
    destruct (PyStr.char_at (String b s)) as [[cp width]|] eqn:Hc; [|done].
    intros [Hp Hs]%andb_prop.
    destruct (char_at_continued _ _ _ _ Hc) as [Hcont Hb].
    rewrite (IH width) by done. rewrite andb_true_r.
    destruct (is_ascii b) eqn:Hab; [|by apply Hother].
    destruct Hb as [_ ->]. by apply Hascii.
  - intros [Hb Hs]%andb_prop Hall.
    rewrite (IH k) by done. rewrite andb_true_r.
    by apply Hother, continuation_not_ascii.
Qed.

Lemma digit_byte_of c :
  is_ascii c = true → PyStr.digit_cp (PyStr.code c) = true →
  digit_byte c = true.
Proof. by_cases_on_char c. Qed.

Lemma decimal_digit cp :
  PyStr.decimal_cp cp = true → PyStr.digit_cp cp = true.
Proof. unfold PyStr.digit_cp. by intros ->. Qed.

(** A text of digits holds no ASCII character but the digits [0] to
    [9]. *)
Lemma str_isdigit_bytes s :
  PyStr.str_isdigit s = true → PyStr.all_chars digit_byte s = true.
Proof.
  intros [_ Hs]%andb_prop.
  apply (all_text_bytes PyStr.digit_cp digit_byte 0); [| |done|done].
  - apply digit_byte_of.
  - unfold digit_byte. intros c ->. by rewrite orb_true_r.
Qed.

Lemma digit_byte_free c s :
  is_ascii c = true → PyStr.is_digit c = false →
  PyStr.all_chars digit_byte s = true → PyStr.has_char c s = false.
Proof.
  intros Ha Hd. unfold PyStr.has_char.
  induction s as [|b s IH]; [done|].
  cbn [PyStr.all_chars PyStr.any_char]. intros [Hb Hs]%andb_prop.
  rewrite (IH Hs), orb_false_r. unfold PyStr.eqc.
  destruct (Ascii.eqb_spec c b) as [<-|]; [|done].
  unfold digit_byte in Hb. by rewrite Ha, Hd in Hb.
Qed.

(** The group of [\d+]: a text of decimal digits. *)
Lemma digits_spec s g rest :
  re.digits s = Some (g, rest) →
  PyStr.truthy g = true ∧ PyStr.all_text PyStr.decimal_cp 0 g = true.
Proof.
  unfold re.digits.
  destruct (PyStr.span_text PyStr.decimal_cp 0 s) as [r rest'] eqn:Hspan.
  destruct (PyStr.truthy r) eqn:Ht; [|done]. intros [= <- <-].
  split; [done|]. by apply (span_text_all _ _ s _ rest').
Qed.

Lemma digits_isdigit s g rest :
  re.digits s = Some (g, rest) → PyStr.str_isdigit g = true.
Proof.
  intros [Ht Hg]%digits_spec. unfold PyStr.str_isdigit. rewrite Ht.
  revert Hg. apply all_text_impl, decimal_digit.
Qed.

(** What [strip()] returns is a piece of the text, and does not start
    with white space. *)
Lemma any_char_lstrip_text (q : ascii → bool) p k s :
  PyStr.any_char q s = false →
  PyStr.any_char q (PyStr.lstrip_text p k s) = false.
Proof.
  revert k. induction s as [|b s IH]; intros k; [done|].
  intros H. pose proof H as [_ Hs]%orb_false_elim.
  destruct k as [|k]; cbn [PyStr.lstrip_text]; [|by apply IH].
  destruct (PyStr.char_at (String b s)) as [[cp width]|]; [|done].
  destruct (p cp); [by apply IH|done].
Qed.

Lemma any_char_rstrip_text (q : ascii → bool) p s :
  PyStr.any_char q s = false →
  PyStr.any_char q (PyStr.rstrip_text p s) = false.
Proof.
  induction s as [|b s IH]; [done|]. cbn [PyStr.rstrip_text].
  destruct (PyStr.all_text p 0 (String b s)); [done|].
  cbn [PyStr.any_char]. intros [-> Hs]%orb_false_elim. by apply IH.
Qed.

Lemma any_char_strip_space (q : ascii → bool) s :
  PyStr.any_char q s = false → PyStr.any_char q (PyStr.strip_space s) = false.
Proof. intros H. by apply any_char_rstrip_text, any_char_lstrip_text. Qed.

Lemma lstrip_text_head p k s c r :
  PyStr.lstrip_text p k s = String c r →
  match PyStr.char_at (String c r) with
  | Some (cp, _) => p cp = false
  | None => True
  end.
Proof.
  revert k. induction s as [|b s IH]; intros k; [done|].
  destruct k as [|k]; cbn [PyStr.lstrip_text]; [|apply IH].
  destruct (PyStr.char_at (String b s)) as [[cp width]|] eqn:Hc.
  - destruct (p cp) eqn:Hp; [apply IH|]. intros [= <- <-]. by rewrite Hc.
  - intros [= <- <-]. by rewrite Hc.
Qed.

Lemma strip_space_head s c r :
  PyStr.strip_space s = String c r → PyStr.is_space c = false.
Proof.
  unfold PyStr.strip_space.
  destruct (PyStr.lstrip_text PyStr.space_cp 0 s) as [|b u] eqn:Hl; [done|].
  apply lstrip_text_head in Hl. cbn [PyStr.rstrip_text].
  destruct (PyStr.all_text _ _ _); [done|]. intros [= <- _].
  destruct (PyStr.is_space b) eqn:Hb; [|done].
  rewrite char_at_ascii in Hl by by apply space_ascii.
  by rewrite space_cp_ascii, Hb in Hl by by apply space_ascii.
Qed.

(** * Quality selection *)

Section FirstMin.
Context {A : Type} (cost : A → Z).

Lemma first_min_singleton x : first_min cost [x] x.
Proof.
  exists [], []. split; [done|].
  split; intros y Hy; by apply elem_of_nil in Hy.
Qed.

Lemma first_min_cons_le x l r :
  first_min cost l r → cost x ≤ cost r → first_min cost (x :: l) x.
Proof.
  intros (l1 & l2 & -> & H1 & H2) Hle.
  exists [], (l1 ++ r :: l2). split; [done|].
  split; [intros y Hy; by apply elem_of_nil in Hy|].
  intros y Hy. apply elem_of_app in Hy as [Hy|Hy].
  - specialize (H1 y Hy). lia.
  - apply elem_of_cons in Hy as [->|Hy]; [done|].
    specialize (H2 y Hy). lia.
Qed.

Lemma first_min_cons_gt x l r :
  first_min cost l r → cost r < cost x → first_min cost (x :: l) r.
Proof.
  intros (l1 & l2 & -> & H1 & H2) Hlt.
  exists (x :: l1), l2. split; [done|].
  split; [|done].
  intros y Hy. apply elem_of_cons in Hy as [->|Hy]; auto.
Qed.

Lemma first_min_snoc_lt p c x :
  first_min cost p c → cost x < cost c → first_min cost (p ++ [x]) x.
Proof.
  intros (l1 & l2 & -> & H1 & H2) Hlt.
  exists (l1 ++ c :: l2), []. split; [by rewrite <- app_assoc|].
  split; [|intros y Hy; by apply elem_of_nil in Hy].
  intros y Hy. apply elem_of_app in Hy as [Hy|Hy].
  - specialize (H1 y Hy). lia.
  - apply elem_of_cons in Hy as [->|Hy]; [done|].
    specialize (H2 y Hy). lia.
Qed.

Lemma first_min_snoc_ge p c x :
  first_min cost p c → cost c ≤ cost x → first_min cost (p ++ [x]) c.
Proof.
  intros (l1 & l2 & -> & H1 & H2) Hle.
  exists l1, (l2 ++ [x]). split; [by rewrite <- app_assoc|].
  split; [done|].
  intros y Hy. apply elem_of_app in Hy as [Hy|Hy]; [auto|].
  apply list_elem_of_singleton in Hy as ->. done.
Qed.

Lemma first_min_unique l r r' :
  first_min cost l r → first_min cost l r' → r = r'.
Proof.
  intros (l1 & l2 & -> & H1 & H2) (l1' & l2' & Heq & H1' & H2').
  revert l1' Heq H1'. induction l1 as [|a l1 IH]; intros [|a' l1'] Heq H1'.
  - by injection Heq.
  - injection Heq as <- Heq.
    assert (r' ∈ l2) as Hin by (rewrite Heq; set_solver).
    specialize (H2 _ Hin).
    specialize (H1' r ltac:(apply list_elem_of_here)). lia.
  - injection Heq as -> Heq.
    assert (r ∈ l2') as Hin by (rewrite <- Heq; set_solver).
    specialize (H2' _ Hin).
    specialize (H1 r' ltac:(apply list_elem_of_here)). lia.
  - injection Heq as -> Heq. apply (IH ltac:(set_solver) l1' Heq).
    set_solver.
Qed.

(** The loop that keeps the incumbent unless the next element costs
    strictly less. *)
Lemma fold_keep_first_min l p c :
  first_min cost p c →
  first_min cost (p ++ l)
    (fold_left (λ b x, if cost x <? cost b then x else b) l c).
Proof.
  revert p c. induction l as [|x l IH]; intros p c Hc; simpl.
  - by rewrite app_nil_r.
  - replace (p ++ x :: l) with ((p ++ [x]) ++ l) by by rewrite <- app_assoc.
    apply IH. destruct (Z.ltb_spec (cost x) (cost c)).
    + by apply first_min_snoc_lt with c.
    + by apply first_min_snoc_ge.
Qed.

(** The head of a stable sort is the first element of least cost, when
    [before] is the order of the costs. *)
Lemma head_sort_by (before : Z → Z → bool) (key : A → Z) l :
  (∀ a b, before (key a) (key b) = true ↔ cost a ≤ cost b) →
  l ≠ [] →
  ∃ r, head (sort_by before key l) = Some r ∧ first_min cost l r.
Proof.
  intros Hb. induction l as [|x l IH]; [done|]. intros _.
  destruct l as [|y l].
  - exists x. split; [done|]. apply first_min_singleton.
  - destruct IH as (r & Hr & Hmin); [done|].
    change (sort_by before key (x :: y :: l))
      with (insert_sorted before key x (sort_by before key (y :: l))).
    destruct (sort_by before key (y :: l)) as [|r0 s] eqn:Hs; [done|].
    simpl in Hr. injection Hr as ->. simpl.
    destruct (before (key x) (key r)) eqn:Hcmp.
    + exists x. split; [done|]. apply first_min_cons_le with r; [done|].
      by apply Hb.
    + exists r. split; [done|]. apply first_min_cons_gt; [done|].
      destruct (Z.le_gt_cases (cost x) (cost r)) as [Hle|Hgt]; [|lia].
      apply Hb in Hle. congruence.
Qed.
End FirstMin.

Lemma first_min_ext {A} (cost cost' : A → Z) l r :
  (∀ x, x ∈ l → cost x = cost' x) →
  first_min cost l r → first_min cost' l r.
Proof.
  intros Hext (l1 & l2 & -> & H1 & H2). exists l1, l2. split; [done|].
  assert (cost r = cost' r) as Hr by (apply Hext; set_solver).
  split; intros x Hx.
  - rewrite <- Hr, <- (Hext x) by set_solver. auto.
  - rewrite <- Hr, <- (Hext x) by set_solver. auto.
Qed.

Lemma closest_fold_pair (cost : Rendition → Z) l c :
  fold_left (λ (acc : Rendition * Z) stream,
               let diff := cost stream in
               if diff <? acc.2 then (stream, diff) else acc) l (c, cost c)
  = (let r := fold_left (λ b x, if cost x <? cost b then x else b) l c in
     (r, cost r)).
Proof.
  revert c. induction l as [|x l IH]; intros c; simpl; [done|].
  destruct (cost x <? cost c); apply IH.
Qed.

Lemma closest_stream_first_min n streams :
  streams ≠ [] →
  ∃ r, CLI.closest_stream n streams = Some r
       ∧ first_min (λ x, Z.abs (height_of x - n)) streams r.
Proof.
  destruct streams as [|first rest]; [done|]. intros _.
  unfold CLI.closest_stream.
  rewrite (closest_fold_pair (λ x, Z.abs (height_of x - n))).
  eexists. split; [reflexivity|]. simpl.
  rewrite Z.ltb_irrefl.
  apply (fold_keep_first_min (λ x, Z.abs (height_of x - n)) rest [first]).
  apply first_min_singleton.
Qed.

Lemma best_stream_first_max streams :
  streams ≠ [] →
  ∃ r, GUI.best_stream streams = Some r ∧ first_max height_of streams r.
Proof.
  destruct streams as [|first rest]; [done|]. intros _.
  unfold GUI.best_stream, first_max. eexists. split; [reflexivity|].
  pose proof (fold_keep_first_min (λ x, - height_of x) rest [first] first
                (first_min_singleton _ _)) as H.
  simpl in H.
  replace (fold_left (λ best x, if height_of best <? height_of x
                                then x else best) rest first)
    with (fold_left (λ b x, if - height_of x <? - height_of b
                            then x else b) rest first); [done|].
  generalize first. clear H. induction rest as [|x rest IH]; intros c; [done|].
  simpl. rewrite IH. f_equal.
  destruct (Z.ltb_spec (- height_of x) (- height_of c)),
           (Z.ltb_spec (height_of c) (height_of x)); done || lia.
Qed.

Lemma isdigit_head q :
  PyStr.isdigit q = true →
  ∃ c q', q = String c q' ∧ PyStr.is_digit c = true.
Proof.
  destruct q as [|c q']; [done|]. unfold PyStr.isdigit. simpl.
  intros [Hc _]%andb_prop. eauto.
Qed.

Lemma isdigit_not_keyword q :
  PyStr.isdigit q = true →
  String.eqb q "best" = false ∧ String.eqb q "worst" = false.
Proof.
  intros (c & q' & -> & Hc)%isdigit_head. simpl.
  split.
  - destruct (Ascii.eqb_spec c "b") as [->|]; [done|done].
  - destruct (Ascii.eqb_spec c "w") as [->|]; [done|done].
Qed.

(** C3. For a non-empty list of renditions, [best] (in both downloaders)
    picks the first rendition of greatest height, [worst] the first of
    least height, and a quality given in digits runs the target loop on
    the number [n] it denotes, which picks the first rendition that
    minimises [|height - n|]; a rendition without a height counts as one
    of height 0, so that it can be what [worst] picks and can win a tie
    for the target 0. *)
Theorem quality_selection (streams : list Rendition) :
  streams ≠ [] →
  (∃ r, CLI.select_stream "best" streams = Some r
        ∧ first_max height_of streams r)
  ∧ (∃ r, GUI.best_stream streams = Some r
          ∧ first_max height_of streams r)
  ∧ (∃ r, CLI.select_stream "worst" streams = Some r
          ∧ first_min height_of streams r)
  ∧ (∀ quality, PyStr.isdigit quality = true →
       CLI.select_stream quality streams
       = CLI.closest_stream (PyStr.int quality) streams)
  ∧ (∀ n, ∃ r, CLI.closest_stream n streams = Some r
               ∧ first_min (λ x, Z.abs (height_of x - n)) streams r)
  ∧ (∀ x, height x = None → height_of x = 0)
  ∧ (∃ x y, height x = None ∧ height y = Some 360
            ∧ CLI.select_stream "worst" [y; x] = Some x)
  ∧ (∃ x y, height x = None ∧ height y = Some 0
            ∧ CLI.select_stream "0" [x; y] = Some x).
Proof.
  intros Hne. repeat split.
  - unfold first_max.
    apply (head_sort_by (λ x, - height_of x) Z.geb height_of); [|done].
    intros a b. rewrite Z.geb_le. lia.
  - by apply best_stream_first_max.
  - apply (head_sort_by height_of Z.leb height_of); [|done].
    intros a b. apply Z.leb_le.
  - intros quality Hq. unfold CLI.select_stream.
    destruct (isdigit_not_keyword _ Hq) as [-> ->].
    unfold CLI.requested_height.
    by rewrite (str_isdigit_ascii _ Hq), (str_int_ascii _ Hq).
  - intros n. by apply closest_stream_first_min.
  - intros x Hx. unfold height_of. by rewrite Hx.
  - by exists (mkRendition "a" None None None),
              (mkRendition "b" None (Some 360) None).
  - by exists (mkRendition "a" None None None),
              (mkRendition "b" None (Some 0) None).
Qed.

Lemma quality_selection_witness :
  let streams := [mkRendition "a" None (Some 144) None;
                  mkRendition "b" None (Some 360) None;
                  mkRendition "c" None (Some 1080) None] in
  streams ≠ []
  ∧ CLI.select_stream "500" streams = CLI.closest_stream 500 streams
  ∧ ∃ r, CLI.closest_stream 500 streams = Some r
         ∧ first_min (λ x, Z.abs (height_of x - 500)) streams r.
Proof.
  intros streams. split; [discriminate|].
  destruct (quality_selection streams ltac:(discriminate))
    as (_ & _ & _ & Hdigits & Hloop & _).
  split; [by apply (Hdigits "500")|apply Hloop].
Defined.

(** The fixture of three renditions of heights 144, 360 and 1080. *)
Example selection_fixture :
  let r144 := mkRendition "a" None (Some 144) None in
  let r360 := mkRendition "b" None (Some 360) None in
  let r1080 := mkRendition "c" None (Some 1080) None in
  let streams := [r144; r360; r1080] in
  CLI.select_stream "best" streams = Some r1080
  ∧ GUI.best_stream streams = Some r1080
  ∧ CLI.select_stream "worst" streams = Some r144
  ∧ CLI.select_stream "500" streams = Some r360
  ∧ CLI.select_stream "best" [r360] = Some r360
  ∧ CLI.select_stream "worst" [r360] = Some r360
  ∧ CLI.select_stream "9999" [r360] = Some r360.
Proof. repeat split; reflexivity. Qed.

(** C10, amended. In the command-line downloader a quality that is
    neither [best] nor [worst] and of which [isdigit()] does not hold is
    read as the target height 0: for a non-empty list of renditions the
    selection succeeds and returns the first rendition of least absolute
    height, a missing height counted as 0; when no height is negative
    this is the first rendition of least height. *)
Theorem unparsable_quality_is_target_zero
    (quality : string) (streams : list Rendition) :
  quality ≠ "best" → quality ≠ "worst" →
  PyStr.str_isdigit quality = false →
  streams ≠ [] →
  CLI.requested_height quality = Ok 0
  ∧ ∃ r, CLI.select_stream quality streams = Some r
         ∧ first_min (λ x, Z.abs (height_of x)) streams r
         ∧ ((∀ x, x ∈ streams → 0 ≤ height_of x) →
            first_min height_of streams r).
Proof.
  intros Hb Hw Hd Hne.
  assert (CLI.requested_height quality = Ok 0) as Hreq.
  { unfold CLI.requested_height. by rewrite Hd. }
  split; [done|].
  assert (CLI.select_stream quality streams = CLI.closest_stream 0 streams)
    as ->.
  { unfold CLI.select_stream.
    apply String.eqb_neq in Hb, Hw. by rewrite Hb, Hw, Hreq. }
  destruct (closest_stream_first_min 0 streams Hne) as (r & Hr & Hmin).
  exists r. split; [done|]. split.
  - apply (first_min_ext (λ x, Z.abs (height_of x - 0))); [|done].
    intros x _. f_equal. lia.
  - intros Hpos.
    apply (first_min_ext (λ x, Z.abs (height_of x - 0))); [|done].
    intros x Hx. specialize (Hpos x Hx). lia.
Qed.

Lemma unparsable_quality_is_target_zero_witness :
  let missing := mkRendition "b" None None None in
  let streams := [mkRendition "a" None (Some 360) None; missing;
                  mkRendition "c" None (Some 0) None] in
  CLI.select_stream "720p" streams = Some missing
  ∧ CLI.requested_height "720p" = Ok 0
  ∧ ∃ r, CLI.select_stream "720p" streams = Some r
         ∧ first_min (λ x, Z.abs (height_of x)) streams r
         ∧ ((∀ x, x ∈ streams → 0 ≤ height_of x) →
            first_min height_of streams r).
Proof.
  intros missing streams. split; [reflexivity|].
  apply (unparsable_quality_is_target_zero "720p" streams);
    reflexivity || discriminate.
Defined.

(** C10 as stated fails when a height is negative: the rendition picked
    is the one closest to 0, not the one of least height. *)
Lemma negative_height_not_selected :
  let low := mkRendition "a" None (Some (-5)) None in
  let zero := mkRendition "b" None (Some 0) None in
  CLI.select_stream "high" [low; zero] = Some zero
  ∧ first_min height_of [low; zero] low
  ∧ ¬ first_min height_of [low; zero] zero.
Proof.
  intros low zero. split; [reflexivity|].
  assert (first_min height_of [low; zero] low) as Hlow.
  { exists [], [zero]. split; [done|].
    split; [by intros x ?%elem_of_nil|].
    intros x [->|?%elem_of_nil]%elem_of_cons; by compute. }
  split; [done|]. intros Hzero.
  by pose proof (first_min_unique height_of _ _ _ Hlow Hzero).
Qed.

Lemma str_isdigit_not_keyword q :
  PyStr.str_isdigit q = true →
  String.eqb q "best" = false ∧ String.eqb q "worst" = false.
Proof.
  destruct q as [|c q']; [done|]. unfold PyStr.str_isdigit.
  cbn [PyStr.truthy PyStr.is_empty negb andb PyStr.all_text].
  destruct (Ascii.eqb_spec c "b") as [->|Hb]; [done|].
  destruct (Ascii.eqb_spec c "w") as [->|Hw]; [done|].
  intros _. cbn [String.eqb].
  apply Ascii.eqb_neq in Hb, Hw. by rewrite Hb, Hw.
Qed.

(** The quality may also be made of digits that [int] does not read, a
    superscript two for one: [isdigit()] holds of it, [int] raises
    [ValueError], and the handler of the target branch selects the first
    stream, whatever its height. *)
Lemma unreadable_digits_select_first quality streams e :
  PyStr.str_isdigit quality = true → PyStr.str_int quality = Raise e →
  CLI.select_stream quality streams = head streams.
Proof.
  intros Hd Hint. unfold CLI.select_stream.
  destruct (str_isdigit_not_keyword _ Hd) as [-> ->].
  unfold CLI.requested_height. by rewrite Hd, Hint.
Qed.

Lemma superscript_quality_selects_first :
  let high := mkRendition "a" None (Some 720) None in
  let low := mkRendition "b" None (Some 0) None in
  PyStr.str_isdigit superscript_two = true
  ∧ PyStr.str_int superscript_two = Raise ValueError
  ∧ CLI.select_stream superscript_two [high; low] = Some high
  ∧ first_min height_of [high; low] low.
Proof.
  intros high low. repeat split; try reflexivity.
  exists [high], []. split; [done|].
  split; [|by intros x ?%elem_of_nil].
  intros x [->|?%elem_of_nil]%elem_of_cons; by compute.
Qed.

(** * Stream extraction *)

Lemma unique_loop_spec streams seen acc out :
  Common.unique_loop streams seen acc = Ok out →
  out = acc ++ keep_first streams seen.
Proof.
  revert seen acc. induction streams as [|s rest IH]; intros seen acc; simpl.
  - intros [= <-]. by rewrite app_nil_r.
  - destruct s as [| | | |l|d]; simpl; try discriminate.
    + destruct (PyStr.contains "url" s); simpl; [discriminate|]. apply IH.
    + destruct (existsb _ l); simpl; [discriminate|]. apply IH.
    + destruct (dict_get "url" d) as [u|] eqn:Hu; simpl.
      2:{ apply IH. }
      destruct (Py.hash u) as [k|] eqn:Hk; simpl; [|discriminate].
      destruct (decide (k ∈ seen)) as [Hin|Hin].
      * rewrite bool_decide_eq_false_2 by auto. apply IH.
      * rewrite bool_decide_eq_true_2 by auto. simpl.
        intros ->%IH. by rewrite <- app_assoc.
Qed.


Lemma keep_first_fresh streams seen s :
  s ∈ keep_first streams seen →
  ∃ k, stream_url s = Some k ∧ k ∉ seen.
Proof.
  revert seen. induction streams as [|x rest IH]; intros seen; simpl.
  - by intros ?%elem_of_nil.
  - destruct (stream_url x) as [k|] eqn:Hk; [|apply IH].
    destruct (decide (k ∈ seen)); [apply IH|].
    intros [->|Hs]%elem_of_cons; [eauto|].
    destruct (IH _ Hs) as (k' & Hk' & Hfresh). exists k'. set_solver.
Qed.

Lemma keep_first_NoDup streams seen :
  NoDup (stream_url <$> keep_first streams seen).
Proof.
  revert seen. induction streams as [|x rest IH]; intros seen; simpl.
  - constructor.
  - destruct (stream_url x) as [k|] eqn:Hk; [|apply IH].
    destruct (decide (k ∈ seen)); [apply IH|].
    rewrite fmap_cons, Hk. constructor; [|apply IH].
    intros (s & Hs & Hin)%list_elem_of_fmap.
    destruct (keep_first_fresh _ _ _ Hin) as (k' & Hk' & Hfresh).
    rewrite Hk' in Hs. set_solver.
Qed.

Lemma keep_first_sublist streams seen :
  keep_first streams seen `sublist_of` streams.
Proof.
  revert seen. induction streams as [|x rest IH]; intros seen; simpl.
  - constructor.
  - destruct (stream_url x) as [k|]; [|by constructor].
    destruct (decide (k ∈ seen)); by constructor.
Qed.




Lemma CLI_extract_streams_GUI config_data msgs out :
  CLI.extract_streams config_data = Ok (msgs, out) →
  GUI.extract_streams config_data = Ok out.
Proof.
  unfold CLI.extract_streams, GUI.extract_streams.
  destruct (Common.collect_streams config_data) as [streams|]; simpl;
    [|discriminate].
  destruct (CLI.probe_hls config_data _); simpl; [|discriminate].
  destruct (CLI.probe_master config_data _); simpl; [|discriminate].
  destruct (Common.unique streams); simpl; [|discriminate].
  by intros [= _ ->].
Qed.



(** * The HLS entry *)

Lemma dict_get_set {V} k k' (v : V) d :
  dict_get k (dict_set k' v d)
  = if String.eqb k' k then Some v else dict_get k d.
Proof.
  induction d as [|[k0 v0] d IH]; simpl.
  - destruct (String.eqb_spec k' k); done.
  - destruct (String.eqb_spec k0 k') as [->|Hne]; simpl.
    + destruct (String.eqb_spec k' k); done.
    + rewrite IH. destruct (String.eqb_spec k0 k) as [->|]; [|done].
      by rewrite (proj2 (String.eqb_neq k' k)).
Qed.

Lemma dict_get_del_ne {V} k k' (d : list (string * V)) :
  k ≠ k' → dict_get k (dict_del k' d) = dict_get k d.
Proof.
  intros Hne. induction d as [|[k0 v0] d IH]; simpl; [done|].
  destruct (String.eqb_spec k0 k') as [->|]; simpl.
  - by rewrite (proj2 (String.eqb_neq k' k)).
  - by rewrite IH.
Qed.

Lemma dict_get_None {V} k (d : list (string * V)) :
  k ∉ d.*1 → dict_get k d = None.
Proof.
  induction d as [|[k0 v0] d IH]; simpl; [done|].
  intros Hk. destruct (String.eqb_spec k0 k) as [->|].
  - exfalso. apply Hk, list_elem_of_here.
  - apply IH. intros ?. by apply Hk, list_elem_of_further.
Qed.

Lemma dict_get_del_eq {V} k (d : list (string * V)) :
  NoDup d.*1 → dict_get k (dict_del k d) = None.
Proof.
  induction d as [|[k0 v0] d IH]; simpl; [done|].
  rewrite NoDup_cons. intros [Hk0 Hnd].
  destruct (String.eqb_spec k0 k) as [->|Hne]; simpl.
  - by apply dict_get_None.
  - rewrite (proj2 (String.eqb_neq k0 k)) by done. by apply IH.
Qed.

Lemma wf_json_dict d :
  wf_json (JDict d) = true →
  NoDup d.*1 ∧ ∀ k v, dict_get k d = Some v → wf_json v = true.
Proof.
  simpl. intros [Hnd Hitems]%andb_prop. split.
  - by apply bool_decide_eq_true in Hnd.
  - clear Hnd. induction d as [|[k0 v0] d IH]; simpl; [done|].
    apply andb_prop in Hitems as [Hv0 Hd]. intros k v.
    destruct (String.eqb k0 k); [by intros [= <-]|]. by apply IH.
Qed.

(** The shape of a configuration that has an HLS manifest address. *)
Lemma hls_url_shape config_data u :
  hls_url config_data = Ok u →
  ∃ top request files hls,
    config_data = JDict top
    ∧ dict_get "request" top = Some (JDict request)
    ∧ dict_get "files" request = Some (JDict files)
    ∧ dict_get "hls" files = Some (JDict hls)
    ∧ dict_get "url" hls = Some u.
Proof.
  unfold hls_url, Common.files_of.
  destruct config_data as [| | | | |top]; try discriminate. simpl.
  destruct (dict_get "request" top) as [request|] eqn:Hreq; [|discriminate].
  simpl. destruct request as [| | | | |request]; try discriminate. simpl.
  destruct (dict_get "files" request) as [files|] eqn:Hfiles;
    [|discriminate].
  simpl. destruct files as [| | | | |files]; try discriminate. simpl.
  destruct (dict_get "hls" files) as [hls|] eqn:Hhls; [|discriminate].
  simpl. destruct hls as [| | | | |hls]; try discriminate. simpl.
  destruct (dict_get "url" hls) as [u'|] eqn:Hu; [|discriminate].
  intros [= <-]. by exists top, request, files, hls.
Qed.

(** What the probes read of a configuration whose [request.files] is a
    dictionary. *)
Section Shaped.
Context (top request files : list (string * json)).
Context (Hrequest : dict_get "request" top = Some (JDict request)).
Context (Hfiles : dict_get "files" request = Some (JDict files)).

Lemma shaped_has_files : Common.has_files (JDict top) = Ok true.
Proof using Hrequest Hfiles.
  unfold Common.has_files. simpl. rewrite Hrequest. simpl. by rewrite Hfiles.
Qed.

Lemma shaped_files_of : Common.files_of (JDict top) = Ok (JDict files).
Proof using Hrequest Hfiles.
  unfold Common.files_of. simpl. rewrite Hrequest. simpl. by rewrite Hfiles.
Qed.

Lemma shaped_probe_progressive streams :
  Common.probe_progressive (JDict top) streams
  = match dict_get "progressive" files with
    | Some progressive => Common.extend streams progressive
    | None => Ok streams
    end.
Proof using Hrequest Hfiles.
  unfold Common.probe_progressive. simpl. rewrite Hrequest. simpl.
  rewrite Hfiles. simpl. by destruct (dict_get "progressive" files).
Qed.

Lemma shaped_probe_mime streams :
  Common.probe_mime (JDict top) streams
  = match dict_get "mime" files with
    | Some mime => items ← Py.items mime; Common.mime_loop items streams
    | None => Ok streams
    end.
Proof using Hrequest Hfiles.
  unfold Common.probe_mime. rewrite shaped_has_files. simpl.
  rewrite shaped_files_of. simpl. by destruct (dict_get "mime" files).
Qed.

Lemma shaped_probe_nested streams :
  Common.probe_nested (JDict top) streams = Common.nested_loop files streams.
Proof using Hrequest Hfiles.
  unfold Common.probe_nested. rewrite shaped_has_files. simpl.
  by rewrite shaped_files_of.
Qed.

Lemma shaped_probe_hls out :
  CLI.probe_hls (JDict top) out
  = match dict_get "hls" files with
    | Some hls =>
        c ← Py.contains "url" hls;
        if c : bool then
          hls_url ← Py.getitem hls "url"; Ok (out ++ [CLI.FoundHls hls_url])
        else Ok out
    | None => Ok out
    end.
Proof using Hrequest Hfiles.
  unfold CLI.probe_hls. rewrite shaped_has_files. simpl.
  rewrite shaped_files_of. simpl. destruct (dict_get "hls" files); [|done].
  simpl. by destruct (Py.contains "url" j).
Qed.
End Shaped.

Lemma nested_loop_del files v streams :
  dict_get "hls" files = Some v →
  Common.looks_like_streams v = Ok false →
  Common.nested_loop (dict_del "hls" files) streams
  = Common.nested_loop files streams.
Proof.
  intros Hget Hv. revert streams Hget.
  induction files as [|[k0 v0] files IH]; intros streams; simpl; [done|].
  destruct (String.eqb k0 "hls").
  - intros [= ->]. by rewrite Hv.
  - intros Hget. simpl.
    destruct (Common.looks_like_streams v0) as [[]|]; simpl; [|by apply IH|done].
    destruct (Common.extend streams v0); simpl; [by apply IH|done].
Qed.

Lemma probe_progressive_download_same top top' streams :
  dict_get "video" top' = dict_get "video" top →
  Common.probe_progressive_download (JDict top') streams
  = Common.probe_progressive_download (JDict top) streams.
Proof.
  intros H. unfold Common.probe_progressive_download. simpl. by rewrite H.
Qed.

Lemma probe_master_same top top' out :
  dict_get "player" top' = dict_get "player" top →
  CLI.probe_master (JDict top') out = CLI.probe_master (JDict top) out.
Proof.
  intros H. unfold CLI.probe_master. simpl. by rewrite H.
Qed.

Lemma probe_master_app config_data out out2 :
  CLI.probe_master config_data out = Ok out2 →
  ∃ tail, out2 = out ++ tail
    ∧ (∀ out', CLI.probe_master config_data out' = Ok (out' ++ tail))
    ∧ (∀ v, CLI.FoundHls v ∉ tail).
Proof.
  unfold CLI.probe_master.
  destruct (py_and _ _) as [[]|]; simpl; [| |discriminate].
  - destruct (Py.getitem config_data "player") as [player|]; simpl;
      [|discriminate].
    destruct (Py.getitem player "config_url") as [c|]; simpl; [|discriminate].
    intros [= <-]. exists [CLI.FoundMaster c]. split; [done|].
    split; [done|]. intros v [?|?%elem_of_nil]%elem_of_cons; done.
  - intros [= <-]. exists []. rewrite app_nil_r. split; [done|].
    split; [intros; by rewrite app_nil_r|]. intros v ?%elem_of_nil. done.
Qed.

(** Taking the HLS entry away changes no candidate. *)
Lemma collect_streams_without_hls config_data u :
  hls_url config_data = Ok u →
  Common.collect_streams (without_hls config_data)
  = Common.collect_streams config_data.
Proof.
  intros (top & request & files & hls & -> & Hreq & Hfiles & Hhls & Hu)
    %hls_url_shape.
  unfold without_hls. rewrite Hreq, Hfiles.
  set (files' := dict_del "hls" files).
  set (request' := dict_set "files" (JDict files') request).
  set (top' := dict_set "request" (JDict request') top).
  assert (dict_get "request" top' = Some (JDict request')) as Hreq'.
  { unfold top'. by rewrite dict_get_set. }
  assert (dict_get "files" request' = Some (JDict files')) as Hfiles'.
  { unfold request'. by rewrite dict_get_set. }
  unfold Common.collect_streams.
  rewrite (shaped_probe_progressive top request files Hreq Hfiles).
  rewrite (shaped_probe_progressive top' request' files' Hreq' Hfiles').
  unfold files' at 1. rewrite dict_get_del_ne by done.
  destruct (match dict_get "progressive" files with
            | Some p => Common.extend [] p
            | None => Ok []
            end) as [s1|]; simpl; [|done].
  rewrite (probe_progressive_download_same top top')
    by (unfold top'; by rewrite dict_get_set).
  destruct (Common.probe_progressive_download (JDict top) s1) as [s2|];
    simpl; [|done].
  rewrite (shaped_probe_mime top request files Hreq Hfiles).
  rewrite (shaped_probe_mime top' request' files' Hreq' Hfiles').
  unfold files' at 1. rewrite dict_get_del_ne by done.
  destruct (match dict_get "mime" files with
            | Some mime => items ← Py.items mime; Common.mime_loop items s2
            | None => Ok s2
            end) as [s3|]; simpl; [|done].
  rewrite (shaped_probe_nested top request files Hreq Hfiles).
  rewrite (shaped_probe_nested top' request' files' Hreq' Hfiles').
  by apply nested_loop_del with (JDict hls).
Qed.

(** C9, amended. When a configuration has an HLS manifest address and the
    command-line extraction returns, the address has been printed, and the
    streams returned are those returned for the configuration without
    its HLS entry, for which nothing about HLS is printed: the HLS branch
    adds no stream. *)
Theorem hls_entry_only_logged config_data u msgs out :
  wf_json config_data = true →
  hls_url config_data = Ok u →
  CLI.extract_streams config_data = Ok (msgs, out) →
  CLI.FoundHls u ∈ msgs
  ∧ ∃ msgs', CLI.extract_streams (without_hls config_data) = Ok (msgs', out)
      ∧ ∀ v, CLI.FoundHls v ∉ msgs'.
Proof.
  intros Hwf Hhls_url Hcli.
  pose proof (collect_streams_without_hls _ _ Hhls_url) as Hcollect.
  destruct (hls_url_shape _ _ Hhls_url)
    as (top & request & files & hls & -> & Hreq & Hfiles & Hhls & Hu).
  assert (NoDup files.*1) as Hnd.
  { destruct (wf_json_dict _ Hwf) as [_ Htop].
    destruct (wf_json_dict _ (Htop _ _ Hreq)) as [_ Hrequest].
    by destruct (wf_json_dict _ (Hrequest _ _ Hfiles)) as [? _]. }
  revert Hcli Hcollect. unfold CLI.extract_streams, without_hls.
  rewrite Hreq, Hfiles.
  set (files' := dict_del "hls" files).
  set (request' := dict_set "files" (JDict files') request).
  set (top' := dict_set "request" (JDict request') top).
  assert (dict_get "request" top' = Some (JDict request')) as Hreq'.
  { unfold top'. by rewrite dict_get_set. }
  assert (dict_get "files" request' = Some (JDict files')) as Hfiles'.
  { unfold request'. by rewrite dict_get_set. }
  intros Hcli ->.
  destruct (Common.collect_streams (JDict top)) as [streams|]; simpl in *;
    [|discriminate].
  rewrite (shaped_probe_hls top request files Hreq Hfiles), Hhls in Hcli.
  rewrite (shaped_probe_hls top' request' files' Hreq' Hfiles').
  unfold files' at 1. rewrite dict_get_del_eq by done.
  simpl in *. rewrite Hu in Hcli. simpl in Hcli.
  rewrite (probe_master_same top top')
    by (unfold top'; by rewrite dict_get_set).
  destruct (CLI.probe_master (JDict top) _) as [out2|] eqn:Hmaster;
    simpl in Hcli; [|discriminate].
  destruct (probe_master_app _ _ _ Hmaster) as (tail & -> & Htail & Hno).
  rewrite Htail. simpl.
  destruct (Common.unique streams) as [unique_streams|]; simpl in *;
    [|discriminate].
  injection Hcli as <- <-. split.
  - destruct unique_streams; simpl;
      apply list_elem_of_further, list_elem_of_here.
  - eexists. split; [reflexivity|]. intros v Hin.
    assert (CLI.FoundHls v ∈ tail ++ [CLI.NoStandardStreams]) as Hin'.
    { destruct unique_streams; simpl in Hin;
        apply elem_of_cons in Hin as [?|Hin]; try done.
      apply elem_of_app. by left. }
    apply elem_of_app in Hin' as [?|[?|?%elem_of_nil]%elem_of_cons];
      [by apply (Hno v)|done|done].
Qed.

(** C9 as stated fails: a manifest address that is also the address of a
    progressive rendition is returned. *)
Lemma hls_url_returned :
  let manifest := JStr "https://cdn.example/master.m3u8" in
  let rendition := JDict [("url", manifest); ("height", JNum 360)] in
  let config_data :=
    JDict [("request",
            JDict [("files",
                    JDict [("hls", JDict [("url", manifest)]);
                           ("progressive", JList [rendition])])])] in
  wf_json config_data = true
  ∧ hls_url config_data = Ok manifest
  ∧ ∃ msgs, CLI.extract_streams config_data = Ok (msgs, [rendition])
      ∧ Py.getitem rendition "url" = Ok manifest.
Proof.
  intros manifest rendition config_data.
  split; [reflexivity|]. split; [reflexivity|].
  eexists. split; reflexivity.
Qed.

Lemma hls_entry_only_logged_witness :
  let manifest := JStr "https://cdn.example/master.m3u8" in
  let rendition := JDict [("url", JStr "https://cdn.example/360.mp4");
                          ("height", JNum 360)] in
  let config_data :=
    JDict [("request",
            JDict [("files",
                    JDict [("hls", JDict [("url", manifest)]);
                           ("progressive", JList [rendition])])])] in
  let msgs := [CLI.ResponseKeys (Some ["request"]); CLI.FoundHls manifest] in
  CLI.extract_streams config_data = Ok (msgs, [rendition])
  ∧ CLI.FoundHls manifest ∈ msgs
  ∧ ∃ msgs', CLI.extract_streams (without_hls config_data)
             = Ok (msgs', [rendition])
      ∧ ∀ v, CLI.FoundHls v ∉ msgs'.
Proof.
  intros manifest rendition config_data msgs. split; [reflexivity|].
  apply (hls_entry_only_logged config_data manifest msgs [rendition]);
    reflexivity.
Defined.

(** * Fetching *)

Lemma CLI_write_chunks_path content save_path fs ok fs' :
  CLI.write_chunks content save_path fs = (ok, fs') →
  ∀ p, p ≠ save_path → fs' !! p = fs !! p.
Proof.
  revert fs. induction content as [|[bytes|bytes|] rest IH]; intros fs; simpl.
  - by intros [= _ <-].
  - intros H p Hp. rewrite (IH _ H p Hp).
    destruct (PyStr.truthy bytes); [|done].
    unfold write. by rewrite lookup_insert_ne.
  - destruct (PyStr.truthy bytes); [by intros [= _ <-]|]. apply IH.
  - by intros [= _ <-].
Qed.

(** A fetch of the command-line downloader that fails leaves no file at
    the destination, and no other file is touched. *)
Lemma CLI_download_file_failure net url save_path w w' :
  CLI.download_file net url save_path w = (false, w') →
  files w' !! save_path = None
  ∧ ∀ p, p ≠ save_path → files w' !! p = files w !! p.
Proof.
  unfold CLI.download_file, session_get. simpl.
  destruct (net (requests w) url) as [response|].
  - destruct (raises_for_status response).
    + intros [= <-]. simpl. unfold remove_if_exists.
      split; [apply lookup_delete_eq|].
      intros p Hp. by rewrite lookup_delete_ne.
    + destruct (CLI.write_chunks _ _ _) as [[] fs'] eqn:Hw; [discriminate|].
      intros [= <-]. simpl. unfold remove_if_exists.
      split; [apply lookup_delete_eq|].
      intros p Hp. rewrite lookup_delete_ne by done.
      rewrite (CLI_write_chunks_path _ _ _ _ _ Hw p Hp).
      unfold open_wb. by rewrite lookup_insert_ne.
  - intros [= <-]. simpl. unfold remove_if_exists.
    split; [apply lookup_delete_eq|].
    intros p Hp. by rewrite lookup_delete_ne.
Qed.

Lemma GUI_write_loop_cancelled content cancelled i save_path fs fs' :
  GUI.write_loop content cancelled i save_path fs = (GUI.Cancelled, fs') →
  fs' !! save_path = None.
Proof.
  revert i fs. induction content as [|[data|data|] rest IH]; intros i fs;
    simpl; try discriminate.
  - destruct (cancelled i); [|apply IH].
    intros [= <-]. apply lookup_delete_eq.
  - destruct (cancelled i); [|discriminate].
    intros [= <-]. apply lookup_delete_eq.
Qed.

(** A fetch of the GUI downloader that is cancelled leaves no file at the
    destination. *)
Lemma GUI_download_file_cancelled net cancelled url save_path w w' :
  GUI.download_file net cancelled url save_path w = (GUI.Cancelled, w') →
  files w' !! save_path = None.
Proof.
  unfold GUI.download_file, session_get. simpl.
  destruct (net (requests w) url) as [response|]; [|discriminate].
  destruct (raises_for_status response); [discriminate|].
  destruct (GUI.write_loop _ _ _ _ _) as [o fs'] eqn:Hw.
  intros [= -> <-]. simpl. by eapply GUI_write_loop_cancelled.
Qed.

Lemma GUI_write_loop_broken blocks cancelled i save_path fs :
  (∀ j, cancelled j = false) →
  GUI.write_loop (map Data blocks ++ [ReadError]) cancelled i save_path fs
  = (GUI.Failed,
     foldl (λ fs data, write save_path data fs) fs blocks).
Proof.
  intros Hc. revert i fs. induction blocks as [|b blocks IH]; intros i fs;
    simpl; [done|].
  rewrite Hc. apply IH.
Qed.

Lemma write_lookup save_path data fs :
  is_Some (write save_path data fs !! save_path).
Proof. unfold write. rewrite lookup_insert_eq. eauto. Qed.

(** In the GUI downloader a body that breaks off after any number of
    blocks, with nobody cancelling, makes [download_file] fail and leaves
    the destination file on disk. *)
Lemma GUI_download_file_broken
    net cancelled url save_path w status body blocks :
  net (requests w) url
    = Some (mkResponse status body (map Data blocks ++ [ReadError])) →
  raises_for_status (mkResponse status body (map Data blocks ++ [ReadError]))
    = false →
  (∀ j, cancelled j = false) →
  ∃ w', GUI.download_file net cancelled url save_path w = (GUI.Failed, w')
        ∧ is_Some (files w' !! save_path).
Proof.
  intros Hnet Hstatus Hc. unfold GUI.download_file, session_get. simpl.
  rewrite Hnet, Hstatus. simpl.
  rewrite GUI_write_loop_broken by done.
  eexists. split; [reflexivity|]. simpl.
  assert (∀ fs, is_Some (fs !! save_path) →
            is_Some (foldl (λ fs data, write save_path data fs) fs blocks
                       !! save_path)) as Hfold.
  { clear Hnet Hstatus. induction blocks as [|b blocks IH]; intros fs Hfs;
      simpl; [done|]. apply IH, write_lookup. }
  apply Hfold. unfold open_wb. rewrite lookup_insert_eq. eauto.
Qed.

(** C1 is not met by the GUI downloader. The server answers 200 and the
    body breaks off after the block [ab]; nobody cancels. The fetch of the
    GUI downloader fails and the truncated file, holding [ab], stays at the
    destination; the command-line downloader, on the same answer, fails
    and leaves no file. *)
Theorem GUI_download_file_leaves_partial_file :
  let net : network :=
    λ _ _, Some (mkResponse 200 None [Data "ab"; ReadError]) in
  let w := mkWorld [] ∅ in
  (∃ w', GUI.download_file net (λ _, false) "https://cdn.example/v.mp4"
           "video.mp4" w = (GUI.Failed, w')
         ∧ files w' !! "video.mp4" = Some "ab")
  ∧ (∃ w', CLI.download_file net "https://cdn.example/v.mp4" "video.mp4" w
           = (false, w')
         ∧ files w' !! "video.mp4" = None).
Proof. split; eexists; split; reflexivity. Qed.

(** * Orchestration *)

Lemma CLI_download_file_requests net url save_path w ok w' :
  CLI.download_file net url save_path w = (ok, w') →
  requests w' = requests w ++ [(Media, url)].
Proof.
  unfold CLI.download_file, session_get. simpl.
  destruct (net (requests w) url) as [response|]; [|by intros [= _ <-]].
  destruct (raises_for_status response); [by intros [= _ <-]|].
  destruct (CLI.write_chunks _ _ _) as [[] fs']; by intros [= _ <-].
Qed.

Lemma GUI_download_file_requests net cancelled url save_path w o w' :
  GUI.download_file net cancelled url save_path w = (o, w') →
  requests w' = requests w ++ [(Media, url)].
Proof.
  unfold GUI.download_file, session_get. simpl.
  destruct (net (requests w) url) as [response|]; [|by intros [= _ <-]].
  destruct (raises_for_status response); [by intros [= _ <-]|].
  destruct (GUI.write_loop _ _ _ _ _) as [o' fs']. by intros [= _ <-].
Qed.

(** The command-line downloader asks for the configuration at most once:
    a run issues no request, or the landing-page and one configuration
    request, followed by the fetch when the configuration was obtained. *)
Lemma CLI_download_video_requests net plan url fs ok w' :
  CLI.download_video net plan url (mkWorld [] fs) = Ok (ok, w') →
  requests w' = []
  ∨ ∃ page config,
      requests w' = [(Landing, page); (Config, config)]
      ∨ ∃ media,
          requests w' = [(Landing, page); (Config, config); (Media, media)]
          ∧ ∃ r, net [(Landing, page)] config = Some r
                 ∧ raises_for_status r = false.
Proof.
  unfold CLI.download_video.
  destruct (CLI.parse_vimeo_url url) as [r|]; simpl; [|discriminate].
  destruct (is_set (video_id r)); simpl; [|intros [= _ <-]; by left].
  unfold session_get. simpl.
  set (page := if is_set (unlock_hash r) then _ else _).
  set (config := CLI.build_config_url _ _ _ _).
  intros H. right. exists page, config. revert H.
  destruct (net [(Landing, page)] config) as [response|];
    [|intros [= _ <-]; by left].
  destruct (raises_for_status response) eqn:Hstatus;
    [intros [= _ <-]; by left|].
  destruct (json_body response) as [config_data|];
    [|intros [= _ <-]; by left].
  destruct (plan config_data) as [[stream_url output_file]|];
    [|intros [= _ <-]; by left].
  intros [= H]. apply CLI_download_file_requests in H. simpl in H.
  right. exists stream_url. split; [done|]. eauto.
Qed.

(** The GUI downloader retries the configuration request once: after a
    first answer whose status is not 200 it visits the embed page and asks
    again, and a second such answer ends the run with an error. *)
Lemma GUI_download_video_retry net cancelled plan url fs o w' page config r1
    rest :
  GUI.download_video net cancelled plan url (mkWorld [] fs) = (o, w') →
  requests w' = (Landing, page) :: (Config, config) :: rest →
  net [(Landing, page)] config = Some r1 →
  status_code r1 ≠ 200 →
  ∃ embed,
    (rest = [(Embed, embed)] ∧ o = GUI.Failed
     ∧ net [(Landing, page); (Config, config)] embed = None)
    ∨ ∃ rest', rest = (Embed, embed) :: (Config, config) :: rest'
        ∧ match net [(Landing, page); (Config, config); (Embed, embed)]
                    config with
          | Some r2 =>
              if status_code r2 =? 200
              then rest' = [] ∨ ∃ media, rest' = [(Media, media)]
              else rest' = [] ∧ o = GUI.Failed
          | None => rest' = [] ∧ o = GUI.Failed
          end.
Proof.
  unfold GUI.download_video.
  destruct (GUI.parse_vimeo_url url) as [[video_info|]|]; simpl;
    [|by intros [= _ <-]|by intros [= _ <-]].
  unfold session_get. simpl.
  set (page' := if is_set (unlock_hash video_info) then _ else _).
  set (config' := GUI.build_config_url _ _ _ _).
  set (embed := if is_set (unlock_hash video_info)
                then "https://player.vimeo.com/video/" +:+ _ else _).
  destruct (net [] page') as [page_response|]; [|by intros [= _ <-]].
  destruct (net [(Landing, page')] config') as [response|] eqn:Hr1;
    [|intros [= _ <-]; simpl; intros [= -> -> <-] Hnet; congruence].
  destruct (status_code response =? 200) eqn:Hs1; simpl.
  { intros H Hreq Hnet Hne. exfalso.
    assert ((Landing, page) = (Landing, page')
            ∧ (Config, config) = (Config, config')) as [[= ->] [= ->]].
    { revert H Hreq. destruct (json_body response) as [config_data|].
      - destruct (plan config_data) as [o'|[download_url save_path]].
        + intros [= _ <-] [= -> ->]. done.
        + intros H%GUI_download_file_requests. simpl in H. rewrite H.
          intros [= -> ->]. done.
      - intros [= _ <-] [= -> ->]. done. }
    rewrite Hr1 in Hnet. injection Hnet as ->.
    apply Z.eqb_eq in Hs1. done. }
  intros H Hreq Hnet Hne. exists embed. revert H Hreq.
  destruct (net [(Landing, page'); (Config, config')] embed)
    as [embed_response|] eqn:Hembed; simpl.
  2:{ intros [= <- <-]. simpl. intros [= -> -> <-]. by left. }
  destruct (net [(Landing, page'); (Config, config'); (Embed, embed)] config')
    as [r2|] eqn:Hr2; simpl.
  2:{ intros [= <- <-]. simpl. intros [= -> -> <-]. right.
      exists []. split; [done|]. by rewrite Hr2. }
  destruct (status_code r2 =? 200) eqn:Hs2; simpl.
  2:{ intros [= <- <-]. simpl. intros [= -> -> <-]. right.
      exists []. split; [done|]. by rewrite Hr2, Hs2. }
  destruct (json_body r2) as [config_data|].
  2:{ intros [= <- <-]. simpl. intros [= -> -> <-]. right.
      exists []. split; [done|]. rewrite Hr2, Hs2. by left. }
  destruct (plan config_data) as [o'|[download_url save_path]].
  { intros [= <- <-]. simpl. intros [= -> -> <-]. right.
    exists []. split; [done|]. rewrite Hr2, Hs2. by left. }
  intros H%GUI_download_file_requests. simpl in H. rewrite H.
  intros [= -> -> <-]. right. exists [(Media, download_url)].
  split; [done|]. rewrite Hr2, Hs2. right. eauto.
Qed.

(** In the GUI downloader the requests of a run are, in this order and
    each at most once, the landing page, the configuration, the fetch;
    or the landing page, the configuration, the embed page, the
    configuration again, the fetch. *)
Lemma GUI_download_video_steps net cancelled plan url fs o w' :
  GUI.download_video net cancelled plan url (mkWorld [] fs) = (o, w') →
  (requests w').*1 `prefix_of` [Landing; Config; Media]
  ∨ (requests w').*1 `prefix_of` [Landing; Config; Embed; Config; Media].
Proof.
  unfold GUI.download_video.
  destruct (GUI.parse_vimeo_url url) as [[video_info|]|]; simpl;
    [|intros [= _ <-]; left; by eexists..].
  unfold session_get. simpl.
  destruct (net [] _) as [page_response|];
    [|intros [= _ <-]; left; by eexists].
  destruct (net [_] _) as [response|]; [|intros [= _ <-]; left; by eexists].
  destruct (status_code response =? 200); simpl.
  { destruct (json_body response) as [config_data|];
      [|intros [= _ <-]; left; by eexists].
    destruct (plan config_data) as [o'|[download_url save_path]];
      [intros [= _ <-]; left; by eexists|].
    intros H%GUI_download_file_requests. rewrite H. left. by eexists. }
  destruct (net [_; _] _) as [embed_response|]; simpl;
    [|intros [= _ <-]; right; by eexists].
  destruct (net [_; _; _] _) as [r2|]; simpl;
    [|intros [= _ <-]; right; by eexists].
  destruct (status_code r2 =? 200); simpl;
    [|intros [= _ <-]; right; by eexists].
  destruct (json_body r2) as [config_data|];
    [|intros [= _ <-]; right; by eexists].
  destruct (plan config_data) as [o'|[download_url save_path]];
    [intros [= _ <-]; right; by eexists|].
  intros H%GUI_download_file_requests. rewrite H. right. by eexists.
Qed.

(** C7 is not met by the command-line downloader. The configuration
    endpoint answers 403 to every request: the command-line run asks for
    the configuration once and gives up, without visiting the embed page
    and without a second attempt, where the GUI run visits the embed page
    and asks a second time before it gives up. *)
Theorem CLI_download_video_no_retry :
  let net : network := λ _ _, Some (mkResponse 403 None []) in
  let url := "https://vimeo.com/325572565" in
  let page := "https://vimeo.com/325572565" in
  let w := mkWorld [] ∅ in
  (∃ w' config,
     CLI.download_video net (λ _, None) url w = Ok (false, w')
     ∧ requests w' = [(Landing, page); (Config, config)])
  ∧ (∃ w' config,
       GUI.download_video net (λ _, false) (λ _, inl GUI.Failed) url w
       = (GUI.Failed, w')
       ∧ requests w'
         = [(Landing, page); (Config, config);
            (Embed, "https://player.vimeo.com/video/325572565");
            (Config, config)]).
Proof. split; do 2 eexists; split; reflexivity. Qed.

(** * Resolving links *)

Lemma digit_not_space c : PyStr.is_digit c = true → PyStr.is_space c = false.
Proof. by_cases_on_char c. Qed.

Lemma digit_not_control c :
  PyStr.is_digit c = true →
  urllib.c0_control_or_space c = false ∧ urllib.unsafe_url_byte c = false.
Proof. by_cases_on_char c. Qed.

Lemma digit_neq c d :
  PyStr.is_digit d = false → PyStr.is_digit c = true → PyStr.eqc d c = false.
Proof.
  intros Hd Hc. unfold PyStr.eqc. destruct (Ascii.eqb_spec d c) as [->|]; [|done].
  congruence.
Qed.

Lemma has_char_none (p : ascii → bool) d s :
  p d = false → PyStr.all_chars p s = true → PyStr.has_char d s = false.
Proof.
  intros Hd. unfold PyStr.has_char.
  induction s as [|c s IH]; simpl; [done|].
  intros [Hc Hs]%andb_prop. rewrite (IH Hs), orb_false_r.
  unfold PyStr.eqc. destruct (Ascii.eqb_spec d c) as [->|]; [congruence|done].
Qed.

Lemma lstrip_none (p : ascii → bool) s :
  PyStr.all_chars (λ c, negb (p c)) s = true → PyStr.lstrip p s = s.
Proof.
  destruct s as [|c s]; simpl; [done|].
  intros [Hc _]%andb_prop. by apply negb_true_iff in Hc as ->.
Qed.

Lemma rstrip_none (p : ascii → bool) s :
  PyStr.all_chars (λ c, negb (p c)) s = true → PyStr.rstrip p s = s.
Proof.
  induction s as [|c s IH]; simpl; [done|].
  intros [Hc Hs]%andb_prop. rewrite (IH Hs).
  apply negb_true_iff in Hc as ->. by rewrite andb_false_r.
Qed.

Lemma remove_none (p : ascii → bool) s :
  PyStr.all_chars (λ c, negb (p c)) s = true → PyStr.remove p s = s.
Proof.
  induction s as [|c s IH]; simpl; [done|].
  intros [Hc Hs]%andb_prop. rewrite (IH Hs).
  by apply negb_true_iff in Hc as ->.
Qed.

Lemma split1_none d s :
  PyStr.has_char d s = false → PyStr.split1 d s = (s, None).
Proof.
  unfold PyStr.has_char. induction s as [|c s IH]; simpl; [done|].
  intros [Hc Hs]%orb_false_elim. rewrite (IH Hs).
  unfold PyStr.eqc in *. rewrite Ascii.eqb_sym in Hc. by rewrite Hc.
Qed.

Lemma search_none {A} (p : ascii → bool) (m : string → option A) s :
  (∀ t, PyStr.all_chars p t = true → m t = None) →
  PyStr.all_chars p s = true → re.search m s = None.
Proof.
  intros Hm. induction s as [|c s IH]; simpl.
  - intros _. by rewrite (Hm "").
  - intros H. rewrite (Hm (String c s) H).
    apply andb_prop in H as [_ Hs]. by apply IH.
Qed.

(** No pattern of the resolvers matches inside a string of digits: each
    starts with a character that is not a digit. *)
Lemma drop_prefix_digits d prefix t :
  PyStr.is_digit d = false →
  PyStr.all_chars PyStr.is_digit t = true →
  PyStr.drop_prefix (String d prefix) t = None.
Proof.
  intros Hd. destruct t as [|c t]; simpl; [done|].
  intros [Hc _]%andb_prop. by rewrite (digit_neq c d).
Qed.

Lemma isdigit_all s :
  PyStr.isdigit s = true → PyStr.all_chars PyStr.is_digit s = true.
Proof. by intros [_ ?]%andb_prop. Qed.

(** The GUI resolver accepts every string of digits as a bare video id. *)
Lemma GUI_parse_vimeo_url_numeric s :
  PyStr.isdigit s = true →
  GUI.parse_vimeo_url s = Ok (Some (mkRef (Some s) None None None)).
Proof.
  intros Hs. pose proof (isdigit_all s Hs) as Hall.
  unfold GUI.parse_vimeo_url.
  rewrite (search_none PyStr.is_digit (re.id_slash_hash "vimeo.com/"));
    [|intros t Ht; unfold re.id_slash_hash; by rewrite drop_prefix_digits
     |done].
  rewrite (search_none PyStr.is_digit
             (re.id_slash_hash "player.vimeo.com/video/"));
    [|intros t Ht; unfold re.id_slash_hash; by rewrite drop_prefix_digits
     |done].
  rewrite (search_none PyStr.is_digit (re.id_after "vimeo.com/"));
    [|intros t Ht; unfold re.id_after; by rewrite drop_prefix_digits|done].
  rewrite (search_none PyStr.is_digit (re.id_after "player.vimeo.com/video/"));
    [|intros t Ht; unfold re.id_after; by rewrite drop_prefix_digits|done].
  assert (PyStr.all_chars (λ c, negb (PyStr.is_space c)) s = true) as Hsp.
  { apply (all_chars_impl PyStr.is_digit); [|done].
    intros c Hc. by rewrite digit_not_space. }
  assert (PyStr.strip PyStr.is_space s = s) as Hstrip.
  { unfold PyStr.strip. by rewrite lstrip_none, rstrip_none. }
  rewrite strip_space_digits, Hstrip by by rewrite Hstrip.
  by rewrite (str_isdigit_ascii _ Hs).
Qed.

(** Without a host, a query and a fragment, the command-line resolver
    has the fallback pattern only. *)
Lemma CLI_parse_vimeo_url_no_host url path params :
  urllib.urlparse url = Ok (urllib.mkParse "" "" path params "" "") →
  CLI.parse_vimeo_url url
  = Ok (mkRef (re.search re.slash_id url) None None None).
Proof.
  intros Hparse. unfold CLI.parse_vimeo_url. rewrite Hparse.
  cbn [mbind res_bind urllib.path urllib.query urllib.fragment urllib.netloc].
  change (urllib.parse_qs "") with (∅ : gmap string (list string)).
  change (String.eqb "" "vimeo.com") with false.
  change (PyStr.contains "player.vimeo.com" "") with false.
  change (PyStr.truthy "") with false.
  cbv beta iota zeta. change (is_set None) with false.
  cbv beta iota zeta. change (negb false) with true. cbv iota.
  by destruct (re.search re.slash_id url).
Qed.

(** The command-line resolver finds no video id in a string of digits. *)
Lemma CLI_parse_vimeo_url_numeric s :
  PyStr.isdigit s = true →
  CLI.parse_vimeo_url s = Ok (mkRef None None None None).
Proof.
  intros Hs. pose proof (isdigit_all s Hs) as Hall.
  assert (∀ d, PyStr.is_digit d = false → PyStr.has_char d s = false) as Hno.
  { intros d Hd. by apply (has_char_none PyStr.is_digit). }
  assert (urllib.urlparse s = Ok (urllib.mkParse "" "" s "" "" "")) as Hparse.
  { unfold urllib.urlparse, urllib.urlsplit.
    rewrite lstrip_none, remove_none.
    2:{ apply (all_chars_impl PyStr.is_digit); [|done].
        intros c Hc. by destruct (digit_not_control c Hc) as [_ ->]. }
    2:{ apply (all_chars_impl PyStr.is_digit); [|done].
        intros c Hc. by destruct (digit_not_control c Hc) as [-> _]. }
    unfold urllib.split_scheme. rewrite (split1_none ":") by by apply Hno.
    rewrite (drop_prefix_digits "/" "/") by done.
    cbn [mbind res_bind].
    rewrite (split1_none "#") by by apply Hno.
    rewrite (split1_none "?") by by apply Hno.
    cbn [mbind res_bind urllib.sp_scheme urllib.sp_netloc urllib.sp_url
         urllib.sp_query urllib.sp_fragment].
    rewrite (Hno ";"%char) by done. by rewrite andb_false_r. }
  rewrite (CLI_parse_vimeo_url_no_host _ _ _ Hparse).
  rewrite (search_none PyStr.is_digit re.slash_id); [done| |done].
  intros t Ht. unfold re.slash_id. by rewrite drop_prefix_digits.
Qed.

(** C6 is not met by the command-line resolver. For the bare id
    [325572565] it returns no video id at all, so that the run stops with
    "Could not extract video ID from URL"; the GUI resolver returns the
    string as the video id, without any token. *)
Theorem CLI_parse_vimeo_url_rejects_bare_id :
  CLI.parse_vimeo_url "325572565" = Ok (mkRef None None None None)
  ∧ is_set (video_id (mkRef None None None None)) = false
  ∧ GUI.parse_vimeo_url "325572565"
    = Ok (Some (mkRef (Some "325572565") None None None)).
Proof. repeat split; reflexivity. Qed.

(** * Percent-encoding and query strings *)

(** Let [simpl] compute the appends of strings from here on. *)
Local Arguments String.append : simpl nomatch.

Lemma all_chars_app p s t :
  PyStr.all_chars p (s +:+ t) = PyStr.all_chars p s && PyStr.all_chars p t.
Proof.
  induction s as [|c s IH]; simpl; [done|]. by rewrite IH, andb_assoc.
Qed.

Lemma has_char_app d s t :
  PyStr.has_char d (s +:+ t) = PyStr.has_char d s || PyStr.has_char d t.
Proof.
  unfold PyStr.has_char.
  induction s as [|c s IH]; simpl; [done|]. by rewrite IH, orb_assoc.
Qed.

Lemma replace_app a b s t :
  PyStr.replace a b (s +:+ t) = PyStr.replace a b s +:+ PyStr.replace a b t.
Proof. induction s as [|c s IH]; simpl; [done|]. by rewrite IH. Qed.

Lemma remove_app p s t :
  PyStr.remove p (s +:+ t) = PyStr.remove p s +:+ PyStr.remove p t.
Proof.
  induction s as [|c s IH]; simpl; [done|].
  rewrite IH. by destruct (p c).
Qed.

Lemma has_char_remove d p s :
  PyStr.has_char d s = false → PyStr.has_char d (PyStr.remove p s) = false.
Proof.
  unfold PyStr.has_char. induction s as [|c s IH]; simpl; [done|].
  intros [Hc Hs]%orb_false_elim. destruct (p c); simpl; [by apply IH|].
  by rewrite Hc, IH.
Qed.

Lemma string_app_assoc (s t u : string) : (s +:+ t) +:+ u = s +:+ t +:+ u.
Proof. induction s as [|c s IH]; simpl; [done|]. by rewrite IH. Qed.

Lemma split1_app d s t :
  PyStr.has_char d s = false →
  PyStr.split1 d (s +:+ String d t) = (s, Some t).
Proof.
  unfold PyStr.has_char. induction s as [|c s IH]; simpl.
  - intros _. unfold PyStr.eqc. by rewrite Ascii.eqb_refl.
  - intros [Hc Hs]%orb_false_elim. rewrite (IH Hs).
    unfold PyStr.eqc in *. rewrite Ascii.eqb_sym in Hc. by rewrite Hc.
Qed.

Lemma split_none d s :
  PyStr.has_char d s = false → PyStr.split d s = [s].
Proof.
  unfold PyStr.has_char. induction s as [|c s IH]; simpl; [done|].
  intros [Hc Hs]%orb_false_elim. rewrite (IH Hs).
  unfold PyStr.eqc in *. rewrite Ascii.eqb_sym in Hc. by rewrite Hc.
Qed.

Lemma split_app d s t :
  PyStr.has_char d s = false →
  PyStr.split d (s +:+ String d t) = s :: PyStr.split d t.
Proof.
  unfold PyStr.has_char. induction s as [|c s IH]; simpl.
  - intros _. unfold PyStr.eqc. by rewrite Ascii.eqb_refl.
  - intros [Hc Hs]%orb_false_elim. rewrite (IH Hs).
    unfold PyStr.eqc in *. rewrite Ascii.eqb_sym in Hc. by rewrite Hc.
Qed.

(** [split] undoes [join] on pieces free of the separator. *)
Lemma split_join d l :
  l ≠ [] → Forall (λ x, PyStr.has_char d x = false) l →
  PyStr.split d (PyStr.join (String d "") l) = l.
Proof.
  induction l as [|x l IH]; [done|]. intros _ Hall.
  apply Forall_cons in Hall as [Hx Hl].
  destruct l as [|y l]; [by apply split_none|].
  change (PyStr.join (String d "") (x :: y :: l))
    with (x +:+ String d (PyStr.join (String d "") (y :: l))).
  rewrite split_app by done. f_equal. by apply IH.
Qed.

(** *** One byte at a time *)

Lemma quote_plus_char_spec c :
  urllib.quote_char (λ _, false) c
  = (if PyStr.eqc c " " then "%20" else quote_plus_char c)
  ∧ PyStr.replace " " "+" (urllib.quote_char (PyStr.eqc " ") c)
    = quote_plus_char c.
Proof. by_cases_on_char c. Qed.

Lemma quote_plus_char_quoted c :
  PyStr.all_chars quoted_char (quote_plus_char c) = true
  ∧ PyStr.truthy (quote_plus_char c) = true.
Proof. by_cases_on_char c. Qed.

Lemma unquote_other c t :
  PyStr.eqc c "%" = false →
  urllib.unquote (String c t) = String c (urllib.unquote t).
Proof. intros H. simpl. by rewrite H. Qed.

Lemma unquote_escape a b x y r :
  urllib.hex_value a = Some x → urllib.hex_value b = Some y →
  urllib.unquote (String "%" (String a (String b r)))
  = String (ascii_of_N (16 * x + y)) (urllib.unquote r).
Proof. intros Ha Hb. simpl. by rewrite Ha, Hb. Qed.

Lemma always_safe_plain c :
  urllib.always_safe c = true →
  PyStr.eqc c "+" = false ∧ PyStr.eqc c "%" = false.
Proof. by_cases_on_char c. Qed.

Lemma hex_digits_of c :
  let hi := urllib.hex_digit (PyStr.code c / 16) in
  let lo := urllib.hex_digit (PyStr.code c mod 16) in
  urllib.hex_value hi = Some (PyStr.code c / 16)%N
  ∧ urllib.hex_value lo = Some (PyStr.code c mod 16)%N
  ∧ ascii_of_N (16 * (PyStr.code c / 16) + PyStr.code c mod 16) = c
  ∧ PyStr.eqc hi "+" = false ∧ PyStr.eqc lo "+" = false.
Proof. by_cases_on_char c. Qed.

Lemma unquote_quote_plus_char c rest :
  urllib.unquote (PyStr.replace "+" " " (quote_plus_char c +:+ rest))
  = String c (urllib.unquote (PyStr.replace "+" " " rest)).
Proof.
  unfold quote_plus_char.
  destruct (urllib.always_safe c) eqn:Hsafe.
  - destruct (always_safe_plain c Hsafe) as [Hplus Hpct].
    cbn [String.append PyStr.replace]. rewrite Hplus. by apply unquote_other.
  - destruct (PyStr.eqc c " ") eqn:Hsp.
    + unfold PyStr.eqc in Hsp. apply Ascii.eqb_eq in Hsp as ->. done.
    + destruct (hex_digits_of c) as (Hhi & Hlo & Hc & Hhi' & Hlo').
      cbv zeta in *. cbn [String.append PyStr.replace]. rewrite Hhi', Hlo'.
      change (PyStr.eqc "%" "+") with false. cbv iota.
      rewrite (unquote_escape _ _ _ _ _ Hhi Hlo). by rewrite Hc.
Qed.

Lemma unquote_plain_char c rest :
  urllib.always_safe c = true →
  urllib.unquote (PyStr.replace "+" " " (String c rest))
  = String c (urllib.unquote (PyStr.replace "+" " " rest)).
Proof.
  intros Hsafe. destruct (always_safe_plain c Hsafe) as [Hplus Hpct].
  simpl PyStr.replace. rewrite Hplus. by apply unquote_other.
Qed.

Lemma quoted_char_not c d :
  quoted_char d = false → quoted_char c = true → PyStr.eqc d c = false.
Proof.
  intros Hd Hc. unfold PyStr.eqc.
  destruct (Ascii.eqb_spec d c) as [->|]; [congruence|done].
Qed.

(** *** [quote_plus] *)

Lemma quote_plus_by_char s : urllib.quote_plus s = quote_plus_spec s.
Proof.
  unfold urllib.quote_plus.
  destruct (PyStr.has_char " " s) eqn:Hsp; simpl.
  - clear Hsp. induction s as [|c s IH]; simpl; [done|].
    rewrite replace_app, IH.
    by destruct (quote_plus_char_spec c) as [_ ->].
  - induction s as [|c s IH]; simpl; [done|].
    unfold PyStr.has_char in Hsp. cbn [PyStr.any_char] in Hsp.
    apply orb_false_elim in Hsp as [Hc Hs]. rewrite (IH Hs).
    destruct (quote_plus_char_spec c) as [-> _].
    unfold PyStr.eqc in *. rewrite Ascii.eqb_sym in Hc. by rewrite Hc.
Qed.

Lemma quote_plus_quoted s :
  PyStr.all_chars quoted_char (urllib.quote_plus s) = true.
Proof.
  rewrite quote_plus_by_char. induction s as [|c s IH]; simpl; [done|].
  rewrite all_chars_app, IH. by destruct (quote_plus_char_quoted c) as [-> _].
Qed.

Lemma quote_plus_truthy s :
  PyStr.truthy (urllib.quote_plus s) = PyStr.truthy s.
Proof.
  rewrite quote_plus_by_char. destruct s as [|c s]; simpl; [done|].
  destruct (quote_plus_char_quoted c) as [_ H].
  by destruct (quote_plus_char c).
Qed.

(** Decoding undoes [quote_plus]. *)
Lemma unquote_quote_plus s :
  urllib.unquote (PyStr.replace "+" " " (urllib.quote_plus s)) = s.
Proof.
  rewrite quote_plus_by_char. induction s as [|c s IH]; simpl; [done|].
  by rewrite unquote_quote_plus_char, IH.
Qed.

Lemma unquote_plain s :
  PyStr.all_chars urllib.always_safe s = true →
  urllib.unquote (PyStr.replace "+" " " s) = s.
Proof.
  induction s as [|c s IH]; [done|].
  intros [Hc Hs]%andb_prop. by rewrite unquote_plain_char, IH.
Qed.

Lemma always_safe_quoted c :
  urllib.always_safe c = true → quoted_char c = true.
Proof. unfold quoted_char. by intros ->. Qed.

(** *** Reading a query string back *)

Lemma query_item_quoted kv :
  PyStr.all_chars urllib.always_safe kv.1 = true →
  PyStr.all_chars (λ c, quoted_char c || PyStr.eqc c "=") (query_item kv)
  = true.
Proof.
  intros Hk. unfold query_item. rewrite !all_chars_app.
  apply andb_true_intro; split.
  - revert Hk. apply all_chars_impl.
    intros c Hc. by rewrite (always_safe_quoted c Hc).
  - apply andb_true_intro; split; [done|].
    generalize (quote_plus_quoted kv.2). apply all_chars_impl. by intros c ->.
Qed.

Lemma parse_query_item kv :
  PyStr.all_chars urllib.always_safe kv.1 = true →
  PyStr.truthy kv.2 = true →
  (match PyStr.split1 "=" (query_item kv) with
   | (name, Some value) =>
       if PyStr.truthy value
       then [(urllib.unquote (PyStr.replace "+" " " name),
              urllib.unquote (PyStr.replace "+" " " value))]
       else []
   | (_, None) => []
   end) = [kv].
Proof.
  intros Hk Hv. unfold query_item. destruct kv as [k v]. simpl in *.
  rewrite split1_app by by apply (has_char_none urllib.always_safe).
  rewrite quote_plus_truthy, Hv, unquote_quote_plus, unquote_plain; done.
Qed.

Lemma plain_params_cons kv params :
  plain_params (kv :: params) = true ↔
  (PyStr.all_chars urllib.always_safe kv.1 = true ∧ PyStr.truthy kv.2 = true)
  ∧ plain_params params = true.
Proof. unfold plain_params. simpl. rewrite !andb_true_iff. tauto. Qed.

(** [parse_qsl] reads back what [query_string] writes. *)
Lemma parse_qsl_query_string params :
  plain_params params = true →
  urllib.parse_qsl (Common.query_string params) = params.
Proof.
  intros Hplain. unfold urllib.parse_qsl, Common.query_string.
  destruct params as [|kv params]; [done|].
  assert (PyStr.truthy
            (PyStr.join "&" (map (λ kv, kv.1 +:+ "=" +:+ urllib.quote_plus kv.2)
                                 (kv :: params))) = true) as ->.
  { simpl. destruct (map _ params); destruct kv as [[|c k] v]; done. }
  rewrite (split_join "&").
  - revert Hplain. generalize (kv :: params). clear.
    intros l. induction l as [|kv l IH]; [done|].
    intros [[Hk Hv] Hl]%plain_params_cons. cbn [map flat_map].
    change (kv.1 +:+ "=" +:+ urllib.quote_plus kv.2) with (query_item kv).
    rewrite (parse_query_item kv Hk Hv). simpl. f_equal. by apply IH.
  - done.
  - revert Hplain. generalize (kv :: params). clear.
    intros l. induction l as [|kv l IH]; [constructor|].
    intros [[Hk Hv] Hl]%plain_params_cons. cbn [map].
    constructor; [|by apply IH].
    apply (has_char_none (λ c, quoted_char c || PyStr.eqc c "=")); [done|].
    by apply query_item_quoted.
Qed.

(** The first value [parse_qs] holds for a name is the first one that
    [parse_qsl] lists for it. *)
Lemma group_pairs_first k pairs (parsed : gmap string (list string)) :
  (∀ k vs, parsed !! k = Some vs → vs ≠ []) →
  first_value k (urllib.group_pairs pairs parsed)
  = match first_value k parsed with
    | Some v => Some v
    | None => dict_get k pairs
    end.
Proof.
  revert parsed. induction pairs as [|[name value] pairs IH];
    intros parsed Hne; simpl.
  - by destruct (first_value k parsed).
  - rewrite IH.
    + unfold first_value.
      destruct (String.eqb_spec name k) as [->|Hk].
      * destruct (parsed !! k) as [vs|] eqn:Hvs; rewrite lookup_insert_eq;
          simpl; [|done].
        specialize (Hne _ _ Hvs). by destruct vs.
      * destruct (parsed !! name); rewrite lookup_insert_ne by done;
          by destruct (parsed !! k ≫= head).
    + intros k' vs'. destruct (parsed !! name) as [vs|] eqn:Hvs;
        rewrite lookup_insert; case_decide; try (by eauto);
        intros [= <-]; [by destruct vs|done].
Qed.

Lemma parse_qs_first k qs :
  first_value k (urllib.parse_qs qs) = dict_get k (urllib.parse_qsl qs).
Proof.
  unfold urllib.parse_qs. rewrite group_pairs_first; [done|].
  intros k' vs. by rewrite lookup_empty.
Qed.

Lemma all_chars_join p sep l :
  PyStr.all_chars p sep = true →
  Forall (λ x, PyStr.all_chars p x = true) l →
  PyStr.all_chars p (PyStr.join sep l) = true.
Proof.
  intros Hsep. induction l as [|x l IH]; [done|].
  intros [Hx Hl]%Forall_cons. destruct l as [|y l]; [done|].
  change (PyStr.join sep (x :: y :: l))
    with (x +:+ sep +:+ PyStr.join sep (y :: l)).
  rewrite !all_chars_app, Hx, Hsep. by apply IH.
Qed.

Lemma query_string_chars params :
  plain_params params = true →
  PyStr.all_chars query_char (Common.query_string params) = true.
Proof.
  intros Hplain. unfold Common.query_string.
  apply all_chars_join; [done|].
  induction params as [|kv params IH]; [constructor|].
  apply plain_params_cons in Hplain as [[Hk Hv] Hl].
  cbn [map]. constructor; [|by apply IH].
  change (kv.1 +:+ "=" +:+ urllib.quote_plus kv.2) with (query_item kv).
  generalize (query_item_quoted kv Hk). apply all_chars_impl.
  intros c Hc. unfold query_char. by rewrite Hc.
Qed.

(** *** The configuration address *)

Lemma urlparse_config_url path qs :
  PyStr.has_char "?" path = false →
  PyStr.has_char "#" path = false →
  PyStr.all_chars query_char qs = true →
  ∃ parsed_url,
    urllib.urlparse ("https://player.vimeo.com/video/" +:+ path +:+ "?" +:+ qs)
    = Ok parsed_url
    ∧ urllib.scheme parsed_url = "https"
    ∧ urllib.netloc parsed_url = "player.vimeo.com"
    ∧ urllib.query parsed_url = qs
    ∧ urllib.fragment parsed_url = "".
Proof.
  intros Hq Hf Hqs.
  set (path' := PyStr.remove urllib.unsafe_url_byte path).
  assert (PyStr.remove urllib.unsafe_url_byte
            ("https://player.vimeo.com/video/" +:+ path +:+ "?" +:+ qs)
          = "https://player.vimeo.com/video/" +:+ path' +:+ "?" +:+ qs)
    as Hremove.
  { rewrite !remove_app. f_equal. f_equal. simpl. f_equal.
    apply remove_none. revert Hqs. apply all_chars_impl.
    intros c. by_cases_on_char c. }
  assert (PyStr.has_char "#" qs = false) as Hqs_f.
  { by apply (has_char_none query_char). }
  assert (PyStr.has_char "?" path' = false) as Hq' by by apply has_char_remove.
  assert (PyStr.has_char "#" path' = false) as Hf' by by apply has_char_remove.
  assert (urllib.urlsplit
            ("https://player.vimeo.com/video/" +:+ path +:+ "?" +:+ qs)
          = Ok (urllib.mkSplit "https" "player.vimeo.com"
                  ("/video/" +:+ path') qs "")) as Hsplit.
  { unfold urllib.urlsplit.
    change (PyStr.lstrip urllib.c0_control_or_space
              ("https://player.vimeo.com/video/" +:+ path +:+ "?" +:+ qs))
      with ("https://player.vimeo.com/video/" +:+ path +:+ "?" +:+ qs).
    rewrite Hremove.
    change (urllib.split_scheme
              ("https://player.vimeo.com/video/" +:+ path' +:+ "?" +:+ qs))
      with ("https", "//player.vimeo.com/video/" +:+ path' +:+ "?" +:+ qs).
    cbv beta iota.
    change (PyStr.drop_prefix "//"
              ("//player.vimeo.com/video/" +:+ path' +:+ "?" +:+ qs))
      with (Some ("player.vimeo.com/video/" +:+ path' +:+ "?" +:+ qs)).
    cbv beta iota.
    change (urllib._splitnetloc
              ("player.vimeo.com/video/" +:+ path' +:+ "?" +:+ qs))
      with ("player.vimeo.com", "/video/" +:+ path' +:+ "?" +:+ qs).
    cbv beta iota.
    change (PyStr.has_char "[" "player.vimeo.com"
            || PyStr.has_char "]" "player.vimeo.com") with false.
    cbv beta iota. cbn [mbind res_bind].
    rewrite (split1_none "#").
    2:{ by rewrite !has_char_app, Hqs_f, Hf'. }
    change ("/video/" +:+ path' +:+ "?" +:+ qs)
      with (("/video/" +:+ path') +:+ String "?" qs).
    rewrite split1_app; [done|].
    by rewrite has_char_app, Hq'. }
  unfold urllib.urlparse. rewrite Hsplit. cbn [mbind res_bind].
  destruct (_ && _); [destruct (urllib._splitparams _)|]; eauto 10.
Qed.

Lemma config_path_chars d video_id unlock_hash :
  PyStr.has_char d "/config" = false →
  PyStr.has_char d video_id = false →
  PyStr.has_char d (default "" unlock_hash) = false →
  PyStr.has_char d (config_path video_id unlock_hash) = false.
Proof.
  intros Hd Hv Hu. unfold config_path.
  assert (PyStr.has_char d "/" = false) as Hslash.
  { unfold PyStr.has_char in *. cbn [PyStr.any_char] in *.
    by apply orb_false_elim in Hd as [-> _]. }
  destruct (is_set unlock_hash);
    by rewrite !has_char_app, ?Hv, ?Hu, ?Hd, ?Hslash.
Qed.

Lemma dict_set_nonempty {V} k (v : V) d : dict_set k v d ≠ [].
Proof.
  destruct d as [|[k' v'] d]; simpl; [done|]. by destruct (String.eqb k' k).
Qed.

Lemma dict_update_nonempty {V} (d u : list (string * V)) :
  u ≠ [] → dict_update d u ≠ [].
Proof.
  unfold dict_update. destruct u as [|kv u]; [done|]. intros _. simpl.
  generalize (dict_set_nonempty kv.1 kv.2 d).
  generalize (dict_set kv.1 kv.2 d). clear.
  induction u as [|x u IH]; intros d Hd; simpl; [done|].
  apply IH, dict_set_nonempty.
Qed.

Lemma build_config_url_shape fixed video_id unlock_hash h_param share_token :
  fixed ≠ [] →
  Common.build_config_url fixed video_id unlock_hash h_param share_token
  = "https://player.vimeo.com/video/" +:+ config_path video_id unlock_hash
    +:+ "?"
    +:+ Common.query_string (Common.config_params fixed h_param share_token).
Proof.
  intros Hfixed. unfold Common.build_config_url.
  destruct (Common.config_params fixed h_param share_token) eqn:Hparams.
  { exfalso. revert Hparams. unfold Common.config_params.
    by apply dict_update_nonempty. }
  unfold Common.config_base, config_path.
  destruct (is_set unlock_hash); simpl; by rewrite ?string_app_assoc.
Qed.

Lemma CLI_config_params h_param share_token :
  let params := Common.config_params CLI.player_params h_param share_token in
  plain_params params = true
  ∧ dict_get "h" params = token h_param
  ∧ dict_get "share" params = token share_token
  ∧ Forall (λ kv, dict_get kv.1 params = Some kv.2) CLI.player_params.
Proof.
  destruct h_param as [[|c h]|], share_token as [[|d s]|];
    (split; [reflexivity|]); (split; [reflexivity|]);
    (split; [reflexivity|]); repeat constructor.
Qed.

(** The address the command-line builder returns: the endpoint of the
    video, the unlock hash as one more path segment, and a query string
    that reads back as the tokens that are set followed by the fixed
    player parameters. *)
Lemma CLI_build_config_url_carries
    video_id unlock_hash h_param share_token :
  PyStr.has_char "?" video_id = false →
  PyStr.has_char "#" video_id = false →
  PyStr.has_char "?" (default "" unlock_hash) = false →
  PyStr.has_char "#" (default "" unlock_hash) = false →
  let url := CLI.build_config_url video_id unlock_hash h_param share_token in
  let params := Common.config_params CLI.player_params h_param share_token in
  url = "https://player.vimeo.com/video/" +:+ config_path video_id unlock_hash
        +:+ "?" +:+ Common.query_string params
  ∧ ∃ parsed_url,
      urllib.urlparse url = Ok parsed_url
      ∧ urllib.netloc parsed_url = "player.vimeo.com"
      ∧ urllib.parse_qsl (urllib.query parsed_url) = params
      ∧ Forall (λ kv, first_value kv.1 (urllib.parse_qs (urllib.query parsed_url))
                      = Some kv.2) CLI.player_params
      ∧ first_value "h" (urllib.parse_qs (urllib.query parsed_url))
        = token h_param
      ∧ first_value "share" (urllib.parse_qs (urllib.query parsed_url))
        = token share_token.
Proof.
  intros Hvq Hvf Huq Huf url params.
  destruct (CLI_config_params h_param share_token)
    as (Hplain & Hh & Hshare & Hfixed). fold params in Hplain, Hh, Hshare, Hfixed.
  assert (url = "https://player.vimeo.com/video/"
                +:+ config_path video_id unlock_hash
                +:+ "?" +:+ Common.query_string params) as Hurl.
  { by apply build_config_url_shape. }
  split; [done|]. rewrite Hurl.
  destruct (urlparse_config_url (config_path video_id unlock_hash)
              (Common.query_string params))
    as (parsed_url & Hparse & _ & Hnetloc & Hquery & _).
  { by apply config_path_chars. }
  { by apply config_path_chars. }
  { by apply query_string_chars. }
  exists parsed_url. split; [done|]. split; [done|].
  rewrite Hquery. rewrite !parse_qs_first.
  rewrite parse_qsl_query_string by done. split; [done|].
  split; [|done].
  eapply Forall_impl; [exact Hfixed|]. intros kv Hkv. simpl.
  by rewrite parse_qs_first, parse_qsl_query_string.
Qed.

(** *** References built from a link *)

Lemma split1_fst_free d s : PyStr.has_char d (PyStr.split1 d s).1 = false.
Proof.
  unfold PyStr.has_char. induction s as [|c s IH]; simpl; [done|].
  destruct (PyStr.eqc c d) eqn:Hc; [done|].
  destruct (PyStr.split1 d s) as [h t]. simpl in *.
  unfold PyStr.eqc in *. by rewrite Ascii.eqb_sym, Hc, IH.
Qed.

Lemma split1_fst_keeps c d s :
  PyStr.has_char c s = false → PyStr.has_char c (PyStr.split1 d s).1 = false.
Proof.
  unfold PyStr.has_char. induction s as [|a s IH]; simpl; [done|].
  intros [Ha Hs]%orb_false_elim. destruct (PyStr.eqc a d); [done|].
  specialize (IH Hs). destruct (PyStr.split1 d s) as [h t]. simpl in *.
  by rewrite Ha, IH.
Qed.

Lemma splitparams_from_keeps c s a b :
  PyStr.has_char c s = false → urllib._splitparams_from s = Some (a, b) →
  PyStr.has_char c a = false.
Proof.
  unfold PyStr.has_char. revert a b. induction s as [|x s IH]; intros a b;
    [done|].
  cbn [PyStr.any_char urllib._splitparams_from].
  intros [Hx Hs]%orb_false_elim.
  destruct (PyStr.has_char "/" s).
  - destruct (urllib._splitparams_from s) as [[a' b']|]; [|done].
    intros [= <- <-]. simpl. by rewrite Hx, (IH a' b').
  - pose proof (split1_fst_keeps c ";" (String x s)) as Hkeep.
    unfold PyStr.has_char in Hkeep. cbn [PyStr.any_char] in Hkeep.
    rewrite Hx, Hs in Hkeep. specialize (Hkeep eq_refl).
    destruct (PyStr.split1 ";" (String x s)) as [h [t|]]; [|done].
    by intros [= <- <-].
Qed.

Lemma splitparams_keeps c s :
  PyStr.has_char c s = false →
  PyStr.has_char c (urllib._splitparams s).1 = false.
Proof.
  intros Hs. unfold urllib._splitparams.
  destruct (urllib._splitparams_from s) as [[a b]|] eqn:H; [|done].
  by eapply splitparams_from_keeps.
Qed.

(** The path that [urlparse] returns holds neither [?] nor [#]. *)
Lemma urlparse_path_free url parsed_url :
  urllib.urlparse url = Ok parsed_url →
  PyStr.has_char "?" (urllib.path parsed_url) = false
  ∧ PyStr.has_char "#" (urllib.path parsed_url) = false.
Proof.
  unfold urllib.urlparse, urllib.urlsplit.
  destruct (urllib.split_scheme _) as [scheme url1].
  destruct (match PyStr.drop_prefix "//" url1 with
            | Some rest => _
            | None => _
            end) as [[netloc url2]|]; [|discriminate].
  cbn [mbind res_bind].
  pose proof (split1_fst_free "#" url2) as Hf.
  destruct (PyStr.split1 "#" url2) as [u f]. simpl in Hf.
  assert (∃ fragment, (let '(url, fragment) :=
                         match f with
                         | Some f => (u, f)
                         | None => (u, "")
                         end in (url, fragment)) = (u, fragment))
    as [fragment Hfragment] by (destruct f; eauto).
  destruct (match f with Some f => (u, f) | None => (u, "") end)
    as [u0 fragment0]. injection Hfragment as -> ->.
  assert (PyStr.has_char "#" (PyStr.split1 "?" u).1 = false) as Hf'
    by by apply split1_fst_keeps.
  pose proof (split1_fst_free "?" u) as Hq.
  destruct (PyStr.split1 "?" u) as [u' q]. simpl in Hf', Hq.
  assert (∃ query, (let '(url, query) :=
                      match q with
                      | Some q => (u', q)
                      | None => (u', "")
                      end in (url, query)) = (u', query))
    as [query Hquery] by (destruct q; eauto).
  destruct (match q with Some q => (u', q) | None => (u', "") end)
    as [u0 query0]. injection Hquery as -> ->.
  cbn [mbind res_bind urllib.sp_scheme urllib.sp_url].
  destruct (_ && _).
  - pose proof (splitparams_keeps "?" u' Hq).
    pose proof (splitparams_keeps "#" u' Hf').
    destruct (urllib._splitparams u'). by intros [= <-].
  - by intros [= <-].
Qed.

Lemma lstrip_keeps c p s :
  PyStr.has_char c s = false → PyStr.has_char c (PyStr.lstrip p s) = false.
Proof.
  unfold PyStr.has_char. induction s as [|a s IH]; simpl; [done|].
  intros H. destruct (p a); [|done].
  apply orb_false_elim in H as [_ Hs]. by apply IH.
Qed.

Lemma rstrip_keeps c p s :
  PyStr.has_char c s = false → PyStr.has_char c (PyStr.rstrip p s) = false.
Proof.
  unfold PyStr.has_char. induction s as [|a s IH]; simpl; [done|].
  intros [Ha Hs]%orb_false_elim. destruct (_ && _); [done|].
  simpl. by rewrite Ha, IH.
Qed.

Lemma split_keeps c d s :
  PyStr.has_char c s = false →
  Forall (λ part, PyStr.has_char c part = false) (PyStr.split d s).
Proof.
  unfold PyStr.has_char. induction s as [|a s IH]; simpl.
  - by repeat constructor.
  - intros [Ha Hs]%orb_false_elim. specialize (IH Hs).
    destruct (PyStr.eqc a d); [by constructor|].
    destruct (PyStr.split d s) as [|h t].
    { constructor; [simpl; by rewrite Ha|constructor]. }
    apply Forall_cons in IH as [Hh Ht]. constructor; [|done].
    simpl. by rewrite Ha, Hh.
Qed.

Lemma span_all p s : PyStr.all_chars p (PyStr.span p s).1 = true.
Proof.
  induction s as [|c s IH]; simpl; [done|].
  destruct (p c) eqn:Hc; [|done].
  destruct (PyStr.span p s). simpl in *. by rewrite Hc, IH.
Qed.

Lemma search_some {A} (m : string → option A) s r :
  re.search m s = Some r → ∃ t, m t = Some r.
Proof.
  induction s as [|c s IH]; simpl.
  - destruct (m "") eqn:H; [|done]. intros [= <-]. eauto.
  - destruct (m (String c s)) eqn:H; [intros [= <-]; eauto|]. apply IH.
Qed.

Lemma slash_id_digits s g :
  re.search re.slash_id s = Some g → PyStr.str_isdigit g = true.
Proof.
  intros (t & Ht)%search_some. revert Ht. unfold re.slash_id.
  destruct (PyStr.drop_prefix "/" t) as [rest|]; [|done].
  cbn [mbind option_bind].
  destruct (re.digits rest) as [[run rest']|] eqn:Hrun; [|done].
  cbn [mbind option_bind].
  destruct (_ || _); [|done]. intros [= <-]. by eapply digits_isdigit.
Qed.

Lemma unquote_truthy s :
  PyStr.truthy s = true →
  PyStr.truthy (urllib.unquote (PyStr.replace "+" " " s)) = true.
Proof.
  destruct s as [|c s]; [done|]. intros _.
  cbn [PyStr.replace urllib.unquote].
  destruct (PyStr.eqc _ "%"); [|done].
  destruct (PyStr.replace "+" " " s) as [|a [|b r]]; [done|done|].
  by destruct (urllib.hex_value a), (urllib.hex_value b).
Qed.

(** [parse_qs] holds no empty value. *)
Lemma parse_qs_value_set k qs : first_value k (urllib.parse_qs qs) ≠ Some "".
Proof.
  rewrite parse_qs_first. unfold urllib.parse_qsl.
  generalize (if PyStr.truthy qs then PyStr.split "&" qs else []).
  intros l. induction l as [|x l IH]; [done|]. cbn [flat_map].
  destruct (PyStr.split1 "=" x) as [name [value|]]; [|done].
  destruct (PyStr.truthy value) eqn:Hv; [|done].
  cbn [app dict_get]. destruct (String.eqb _ k); [|done].
  intros [= H]. pose proof (unquote_truthy value Hv) as Ht.
  by rewrite H in Ht.
Qed.

(** What the command-line resolver returns is fit for the builder: no
    token is the empty string, and the video id and the unlock hash hold
    neither [?] nor [#]. *)
Lemma CLI_parse_vimeo_url_fit url r :
  CLI.parse_vimeo_url url = Ok r →
  h_param r ≠ Some "" ∧ share_token r ≠ Some ""
  ∧ (∀ c, c = "?"%char ∨ c = "#"%char →
       PyStr.has_char c (default "" (video_id r)) = false
       ∧ PyStr.has_char c (default "" (unlock_hash r)) = false).
Proof.
  unfold CLI.parse_vimeo_url.
  destruct (urllib.urlparse url) as [parsed_url|] eqn:Hparse; [|discriminate].
  cbn [mbind res_bind].
  destruct (urlparse_path_free _ _ Hparse) as [Hq Hf].
  set (path_parts := PyStr.split "/" _).
  assert (∀ c, c = "?"%char ∨ c = "#"%char →
            Forall (λ part, PyStr.has_char c part = false) path_parts)
    as Hparts.
  { intros c Hc. apply split_keeps, rstrip_keeps, lstrip_keeps.
    by destruct Hc as [-> | ->]. }
  assert (∀ c i, c = "?"%char ∨ c = "#"%char →
            PyStr.has_char c (default "" (path_parts !! i)) = false)
    as Hnth.
  { intros c i Hc. destruct (path_parts !! i) as [part|] eqn:Hi; [|done].
    eapply (proj1 (Forall_forall _ _) (Hparts c Hc)).
    by eapply list_elem_of_lookup_2. }
  assert (∀ c (o : option string),
            c = "?"%char ∨ c = "#"%char →
            PyStr.has_char c (default "" o) = false →
            PyStr.has_char c
              (default ""
                 (if negb (is_set o)
                  then match re.search re.slash_id url with
                       | Some g1 => Some g1
                       | None => o
                       end
                  else o)) = false) as Hfallback.
  { intros c o Hc Ho. destruct (negb (is_set o)); [|done].
    destruct (re.search re.slash_id url) as [g1|] eqn:Hg; [|done].
    simpl. apply slash_id_digits, str_isdigit_bytes in Hg.
    destruct Hc as [-> | ->]; by apply digit_byte_free. }
  destruct (if String.eqb _ _ then _ else _) as [vid uh] eqn:Hform.
  intros [= <-]. cbn [h_param share_token video_id unlock_hash].
  split; [apply parse_qs_value_set|].
  split; [destruct (PyStr.truthy _); apply parse_qs_value_set|].
  intros c Hc.
  assert (PyStr.has_char c (default "" vid) = false
          ∧ PyStr.has_char c (default "" uh) = false) as [Hvid Huh].
  { revert Hform. destruct (String.eqb _ _).
    - intros [= <- <-]. split; [apply Hnth; done|].
      pose proof (Hnth c 1%nat Hc) as H1.
      destruct (path_parts !! 1%nat) as [p|]; [|done].
      by destruct (negb _).
    - destruct (PyStr.contains _ _); [|by intros [= <- <-]].
      intros [= <- <-]. split; [|by apply Hnth].
      pose proof (Hnth c 1%nat Hc) as H1.
      destruct path_parts as [|p0 [|p1 rest]]; [done|done|].
      by destruct (String.eqb p0 "video"). }
  split; [by apply (Hfallback c vid)|done].
Qed.

(** The round trip of the specification: a reference that the
    command-line resolver builds from a link, passed through the builder,
    gives an address whose query, parsed again, holds the tokens of the
    reference unchanged. *)
Lemma resolved_reference_round_trip url r :
  CLI.parse_vimeo_url url = Ok r →
  ∃ parsed_url,
    urllib.urlparse
      (CLI.build_config_url (default "" (video_id r)) (unlock_hash r)
         (h_param r) (share_token r))
    = Ok parsed_url
    ∧ first_value "h" (urllib.parse_qs (urllib.query parsed_url))
      = h_param r
    ∧ first_value "share" (urllib.parse_qs (urllib.query parsed_url))
      = share_token r.
Proof.
  intros (Hh & Hs & Hfree)%CLI_parse_vimeo_url_fit.
  destruct (Hfree "?"%char) as [Hvq Huq]; [by left|].
  destruct (Hfree "#"%char) as [Hvf Huf]; [by right|].
  destruct (CLI_build_config_url_carries (default "" (video_id r))
              (unlock_hash r) (h_param r) (share_token r) Hvq Hvf Huq Huf)
    as (_ & parsed_url & Hparse & _ & _ & _ & Hh' & Hs').
  exists parsed_url. split; [done|]. rewrite Hh', Hs'. unfold token.
  split.
  - by destruct (h_param r) as [[|c h]|].
  - by destruct (share_token r) as [[|c s]|].
Qed.

(** C8, amended. When the video id and the unlock hash hold neither [?]
    nor [#] and no token is the empty string, the query string of the
    configuration address, parsed again, gives back [h_param] under [h]
    and [share_token] under [share]: a token that is set comes back
    unchanged, one that is absent stays absent. *)
Theorem config_url_round_trip video_id unlock_hash h_param share_token :
  PyStr.has_char "?" video_id = false →
  PyStr.has_char "#" video_id = false →
  PyStr.has_char "?" (default "" unlock_hash) = false →
  PyStr.has_char "#" (default "" unlock_hash) = false →
  h_param ≠ Some "" → share_token ≠ Some "" →
  ∃ parsed_url,
    urllib.urlparse
      (CLI.build_config_url video_id unlock_hash h_param share_token)
    = Ok parsed_url
    ∧ first_value "h" (urllib.parse_qs (urllib.query parsed_url)) = h_param
    ∧ first_value "share" (urllib.parse_qs (urllib.query parsed_url))
      = share_token.
Proof.
  intros Hvq Hvf Huq Huf Hh Hs.
  destruct (CLI_build_config_url_carries video_id unlock_hash h_param
              share_token Hvq Hvf Huq Huf)
    as (_ & parsed_url & Hparse & _ & _ & _ & Hh' & Hs').
  exists parsed_url. split; [done|]. rewrite Hh', Hs'.
  split; [by destruct h_param as [[|c h]|]|by destruct share_token as [[|c s]|]].
Qed.

Lemma config_url_round_trip_witness :
  ∃ parsed_url,
    urllib.urlparse
      (CLI.build_config_url "325572565" (Some "9d31d005e2")
         (Some "a b&c=d%2B+e/?#") (Some "copy"))
    = Ok parsed_url
    ∧ first_value "h" (urllib.parse_qs (urllib.query parsed_url))
      = Some "a b&c=d%2B+e/?#"
    ∧ first_value "share" (urllib.parse_qs (urllib.query parsed_url))
      = Some "copy".
Proof.
  apply (config_url_round_trip "325572565" (Some "9d31d005e2")
           (Some "a b&c=d%2B+e/?#") (Some "copy"));
    reflexivity || discriminate.
Defined.

(** C8 as stated fails for a token that is the empty string: the builder
    takes it for no token, and the address parsed again has no [h]. *)
Lemma empty_token_not_round_tripped :
  let h_param := Some "" in
  ∃ parsed_url,
    urllib.urlparse (CLI.build_config_url "325572565" None h_param None)
    = Ok parsed_url
    ∧ first_value "h" (urllib.parse_qs (urllib.query parsed_url)) = None
    ∧ first_value "h" (urllib.parse_qs (urllib.query parsed_url)) ≠ h_param.
Proof.
  intros h_param. eexists. split; [reflexivity|].
  split; [by vm_compute|]. by vm_compute.
Qed.

(** The condition on the video id is needed as well: a [?] in it moves
    the start of the query. *)
Example marker_in_video_id :
  ∃ parsed_url,
    urllib.urlparse (CLI.build_config_url "1?h=zz" None (Some "abc") None)
    = Ok parsed_url
    ∧ first_value "h" (urllib.parse_qs (urllib.query parsed_url))
      = Some "zz/config?h=abc".
Proof. eexists. split; [reflexivity|]. by vm_compute. Qed.

(** C5 is not met by the GUI builder: its address carries nine of the
    player parameters and lacks [app_id], [player_id], [api] and
    [autoplay], which the command-line builder adds. *)
Theorem GUI_build_config_url_lacks_params :
  let gui := GUI.build_config_url "325572565" None None None in
  let cli := CLI.build_config_url "325572565" None None None in
  gui = "https://player.vimeo.com/video/325572565/config?autopause=0&byline=0&collections=0&context=Vimeo%2525FFFFFFC&default_to_hd=1&portrait=0&speed=1&title=0&transparent=1"
  ∧ cli = gui +:+ "&app_id=122963&player_id=player&api=1&autoplay=0"
  ∧ ∃ parsed_url,
      urllib.urlparse gui = Ok parsed_url
      ∧ map (λ k, first_value k (urllib.parse_qs (urllib.query parsed_url)))
            ["app_id"; "player_id"; "api"; "autoplay"]
        = [None; None; None; None].
Proof.
  intros gui cli. split; [reflexivity|]. split; [reflexivity|].
  eexists. split; [reflexivity|]. by vm_compute.
Qed.

(** The tokens the command-line resolver returns are read off the query
    and the fragment, whatever form of link gave the video id. *)
Lemma CLI_parse_vimeo_url_tokens url r :
  CLI.parse_vimeo_url url = Ok r →
  ∃ parsed_url,
    urllib.urlparse url = Ok parsed_url
    ∧ h_param r = first_value "h" (urllib.parse_qs (urllib.query parsed_url))
    ∧ share_token r
      = if PyStr.truthy (urllib.fragment parsed_url)
        then first_value "share"
               (urllib.parse_qs (urllib.fragment parsed_url))
        else first_value "share" (urllib.parse_qs (urllib.query parsed_url)).
Proof.
  unfold CLI.parse_vimeo_url.
  destruct (urllib.urlparse url) as [parsed_url|]; [|discriminate].
  cbn [mbind res_bind].
  destruct (if String.eqb _ _ then _ else _) as [video_id unlock_hash].
  intros [= <-]. by exists parsed_url.
Qed.

(** C2 is not met by the GUI resolver. For the player link of the
    specification it returns the video id without the [h] token, which
    the command-line resolver captures; it also drops the tokens of a
    link with an unlock hash and never reads the fragment. *)
Theorem GUI_parse_vimeo_url_drops_tokens :
  let player := "https://player.vimeo.com/video/325572565?h=abc123" in
  let unlock := "https://vimeo.com/325572565/9d31d005e2?h=abc123" in
  let shared := "https://vimeo.com/325572565#share=copy" in
  GUI.parse_vimeo_url player
  = Ok (Some (mkRef (Some "325572565") None None None))
  ∧ CLI.parse_vimeo_url player
    = Ok (mkRef (Some "325572565") None (Some "abc123") None)
  ∧ GUI.parse_vimeo_url unlock
    = Ok (Some (mkRef (Some "325572565") (Some "9d31d005e2") None None))
  ∧ CLI.parse_vimeo_url unlock
    = Ok (mkRef (Some "325572565") (Some "9d31d005e2") (Some "abc123") None)
  ∧ GUI.parse_vimeo_url shared
    = Ok (Some (mkRef (Some "325572565") None None None))
  ∧ CLI.parse_vimeo_url shared
    = Ok (mkRef (Some "325572565") None None (Some "copy")).
Proof. repeat split; by vm_compute. Qed.

(** * File names *)

Lemma any_char_app p s t :
  PyStr.any_char p (s +:+ t) = PyStr.any_char p s || PyStr.any_char p t.
Proof.
  induction s as [|c s IH]; simpl; [done|]. by rewrite IH, orb_assoc.
Qed.

Lemma string_length_app (s t : string) :
  String.length (s +:+ t) = (String.length s + String.length t)%nat.
Proof. induction s as [|c s IH]; simpl; [done|]. by rewrite IH. Qed.

Lemma any_char_weaken (p q : ascii → bool) s :
  (∀ c, q c = true → p c = true) →
  PyStr.any_char p s = false → PyStr.any_char q s = false.
Proof.
  intros Hqp. induction s as [|c s IH]; simpl; [done|].
  intros [Hc Hs]%orb_false_elim. rewrite (IH Hs), orb_false_r.
  destruct (q c) eqn:Hq; [|done]. by rewrite (Hqp c Hq) in Hc.
Qed.

Lemma any_char_none (p q : ascii → bool) s :
  (∀ c, p c = true → q c = false) →
  PyStr.all_chars p s = true → PyStr.any_char q s = false.
Proof.
  intros Hpq. induction s as [|c s IH]; simpl; [done|].
  intros [Hc Hs]%andb_prop. by rewrite (Hpq c Hc), IH.
Qed.

(** [re.sub] on a character class. *)
Lemma sub_free class repl s :
  PyStr.any_char class repl = false →
  PyStr.any_char class (re.sub class repl s) = false.
Proof.
  intros Hrepl. induction s as [|c s IH]; simpl; [done|].
  rewrite any_char_app, IH, orb_false_r.
  destruct (class c) eqn:Hc; [done|]. simpl. by rewrite Hc.
Qed.

Lemma sub_clean class repl s :
  PyStr.any_char class s = false → re.sub class repl s = s.
Proof.
  induction s as [|c s IH]; simpl; [done|].
  intros [-> Hs]%orb_false_elim. simpl. by rewrite IH.
Qed.

Lemma sub_length class (r : ascii) s :
  String.length (re.sub class (String r "") s) = String.length s.
Proof.
  induction s as [|c s IH]; simpl; [done|].
  rewrite string_length_app, IH. by destruct (class c).
Qed.

Lemma sub_remove_all (class q : ascii → bool) s :
  PyStr.all_chars (λ c, class c || q c) s = true →
  PyStr.all_chars q (re.sub class "" s) = true.
Proof.
  induction s as [|c s IH]; simpl; [done|].
  intros [Hc Hs]%andb_prop. destruct (class c); simpl; [by apply IH|].
  simpl in Hc. by rewrite Hc, IH.
Qed.

(** X1. The title that names the output file of the command-line
    downloader (and what [sanitize_filename] of [vimeograb_core.py]
    returns): it is as long as the title of the video, it holds none of
    the nine reserved characters, a title without them is kept as it is,
    and cleaning a second time changes nothing. *)
Theorem safe_title_reserved_free video_title :
  String.length (CLI.safe_title video_title) = String.length video_title
  ∧ PyStr.any_char re.reserved_char (CLI.safe_title video_title) = false
  ∧ (PyStr.any_char re.reserved_char video_title = false →
     CLI.safe_title video_title = video_title)
  ∧ CLI.safe_title (CLI.safe_title video_title) = CLI.safe_title video_title.
Proof.
  unfold CLI.safe_title.
  assert (PyStr.any_char re.reserved_char
            (re.sub re.reserved_char "_" video_title) = false) as Hfree
    by by apply sub_free.
  split; [apply sub_length|]. split; [done|].
  split; [apply sub_clean|by apply sub_clean].
Qed.

(** The parts of [s.split(sep)] hold no separator. *)
Lemma split_free d s :
  Forall (λ part, PyStr.has_char d part = false) (PyStr.split d s).
Proof.
  unfold PyStr.has_char. induction s as [|a s IH]; simpl.
  - by repeat constructor.
  - destruct (PyStr.eqc a d) eqn:Ha; [by constructor|].
    assert (PyStr.eqc d a = false) as Hd.
    { unfold PyStr.eqc in *. by rewrite Ascii.eqb_sym. }
    destruct (PyStr.split d s) as [|h t].
    + constructor; [simpl; by rewrite Hd|constructor].
    + apply Forall_cons in IH as [Hh Ht]. constructor; [|done].
      simpl. by rewrite Hd, Hh.
Qed.

Lemma last_Forall {A} (P : A → Prop) l d :
  Forall P l → P d → P (List.last l d).
Proof.
  intros Hl Hd. induction Hl as [|x l Hx Hl IH]; [done|].
  simpl. by destruct l.
Qed.

Lemma startswith_char c s :
  PyStr.has_char c s = false → PyStr.startswith (String c "") s = false.
Proof.
  destruct s as [|a s]; [done|]. unfold PyStr.has_char. simpl.
  by intros [-> _]%orb_false_elim.
Qed.

(** X2. The output path of the command-line downloader.  Whatever the
    title of the video and the mime type of the selected stream are, the
    name of the file holds no slash, so that [os.path.join] puts the file
    in the output directory itself: the path is the directory, a slash
    unless the directory ends with one, and the name. *)
Theorem output_file_in_output_dir
    cwd output_dir video_title selected_stream :
  PyStr.truthy cwd = true →
  let dir := CLI.output_dir cwd output_dir in
  let name := CLI.safe_title video_title +:+ "." +:+ CLI.ext selected_stream in
  PyStr.has_char "/" name = false
  ∧ CLI.output_file cwd output_dir video_title selected_stream
    = dir +:+ (if PyStr.endswith "/" dir then "" else "/") +:+ name.
Proof.
  intros Hcwd dir name.
  assert (PyStr.has_char "/" name = false) as Hname.
  { unfold name. rewrite !has_char_app.
    apply orb_false_intro; [|apply orb_false_intro; [done|]].
    - apply (any_char_weaken re.reserved_char).
      + intros c. unfold PyStr.eqc. destruct (Ascii.eqb_spec "/" c) as [<-|];
          done.
      + unfold CLI.safe_title. by apply sub_free.
    - unfold CLI.ext. destruct (mime selected_stream) as [m|]; [|done].
      apply (last_Forall (λ part, PyStr.has_char "/" part = false));
        [apply split_free|done]. }
  split; [done|].
  assert (PyStr.truthy dir = true) as Hdir.
  { unfold dir, CLI.output_dir. by destruct output_dir as [[|c d]|]. }
  unfold CLI.output_file, posixpath.join. fold dir. fold name.
  rewrite (startswith_char "/" name Hname), Hdir. simpl.
  by destruct (PyStr.endswith "/" dir).
Qed.

Lemma output_file_in_output_dir_witness :
  let stream := mkRendition "https://cdn.example/v" None (Some 360)
                  (Some "video/mp4") in
  PyStr.truthy "/home/user" = true
  ∧ PyStr.has_char "/" (CLI.safe_title "a/b: c" +:+ "." +:+ CLI.ext stream)
    = false
  ∧ CLI.output_file "/home/user" (Some "videos/") "a/b: c" stream
    = "videos/a_b_ c.mp4".
Proof.
  intros stream. split; [reflexivity|].
  apply (output_file_in_output_dir "/home/user" (Some "videos/") "a/b: c"
           stream).
  reflexivity.
Defined.

Lemma lstrip_all p s :
  PyStr.all_chars p s = true → PyStr.lstrip p s = "".
Proof.
  induction s as [|c s IH]; simpl; [done|].
  intros [Hc Hs]%andb_prop. by rewrite Hc, IH.
Qed.

Lemma endswith_app p s : PyStr.endswith p (s +:+ p) = true.
Proof.
  induction s as [|c s IH]; simpl.
  - destruct p; cbn [PyStr.endswith]; by rewrite String.eqb_refl.
  - by rewrite IH, orb_true_r.
Qed.

(** X3. The file name that the GUI downloader proposes in the save
    dialog: it holds none of the reserved characters, it ends with
    [.mp4], it does not start with white space, and for a title made of
    reserved characters and white space only it is [.mp4] alone. *)
Theorem suggested_filename_spec video_title :
  let name := GUI.suggested_filename video_title in
  PyStr.any_char re.reserved_char name = false
  ∧ PyStr.endswith ".mp4" name = true
  ∧ PyStr.lstrip PyStr.is_space name = name
  ∧ (PyStr.all_chars (λ c, re.reserved_char c || PyStr.is_space c) video_title
     = true → name = ".mp4").
Proof.
  unfold GUI.suggested_filename, GUI.safe_title. cbv zeta.
  set (t := re.sub re.reserved_char "" video_title).
  split.
  { rewrite any_char_app. apply orb_false_intro; [|done].
    apply any_char_strip_space. by apply sub_free. }
  split; [apply endswith_app|].
  split.
  { destruct (PyStr.strip_space t) as [|c r] eqn:Hstrip; [done|].
    apply strip_space_head in Hstrip. simpl. by rewrite Hstrip. }
  intros Hall.
  assert (PyStr.all_chars PyStr.is_space t = true) as Ht
    by by apply sub_remove_all.
  rewrite strip_space_ascii
    by (revert Ht; apply all_chars_impl, space_ascii).
  unfold PyStr.strip. by rewrite lstrip_all.
Qed.

(** * Links on the hosts of the site *)

Lemma span_stop p s c t :
  PyStr.all_chars p s = true → p c = false →
  PyStr.span p (s +:+ String c t) = (s, String c t).
Proof.
  intros Hs Hc. induction s as [|a s IH]; simpl.
  - by rewrite Hc.
  - apply andb_prop in Hs as [Ha Hs]. by rewrite Ha, (IH Hs).
Qed.

Lemma host_char_plain c :
  host_char c = true →
  urllib.unsafe_url_byte c = false
  ∧ urllib.netloc_delim c = false
  ∧ PyStr.eqc "[" c = false ∧ PyStr.eqc "]" c = false.
Proof. by_cases_on_char c. Qed.

Lemma path_char_plain c :
  path_char c = true →
  urllib.unsafe_url_byte c = false
  ∧ PyStr.eqc "#" c = false ∧ PyStr.eqc "?" c = false
  ∧ PyStr.eqc ";" c = false ∧ PyStr.eqc "." c = false.
Proof. by_cases_on_char c. Qed.

Section Host.
Context (host : string) (Hhost : PyStr.all_chars host_char host = true).

Lemma host_remove : PyStr.remove urllib.unsafe_url_byte host = host.
Proof using Hhost.
  apply remove_none. revert Hhost. apply all_chars_impl.
  intros c Hc. by destruct (host_char_plain c Hc) as (-> & _).
Qed.

Lemma host_span rest :
  PyStr.span (λ c, negb (urllib.netloc_delim c)) (host +:+ String "/" rest)
  = (host, String "/" rest).
Proof using Hhost.
  apply span_stop; [|done]. revert Hhost. apply all_chars_impl.
  intros c Hc. by destruct (host_char_plain c Hc) as (_ & -> & _).
Qed.

Lemma host_brackets :
  PyStr.has_char "[" host = false ∧ PyStr.has_char "]" host = false.
Proof using Hhost.
  split; unfold PyStr.has_char.
  - apply (any_char_none host_char); [|done].
    intros c Hc. by destruct (host_char_plain c Hc) as (_ & _ & -> & _).
  - apply (any_char_none host_char); [|done].
    intros c Hc. by destruct (host_char_plain c Hc) as (_ & _ & _ & ->).
Qed.

(** Whatever follows the slash after the host, [urlparse] reads the
    scheme and the host of such a link. *)
Lemma urlparse_https_host rest :
  ∃ p, urllib.urlparse ("https://" +:+ host +:+ "/" +:+ rest) = Ok p
       ∧ urllib.scheme p = "https" ∧ urllib.netloc p = host.
Proof using Hhost.
  set (rest' := PyStr.remove urllib.unsafe_url_byte rest).
  destruct host_brackets as [Hopen Hclose].
  unfold urllib.urlparse, urllib.urlsplit.
  change (PyStr.lstrip urllib.c0_control_or_space
            ("https://" +:+ host +:+ "/" +:+ rest))
    with ("https://" +:+ host +:+ "/" +:+ rest).
  rewrite !remove_app, host_remove.
  change (PyStr.remove urllib.unsafe_url_byte "https://") with "https://".
  change (PyStr.remove urllib.unsafe_url_byte "/") with "/".
  fold rest'.
  change (urllib.split_scheme ("https://" +:+ host +:+ "/" +:+ rest'))
    with ("https", "//" +:+ host +:+ "/" +:+ rest').
  cbv beta iota.
  change (PyStr.drop_prefix "//" ("//" +:+ host +:+ "/" +:+ rest'))
    with (Some (host +:+ String "/" rest')).
  cbv beta iota. unfold urllib._splitnetloc. rewrite host_span.
  cbv beta iota. rewrite Hopen, Hclose. cbv beta iota.
  cbn [orb mbind res_bind].
  destruct (PyStr.split1 "#" (String "/" rest')) as [u [f|]];
    destruct (PyStr.split1 "?" u) as [u' [q|]];
    cbn [mbind res_bind urllib.sp_scheme urllib.sp_netloc urllib.sp_url
         urllib.sp_query urllib.sp_fragment];
    (destruct (_ && _); [destruct (urllib._splitparams _)|]); eauto.
Qed.

(** A link with a path of letters, digits and slashes and nothing else
    after the host. *)
Lemma urlparse_plain path :
  PyStr.all_chars path_char path = true →
  urllib.urlparse ("https://" +:+ host +:+ "/" +:+ path)
  = Ok (urllib.mkParse "https" host (String "/" path) "" "" "").
Proof using Hhost.
  intros Hpath.
  assert (PyStr.remove urllib.unsafe_url_byte path = path) as Hremove.
  { apply remove_none. revert Hpath. apply all_chars_impl.
    intros c Hc. by destruct (path_char_plain c Hc) as (-> & _). }
  destruct host_brackets as [Hopen Hclose].
  assert (∀ d, path_char d = false → PyStr.has_char d (String "/" path) = false)
    as Hfree.
  { intros d Hd. apply (has_char_none path_char); [done|].
    cbn [PyStr.all_chars]. by rewrite Hpath. }
  unfold urllib.urlparse, urllib.urlsplit.
  change (PyStr.lstrip urllib.c0_control_or_space
            ("https://" +:+ host +:+ "/" +:+ path))
    with ("https://" +:+ host +:+ "/" +:+ path).
  rewrite !remove_app, host_remove, Hremove.
  change (PyStr.remove urllib.unsafe_url_byte "https://") with "https://".
  change (PyStr.remove urllib.unsafe_url_byte "/") with "/".
  change (urllib.split_scheme ("https://" +:+ host +:+ "/" +:+ path))
    with ("https", "//" +:+ host +:+ "/" +:+ path).
  cbv beta iota.
  change (PyStr.drop_prefix "//" ("//" +:+ host +:+ "/" +:+ path))
    with (Some (host +:+ String "/" path)).
  cbv beta iota. unfold urllib._splitnetloc. rewrite host_span.
  cbv beta iota. rewrite Hopen, Hclose. cbv beta iota.
  cbn [orb mbind res_bind].
  rewrite (split1_none "#") by by apply Hfree.
  rewrite (split1_none "?") by by apply Hfree.
  cbn [mbind res_bind urllib.sp_scheme urllib.sp_netloc urllib.sp_url
       urllib.sp_query urllib.sp_fragment].
  rewrite (Hfree ";"%char) by done. by rewrite andb_false_r.
Qed.
End Host.

Lemma urlparse_vimeo_host rest :
  ∃ p, urllib.urlparse ("https://vimeo.com/" +:+ rest) = Ok p
       ∧ urllib.scheme p = "https" ∧ urllib.netloc p = "vimeo.com".
Proof. exact (urlparse_https_host "vimeo.com" eq_refl rest). Qed.

Lemma urlparse_player_host rest :
  ∃ p, urllib.urlparse ("https://player.vimeo.com/" +:+ rest) = Ok p
       ∧ urllib.scheme p = "https" ∧ urllib.netloc p = "player.vimeo.com".
Proof. exact (urlparse_https_host "player.vimeo.com" eq_refl rest). Qed.

(** The address of the configuration is on the player host, whatever the
    reference holds. *)
Lemma config_url_host fixed video_id unlock_hash h_param share_token :
  ∃ p, urllib.urlparse
         (Common.build_config_url fixed video_id unlock_hash h_param
            share_token) = Ok p
       ∧ urllib.scheme p = "https" ∧ urllib.netloc p = "player.vimeo.com".
Proof.
  unfold Common.build_config_url, Common.config_base.
  destruct (Common.config_params fixed h_param share_token) as [|kv params];
    destruct (is_set unlock_hash);
    rewrite ?string_app_assoc; apply (urlparse_player_host (_ +:+ _)).
Qed.

(** * The entry check of the window *)

Lemma startswith_app p s :
  PyStr.startswith p s = true → ∃ rest, s = p +:+ rest.
Proof.
  revert s. induction p as [|a p IH]; intros s; simpl; [by eauto|].
  destruct s as [|b s]; [done|].
  unfold PyStr.eqc. destruct (Ascii.eqb_spec a b) as [->|]; [|done]. simpl.
  intros [rest ->]%IH. by exists rest.
Qed.

(** X4. A bare video id typed into the window is refused.  The resolver
    of the GUI downloader takes a string of the digits [0] to [9] for a
    video id, but the handler of the Download button, which runs first,
    shows "Invalid Vimeo URL" for it and starts nothing: that branch of
    the resolver is never reached from the window. *)
Theorem start_download_refuses_bare_id url_var :
  let url := PyStr.strip PyStr.is_space url_var in
  PyStr.isdigit url = true →
  GUI.start_download url_var = GUI.ShowError "Invalid Vimeo URL"
  ∧ GUI.parse_vimeo_url url = Ok (Some (mkRef (Some url) None None None)).
Proof.
  intros url Hdigit. split; [|by apply GUI_parse_vimeo_url_numeric].
  unfold GUI.start_download. rewrite (strip_space_digits url_var Hdigit).
  fold url.
  destruct (isdigit_head url Hdigit) as (c & rest & Hurl & Hc).
  rewrite Hurl. cbn [PyStr.truthy PyStr.is_empty negb PyStr.startswith].
  unfold PyStr.eqc.
  destruct (Ascii.eqb_spec "h" c) as [<-|]; [done|done].
Qed.

Lemma start_download_refuses_bare_id_witness :
  PyStr.isdigit (PyStr.strip PyStr.is_space " 325572565 ") = true
  ∧ GUI.start_download " 325572565 " = GUI.ShowError "Invalid Vimeo URL"
  ∧ GUI.parse_vimeo_url "325572565"
    = Ok (Some (mkRef (Some "325572565") None None None)).
Proof.
  split; [reflexivity|].
  apply (start_download_refuses_bare_id " 325572565 "). reflexivity.
Defined.

Lemma strip_space_keeps_head c s :
  is_ascii c = true → PyStr.is_space c = false →
  ∃ r, PyStr.strip_space (String c s) = String c r.
Proof.
  intros Ha Hc. unfold PyStr.strip_space. cbn [PyStr.lstrip_text].
  rewrite char_at_ascii, space_cp_ascii, Hc by done.
  cbn [PyStr.rstrip_text PyStr.all_text].
  rewrite char_at_ascii, space_cp_ascii, Hc by done. by eauto.
Qed.

Lemma str_isdigit_head c s :
  is_ascii c = true → PyStr.is_digit c = false →
  PyStr.str_isdigit (String c s) = false.
Proof.
  intros Ha Hc. unfold PyStr.str_isdigit. cbn [PyStr.all_text].
  rewrite char_at_ascii, digit_cp_ascii, Hc by done. apply andb_false_r.
Qed.

(** X5. What the handler of the Download button lets through.  When it
    starts a download, the link handed to [download_video] is the text of
    the field without the white space at its two ends, as [strip()]
    takes it off; [urlparse] reads it as an [https] link on [vimeo.com]
    or [player.vimeo.com]; the resolver does not raise on it; and it is
    no bare number. *)
Theorem start_download_accepts url_var url :
  GUI.start_download url_var = GUI.Start url →
  url = PyStr.strip_space url_var
  ∧ (∃ p, urllib.urlparse url = Ok p
          ∧ urllib.scheme p = "https"
          ∧ (urllib.netloc p = "vimeo.com"
             ∨ urllib.netloc p = "player.vimeo.com"))
  ∧ (∃ r, GUI.parse_vimeo_url url = Ok r)
  ∧ PyStr.str_isdigit (PyStr.strip_space url) = false.
Proof.
  unfold GUI.start_download.
  set (stripped := PyStr.strip_space url_var).
  destruct (PyStr.truthy stripped); [|discriminate]. cbn [negb].
  destruct (PyStr.startswith "https://vimeo.com/" stripped
            || PyStr.startswith "https://player.vimeo.com/" stripped)
    eqn:Hprefix; [|discriminate].
  cbn [negb]. intros [= <-]. split; [done|].
  assert (∃ p, urllib.urlparse stripped = Ok p
               ∧ urllib.scheme p = "https"
               ∧ (urllib.netloc p = "vimeo.com"
                  ∨ urllib.netloc p = "player.vimeo.com")) as Hparse.
  { apply orb_prop in Hprefix as [[rest ->]%startswith_app
                                 |[rest ->]%startswith_app].
    - destruct (urlparse_vimeo_host rest) as (p & ? & ? & ?). eauto 10.
    - destruct (urlparse_player_host rest) as (p & ? & ? & ?). eauto 10. }
  split; [done|]. split.
  - destruct Hparse as (p & Hp & _). unfold GUI.parse_vimeo_url.
    destruct (re.search (re.id_slash_hash "vimeo.com/") stripped)
      as [[g1 g2]|]; [by eauto|].
    destruct (re.search (re.id_slash_hash "player.vimeo.com/video/") stripped)
      as [[g1 g2]|]; [by eauto|].
    destruct (re.search (re.id_after "vimeo.com/") stripped) as [g1|].
    { rewrite Hp. cbn [mbind res_bind]. by eauto. }
    destruct (re.search (re.id_after "player.vimeo.com/video/") stripped);
      [by eauto|].
    destruct (PyStr.str_isdigit _); by eauto.
  - assert (∃ rest, stripped = String "h" rest) as [rest ->].
    { apply orb_prop in Hprefix as [[rest ->]%startswith_app
                                   |[rest ->]%startswith_app]; by eexists. }
    destruct (strip_space_keeps_head "h" rest) as [r ->]; [done..|].
    by apply str_isdigit_head.
Qed.

Lemma start_download_accepts_witness :
  let url := "https://vimeo.com/325572565?h=abc" in
  let url_var :=
    String "194" (String "160" (" " +:+ url
      +:+ String "226" (String "128" (String "131" "")))) in
  GUI.start_download url_var = GUI.Start url
  ∧ url = PyStr.strip_space url_var
  ∧ (∃ p, urllib.urlparse url = Ok p
          ∧ urllib.scheme p = "https"
          ∧ (urllib.netloc p = "vimeo.com"
             ∨ urllib.netloc p = "player.vimeo.com"))
  ∧ (∃ r, GUI.parse_vimeo_url url = Ok r)
  ∧ PyStr.str_isdigit (PyStr.strip_space url) = false.
Proof.
  intros url url_var. split; [reflexivity|].
  apply (start_download_accepts url_var url). reflexivity.
Defined.

(** * The references of the GUI resolver *)

Lemma run1_spec p s g rest :
  re.run1 p s = Some (g, rest) →
  PyStr.truthy g = true ∧ PyStr.all_chars p g = true.
Proof.
  unfold re.run1. pose proof (span_all p s) as Hspan.
  destruct (PyStr.span p s) as [run rest']. simpl in Hspan.
  destruct (PyStr.truthy run) eqn:Ht; [|done]. by intros [= <- <-].
Qed.

Lemma id_slash_hash_groups prefix t g1 g2 :
  re.id_slash_hash prefix t = Some (g1, g2) →
  PyStr.str_isdigit g1 = true
  ∧ PyStr.truthy g2 = true ∧ PyStr.all_chars PyStr.is_alnum g2 = true.
Proof.
  unfold re.id_slash_hash.
  destruct (PyStr.drop_prefix prefix t) as [rest|];
    cbn [mbind option_bind]; [|done].
  destruct (re.digits rest) as [[d rest1]|] eqn:H1;
    cbn [mbind option_bind]; [|done].
  destruct (PyStr.drop_prefix "/" rest1) as [rest2|];
    cbn [mbind option_bind]; [|done].
  destruct (re.run1 PyStr.is_alnum rest2) as [[a rest3]|] eqn:H2;
    cbn [mbind option_bind]; [|done].
  intros [= <- <-].
  apply digits_isdigit in H1. by apply run1_spec in H2 as [? ?].
Qed.

Lemma id_after_group prefix t g1 :
  re.id_after prefix t = Some g1 → PyStr.str_isdigit g1 = true.
Proof.
  unfold re.id_after.
  destruct (PyStr.drop_prefix prefix t) as [rest|];
    cbn [mbind option_bind]; [|done].
  destruct (re.digits rest) as [[d rest1]|] eqn:H1;
    cbn [mbind option_bind]; [|done].
  intros [= <-]. by eapply digits_isdigit.
Qed.

(** X6. The reference that the GUI resolver returns.  The video id is a
    text of digits, whatever pattern found it: [isdigit()] holds of it,
    so that it is not empty and holds no ASCII character but the digits
    [0] to [9].  An unlock hash is a non-empty string of ASCII letters
    and digits and comes without any token; without an unlock hash, no
    token is the empty string. *)
Theorem GUI_parse_vimeo_url_shape url r :
  GUI.parse_vimeo_url url = Ok (Some r) →
  (∃ id, video_id r = Some id
         ∧ PyStr.str_isdigit id = true
         ∧ PyStr.all_chars digit_byte id = true)
  ∧ match unlock_hash r with
    | Some hash =>
        PyStr.truthy hash = true
        ∧ PyStr.all_chars PyStr.is_alnum hash = true
        ∧ h_param r = None ∧ share_token r = None
    | None => h_param r ≠ Some "" ∧ share_token r ≠ Some ""
    end.
Proof.
  assert (∀ id, PyStr.str_isdigit id = true →
            ∃ id', Some id = Some id'
                   ∧ PyStr.str_isdigit id' = true
                   ∧ PyStr.all_chars digit_byte id' = true) as Hid.
  { intros id Hd. exists id. by auto using str_isdigit_bytes. }
  unfold GUI.parse_vimeo_url.
  destruct (re.search (re.id_slash_hash "vimeo.com/") url)
    as [[g1 g2]|] eqn:H1.
  { intros [= <-]. apply search_some in H1 as [t Ht].
    apply id_slash_hash_groups in Ht as (? & ? & ?). simpl. by auto. }
  destruct (re.search (re.id_slash_hash "player.vimeo.com/video/") url)
    as [[g1 g2]|] eqn:H2.
  { intros [= <-]. apply search_some in H2 as [t Ht].
    apply id_slash_hash_groups in Ht as (? & ? & ?). simpl. by auto. }
  destruct (re.search (re.id_after "vimeo.com/") url) as [g1|] eqn:H3.
  { destruct (urllib.urlparse url) as [parsed_url|]; [|discriminate].
    cbn [mbind res_bind]. intros [= <-].
    apply search_some in H3 as [t Ht]. apply id_after_group in Ht. simpl.
    split; [by auto|]. split; apply parse_qs_value_set. }
  destruct (re.search (re.id_after "player.vimeo.com/video/") url)
    as [g1|] eqn:H4.
  { intros [= <-]. apply search_some in H4 as [t Ht].
    apply id_after_group in Ht. simpl. split; [by auto|]. done. }
  destruct (PyStr.str_isdigit (PyStr.strip_space url)) eqn:Hd;
    [|discriminate].
  intros [= <-]. simpl. split; [by auto|]. done.
Qed.

Lemma GUI_parse_vimeo_url_shape_witness :
  let arabic_123 :=
    String "217" (String "161" (String "217" (String "162"
      (String "217" (String "163" ""))))) in
  let r := mkRef (Some arabic_123) None (Some "abc 1") (Some "copy") in
  GUI.parse_vimeo_url
    ("https://vimeo.com/" +:+ arabic_123 +:+ "?h=abc+1&share=copy")
  = Ok (Some r)
  ∧ (∃ id, video_id r = Some id
           ∧ PyStr.str_isdigit id = true
           ∧ PyStr.all_chars digit_byte id = true)
  ∧ h_param r ≠ Some "" ∧ share_token r ≠ Some "".
Proof.
  intros arabic_123 r.
  assert (GUI.parse_vimeo_url
            ("https://vimeo.com/" +:+ arabic_123 +:+ "?h=abc+1&share=copy")
          = Ok (Some r)) as H by by vm_compute.
  split; [exact H|].
  exact (GUI_parse_vimeo_url_shape
           ("https://vimeo.com/" +:+ arabic_123 +:+ "?h=abc+1&share=copy")
           r H).
Defined.

Lemma digit_alnum c : PyStr.is_digit c = true → PyStr.is_alnum c = true.
Proof. by_cases_on_char c. Qed.

Lemma isdigit_alnum id :
  PyStr.isdigit id = true → PyStr.all_chars PyStr.is_alnum id = true.
Proof.
  intros Hid. apply (all_chars_impl PyStr.is_digit); [apply digit_alnum|].
  by apply isdigit_all.
Qed.

Lemma alnum_free c s :
  c = "?"%char ∨ c = "#"%char →
  PyStr.all_chars PyStr.is_alnum s = true → PyStr.has_char c s = false.
Proof.
  intros Hc. apply (has_char_none PyStr.is_alnum).
  by destruct Hc as [-> | ->].
Qed.

(** What the GUI resolver returns is fit for the builder. *)
Lemma GUI_parse_vimeo_url_fit url r :
  GUI.parse_vimeo_url url = Ok (Some r) →
  h_param r ≠ Some "" ∧ share_token r ≠ Some ""
  ∧ (∀ c, c = "?"%char ∨ c = "#"%char →
       PyStr.has_char c (default "" (video_id r)) = false
       ∧ PyStr.has_char c (default "" (unlock_hash r)) = false).
Proof.
  assert (∀ c g, c = "?"%char ∨ c = "#"%char → PyStr.str_isdigit g = true →
            PyStr.has_char c g = false) as Hid.
  { intros c g Hc Hg%str_isdigit_bytes.
    destruct Hc as [-> | ->]; by apply digit_byte_free. }
  unfold GUI.parse_vimeo_url.
  destruct (re.search (re.id_slash_hash "vimeo.com/") url)
    as [[g1 g2]|] eqn:H1.
  { intros [= <-]. apply search_some in H1 as [t Ht].
    apply id_slash_hash_groups in Ht as (? & ? & ?). simpl.
    split; [done|]. split; [done|]. intros c Hc.
    split; [by apply Hid|by apply alnum_free]. }
  destruct (re.search (re.id_slash_hash "player.vimeo.com/video/") url)
    as [[g1 g2]|] eqn:H2.
  { intros [= <-]. apply search_some in H2 as [t Ht].
    apply id_slash_hash_groups in Ht as (? & ? & ?). simpl.
    split; [done|]. split; [done|]. intros c Hc.
    split; [by apply Hid|by apply alnum_free]. }
  destruct (re.search (re.id_after "vimeo.com/") url) as [g1|] eqn:H3.
  { destruct (urllib.urlparse url) as [parsed_url|]; [|discriminate].
    cbn [mbind res_bind]. intros [= <-].
    apply search_some in H3 as [t Ht]. apply id_after_group in Ht. simpl.
    split; [apply parse_qs_value_set|]. split; [apply parse_qs_value_set|].
    intros c Hc. split; [by apply Hid|done]. }
  destruct (re.search (re.id_after "player.vimeo.com/video/") url)
    as [g1|] eqn:H4.
  { intros [= <-]. apply search_some in H4 as [t Ht].
    apply id_after_group in Ht. simpl.
    split; [done|]. split; [done|]. intros c Hc. split; [by apply Hid|done]. }
  destruct (PyStr.str_isdigit (PyStr.strip_space url)) eqn:Hd;
    [|discriminate].
  intros [= <-]. simpl.
  split; [done|]. split; [done|]. intros c Hc. split; [by apply Hid|done].
Qed.

Lemma GUI_config_params h_param share_token :
  let params := Common.config_params GUI.player_params h_param share_token in
  plain_params params = true
  ∧ dict_get "h" params = token h_param
  ∧ dict_get "share" params = token share_token.
Proof.
  destruct h_param as [[|c h]|], share_token as [[|d s]|];
    (split; [reflexivity|]); (split; reflexivity).
Qed.

(** The address the GUI builder returns reads back as the tokens that are
    set followed by its nine player parameters. *)
Lemma GUI_build_config_url_carries
    video_id unlock_hash h_param share_token :
  PyStr.has_char "?" video_id = false →
  PyStr.has_char "#" video_id = false →
  PyStr.has_char "?" (default "" unlock_hash) = false →
  PyStr.has_char "#" (default "" unlock_hash) = false →
  let url := GUI.build_config_url video_id unlock_hash h_param share_token in
  let params := Common.config_params GUI.player_params h_param share_token in
  ∃ parsed_url,
    urllib.urlparse url = Ok parsed_url
    ∧ urllib.netloc parsed_url = "player.vimeo.com"
    ∧ urllib.parse_qsl (urllib.query parsed_url) = params
    ∧ first_value "h" (urllib.parse_qs (urllib.query parsed_url))
      = token h_param
    ∧ first_value "share" (urllib.parse_qs (urllib.query parsed_url))
      = token share_token.
Proof.
  intros Hvq Hvf Huq Huf url params.
  destruct (GUI_config_params h_param share_token) as (Hplain & Hh & Hshare).
  fold params in Hplain, Hh, Hshare.
  assert (url = "https://player.vimeo.com/video/"
                +:+ config_path video_id unlock_hash
                +:+ "?" +:+ Common.query_string params) as ->.
  { by apply build_config_url_shape. }
  destruct (urlparse_config_url (config_path video_id unlock_hash)
              (Common.query_string params))
    as (parsed_url & Hparse & _ & Hnetloc & Hquery & _).
  { by apply config_path_chars. }
  { by apply config_path_chars. }
  { by apply query_string_chars. }
  exists parsed_url. split; [done|]. split; [done|].
  rewrite Hquery. rewrite !parse_qs_first.
  by rewrite parse_qsl_query_string.
Qed.

(** X7. The round trip in the GUI downloader.  The reference that its
    resolver builds from a link, passed through its builder, gives an
    address on the player host whose query string reads back as the
    tokens of the reference, unchanged, followed by the nine player
    parameters of the GUI builder and nothing else. *)
Theorem GUI_resolved_reference_round_trip url r :
  GUI.parse_vimeo_url url = Ok (Some r) →
  ∃ parsed_url,
    urllib.urlparse
      (GUI.build_config_url (default "" (video_id r)) (unlock_hash r)
         (h_param r) (share_token r))
    = Ok parsed_url
    ∧ urllib.netloc parsed_url = "player.vimeo.com"
    ∧ urllib.parse_qsl (urllib.query parsed_url)
      = Common.config_params GUI.player_params (h_param r) (share_token r)
    ∧ first_value "h" (urllib.parse_qs (urllib.query parsed_url))
      = h_param r
    ∧ first_value "share" (urllib.parse_qs (urllib.query parsed_url))
      = share_token r.
Proof.
  intros (Hh & Hs & Hfree)%GUI_parse_vimeo_url_fit.
  destruct (Hfree "?"%char) as [Hvq Huq]; [by left|].
  destruct (Hfree "#"%char) as [Hvf Huf]; [by right|].
  destruct (GUI_build_config_url_carries (default "" (video_id r))
              (unlock_hash r) (h_param r) (share_token r) Hvq Hvf Huq Huf)
    as (parsed_url & Hparse & Hnetloc & Hparams & Hh' & Hs').
  exists parsed_url. split; [done|]. split; [done|]. split; [done|].
  rewrite Hh', Hs'. unfold token. split.
  - by destruct (h_param r) as [[|c h]|].
  - by destruct (share_token r) as [[|c s]|].
Qed.

Lemma GUI_resolved_reference_round_trip_witness :
  let r := mkRef (Some "325572565") None (Some "a&b=c") (Some "copy") in
  GUI.parse_vimeo_url "https://vimeo.com/325572565?h=a%26b%3Dc&share=copy"
  = Ok (Some r)
  ∧ ∃ parsed_url,
      urllib.urlparse
        (GUI.build_config_url "325572565" None (Some "a&b=c") (Some "copy"))
      = Ok parsed_url
      ∧ urllib.netloc parsed_url = "player.vimeo.com"
      ∧ urllib.parse_qsl (urllib.query parsed_url)
        = Common.config_params GUI.player_params (Some "a&b=c") (Some "copy")
      ∧ first_value "h" (urllib.parse_qs (urllib.query parsed_url))
        = Some "a&b=c"
      ∧ first_value "share" (urllib.parse_qs (urllib.query parsed_url))
        = Some "copy".
Proof.
  intros r.
  assert (GUI.parse_vimeo_url
            "https://vimeo.com/325572565?h=a%26b%3Dc&share=copy"
          = Ok (Some r)) as H by by vm_compute.
  split; [exact H|].
  exact (GUI_resolved_reference_round_trip
           "https://vimeo.com/325572565?h=a%26b%3Dc&share=copy" r H).
Defined.

(** * Plain links *)

Lemma truthy_app_r s t :
  PyStr.truthy t = true → PyStr.truthy (s +:+ t) = true.
Proof. by destruct s. Qed.

Lemma rstrip_app p s t :
  PyStr.truthy t = true → PyStr.rstrip p t = t →
  PyStr.rstrip p (s +:+ t) = s +:+ t.
Proof.
  intros Ht Hr. induction s as [|a s IH]; cbn [String.append PyStr.rstrip].
  - done.
  - rewrite IH. destruct s as [|b s]; [|done].
    cbn [String.append]. by destruct t.
Qed.

Lemma lstrip_head p s t :
  PyStr.truthy s = true → PyStr.all_chars (λ c, negb (p c)) s = true →
  PyStr.lstrip p (s +:+ t) = s +:+ t.
Proof.
  destruct s as [|c s]; [done|]. intros _ [Hc _]%andb_prop.
  cbn [String.append PyStr.lstrip]. by apply negb_true_iff in Hc as ->.
Qed.

Lemma strip_leading p d u :
  p d = true → PyStr.lstrip p u = u → PyStr.rstrip p u = u →
  PyStr.strip p (String d u) = u.
Proof.
  intros Hd Hl Hr. unfold PyStr.strip. cbn [PyStr.lstrip]. by rewrite Hd, Hl.
Qed.

Lemma span_whole p s :
  PyStr.all_chars p s = true → PyStr.span p s = (s, "").
Proof.
  induction s as [|c s IH]; simpl; [done|].
  intros [Hc Hs]%andb_prop. by rewrite Hc, (IH Hs).
Qed.

Lemma run1_whole p s :
  PyStr.truthy s = true → PyStr.all_chars p s = true →
  re.run1 p s = Some (s, "").
Proof. intros Ht Hs. unfold re.run1. by rewrite span_whole, Ht. Qed.

(** The run of [\d+] on ASCII digits. *)
Lemma span_text_digits s t :
  PyStr.all_chars PyStr.is_digit s = true →
  match t with
  | EmptyString => True
  | String c _ => is_ascii c = true ∧ PyStr.is_digit c = false
  end →
  PyStr.span_text PyStr.decimal_cp 0 (s +:+ t) = (s, t).
Proof.
  intros Hs Ht. induction s as [|a s IH]; cbn [String.append].
  - destruct t as [|c t]; [done|]. destruct Ht as [Ha Hc].
    cbn [PyStr.span_text]. by rewrite char_at_ascii, decimal_cp_ascii, Hc.
  - apply andb_prop in Hs as [Ha Hs]. cbn [PyStr.span_text].
    rewrite char_at_ascii, decimal_cp_ascii, Ha by by apply digit_ascii.
    by rewrite (IH Hs).
Qed.

Lemma digits_whole s :
  PyStr.truthy s = true → PyStr.all_chars PyStr.is_digit s = true →
  re.digits s = Some (s, "").
Proof.
  intros Ht Hs. unfold re.digits.
  pose proof (span_text_digits s "" Hs I) as H.
  replace (s +:+ "") with s in H; [by rewrite H, Ht|].
  clear. induction s as [|c s IH]; cbn [String.append]; congruence.
Qed.

Lemma digits_none c s :
  is_ascii c = true → PyStr.is_digit c = false →
  re.digits (String c s) = None.
Proof.
  intros Ha Hc. unfold re.digits. cbn [PyStr.span_text].
  by rewrite char_at_ascii, decimal_cp_ascii, Hc.
Qed.

Lemma digits_stop s c t :
  PyStr.truthy s = true → PyStr.all_chars PyStr.is_digit s = true →
  is_ascii c = true → PyStr.is_digit c = false →
  re.digits (s +:+ String c t) = Some (s, String c t).
Proof.
  intros Ht Hs Ha Hc. unfold re.digits.
  by rewrite (span_text_digits s (String c t)), Ht.
Qed.

Lemma search_skip {A} (m : string → option A) c s :
  m (String c s) = None → re.search m (String c s) = re.search m s.
Proof. intros H. cbn [re.search]. by rewrite H. Qed.

Lemma search_here {A} (m : string → option A) s r :
  m s = Some r → re.search m s = Some r.
Proof. intros H. destruct s; cbn [re.search]; by rewrite H. Qed.

Lemma drop_prefix_app p s : PyStr.drop_prefix p (p +:+ s) = Some s.
Proof.
  induction p as [|a p IH]; cbn [String.append PyStr.drop_prefix]; [done|].
  unfold PyStr.eqc. by rewrite Ascii.eqb_refl.
Qed.

Lemma drop_prefix_inv p t r : PyStr.drop_prefix p t = Some r → t = p +:+ r.
Proof.
  revert t. induction p as [|a p IH]; intros t;
    cbn [String.append PyStr.drop_prefix]; [by intros [= ->]|].
  destruct t as [|b t]; [done|]. unfold PyStr.eqc.
  destruct (Ascii.eqb_spec a b) as [->|]; [|done]. by intros ->%IH.
Qed.

(** The patterns of the GUI resolver hold a dot: they match nowhere in a
    path of letters, digits and slashes. *)
Lemma drop_prefix_path prefix t :
  PyStr.has_char "." prefix = true →
  PyStr.all_chars path_char t = true →
  PyStr.drop_prefix prefix t = None.
Proof.
  intros Hdot Ht. destruct (PyStr.drop_prefix prefix t) as [r|] eqn:H; [|done].
  apply drop_prefix_inv in H as ->. rewrite all_chars_app in Ht.
  apply andb_prop in Ht as [Hp _].
  pose proof (has_char_none path_char "." prefix eq_refl Hp). congruence.
Qed.

Lemma id_slash_hash_path prefix t :
  PyStr.has_char "." prefix = true →
  PyStr.all_chars path_char t = true →
  re.id_slash_hash prefix t = None.
Proof.
  intros Hdot Ht. unfold re.id_slash_hash. by rewrite drop_prefix_path.
Qed.

Lemma id_after_path prefix t :
  PyStr.has_char "." prefix = true →
  PyStr.all_chars path_char t = true →
  re.id_after prefix t = None.
Proof.
  intros Hdot Ht. unfold re.id_after. by rewrite drop_prefix_path.
Qed.

Lemma alnum_not_slash c :
  PyStr.is_alnum c = true →
  PyStr.eqc "/" c = false ∧ PyStr.eqc "?" c = false.
Proof. by_cases_on_char c. Qed.

Lemma alnum_no_slash s :
  PyStr.all_chars PyStr.is_alnum s = true →
  PyStr.all_chars (λ c, negb (PyStr.eqc "/" c)) s = true.
Proof.
  apply all_chars_impl. intros c Hc. by destruct (alnum_not_slash c Hc) as [-> _].
Qed.

Lemma alnum_split s :
  PyStr.all_chars PyStr.is_alnum s = true → PyStr.has_char "/" s = false.
Proof. by apply (has_char_none PyStr.is_alnum). Qed.

Lemma alnum_path s :
  PyStr.all_chars PyStr.is_alnum s = true →
  PyStr.all_chars path_char s = true.
Proof.
  apply all_chars_impl. intros c Hc. unfold path_char. by rewrite Hc.
Qed.

Lemma startswith_alnum hash :
  PyStr.truthy hash = true → PyStr.all_chars PyStr.is_alnum hash = true →
  PyStr.startswith "?" hash = false.
Proof.
  destruct hash as [|c h]; [done|]. intros _ [Hc _]%andb_prop.
  cbn [PyStr.startswith]. by destruct (alnum_not_slash c Hc) as [_ ->].
Qed.

(** The segments of a path of one, two or three parts. *)
Lemma path_parts_1 a :
  PyStr.all_chars PyStr.is_alnum a = true →
  PyStr.split "/" (PyStr.strip (PyStr.eqc "/") (String "/" a)) = [a].
Proof.
  intros Ha. rewrite strip_leading; [|done|..].
  - by rewrite split_none by by apply alnum_split.
  - apply lstrip_none. by apply alnum_no_slash.
  - apply rstrip_none. by apply alnum_no_slash.
Qed.

Lemma path_parts_2 a b :
  PyStr.truthy a = true → PyStr.all_chars PyStr.is_alnum a = true →
  PyStr.truthy b = true → PyStr.all_chars PyStr.is_alnum b = true →
  PyStr.split "/" (PyStr.strip (PyStr.eqc "/") (String "/" (a +:+ "/" +:+ b)))
  = [a; b].
Proof.
  intros Ha_set Ha Hb_set Hb. rewrite strip_leading; [|done|..].
  - change (a +:+ "/" +:+ b) with (a +:+ String "/" b).
    rewrite split_app by by apply alnum_split.
    by rewrite split_none by by apply alnum_split.
  - apply lstrip_head; [done|by apply alnum_no_slash].
  - do 2 (apply rstrip_app; [by repeat apply truthy_app_r|]).
    apply rstrip_none. by apply alnum_no_slash.
Qed.

Lemma path_parts_3 a b c :
  PyStr.truthy a = true → PyStr.all_chars PyStr.is_alnum a = true →
  PyStr.all_chars PyStr.is_alnum b = true →
  PyStr.truthy c = true → PyStr.all_chars PyStr.is_alnum c = true →
  PyStr.split "/"
    (PyStr.strip (PyStr.eqc "/") (String "/" (a +:+ "/" +:+ b +:+ "/" +:+ c)))
  = [a; b; c].
Proof.
  intros Ha_set Ha Hb Hc_set Hc. rewrite strip_leading; [|done|..].
  - change (a +:+ "/" +:+ b +:+ "/" +:+ c)
      with (a +:+ String "/" (b +:+ String "/" c)).
    rewrite split_app by by apply alnum_split.
    rewrite split_app by by apply alnum_split.
    by rewrite split_none by by apply alnum_split.
  - apply lstrip_head; [done|by apply alnum_no_slash].
  - do 4 (apply rstrip_app; [by repeat apply truthy_app_r|]).
    apply rstrip_none. by apply alnum_no_slash.
Qed.

(** The positions of a search at which the pattern fails by the text that
    is written out. *)
Ltac skip_literal := repeat (rewrite search_skip by reflexivity).

(** The end of the evaluation of the command-line resolver: the tokens
    of an empty query, and the video id that is set. *)
Ltac finish_reference :=
  cbv beta iota zeta; unfold is_set;
  repeat match goal with
         | H : PyStr.truthy ?s = true |- context [PyStr.truthy ?s] =>
             rewrite H
         end;
  reflexivity.

Section Plain.
Context (id hash : string).
Context (Hid : PyStr.isdigit id = true).
Context (Hhash_set : PyStr.truthy hash = true).
Context (Hhash : PyStr.all_chars PyStr.is_alnum hash = true).

Lemma plain_id_set : PyStr.truthy id = true.
Proof using Hid. by apply andb_prop in Hid as [? _]. Qed.

Lemma plain_id_path : PyStr.all_chars path_char id = true.
Proof using Hid. by apply alnum_path, isdigit_alnum. Qed.

Lemma plain_id_hash_path :
  PyStr.all_chars path_char (id +:+ "/" +:+ hash) = true.
Proof using Hid Hhash.
  rewrite !all_chars_app, plain_id_path, (alnum_path hash) by done.
  reflexivity.
Qed.

Lemma id_slash_hash_at prefix :
  re.id_slash_hash prefix (prefix +:+ id +:+ "/" +:+ hash) = Some (id, hash).
Proof using Hid Hhash_set Hhash.
  unfold re.id_slash_hash. rewrite drop_prefix_app.
  cbn [mbind option_bind].
  change (id +:+ "/" +:+ hash) with (id +:+ String "/" hash).
  rewrite digits_stop; [|apply plain_id_set|by apply isdigit_all|done..].
  cbn [mbind option_bind].
  change (PyStr.drop_prefix "/" (String "/" hash)) with (Some hash).
  cbn [mbind option_bind]. by rewrite run1_whole.
Qed.

Lemma id_slash_hash_no_hash prefix :
  re.id_slash_hash prefix (prefix +:+ id) = None.
Proof using Hid.
  unfold re.id_slash_hash. rewrite drop_prefix_app. cbn [mbind option_bind].
  by rewrite digits_whole by (apply plain_id_set || by apply isdigit_all).
Qed.

Lemma id_after_at prefix : re.id_after prefix (prefix +:+ id) = Some id.
Proof using Hid.
  unfold re.id_after. rewrite drop_prefix_app. cbn [mbind option_bind].
  by rewrite digits_whole by (apply plain_id_set || by apply isdigit_all).
Qed.

Lemma GUI_plain_vimeo :
  GUI.parse_vimeo_url ("https://vimeo.com/" +:+ id)
  = Ok (Some (mkRef (Some id) None None None)).
Proof using Hid.
  pose proof plain_id_path as Hpath. unfold GUI.parse_vimeo_url.
  assert (re.search (re.id_slash_hash "vimeo.com/") ("https://vimeo.com/" +:+ id)
          = None) as ->.
  { cbn [String.append]. skip_literal.
    rewrite search_skip by exact (id_slash_hash_no_hash "vimeo.com/").
    skip_literal. apply search_none with path_char; [|done].
    intros t Ht. by apply id_slash_hash_path. }
  assert (re.search (re.id_slash_hash "player.vimeo.com/video/")
            ("https://vimeo.com/" +:+ id) = None) as ->.
  { cbn [String.append]. skip_literal. apply search_none with path_char;
      [|done].
    intros t Ht. by apply id_slash_hash_path. }
  assert (re.search (re.id_after "vimeo.com/") ("https://vimeo.com/" +:+ id)
          = Some id) as ->.
  { cbn [String.append]. skip_literal. apply search_here.
    exact (id_after_at "vimeo.com/"). }
  change ("https://vimeo.com/" +:+ id)
    with ("https://" +:+ "vimeo.com" +:+ "/" +:+ id).
  rewrite urlparse_plain by done. reflexivity.
Qed.

Lemma GUI_plain_vimeo_hash :
  GUI.parse_vimeo_url ("https://vimeo.com/" +:+ id +:+ "/" +:+ hash)
  = Ok (Some (mkRef (Some id) (Some hash) None None)).
Proof using Hid Hhash_set Hhash.
  unfold GUI.parse_vimeo_url.
  assert (re.search (re.id_slash_hash "vimeo.com/")
            ("https://vimeo.com/" +:+ id +:+ "/" +:+ hash)
          = Some (id, hash)) as ->; [|done].
  cbn [String.append]. skip_literal. apply search_here.
  exact (id_slash_hash_at "vimeo.com/").
Qed.

Lemma GUI_plain_player :
  GUI.parse_vimeo_url ("https://player.vimeo.com/video/" +:+ id)
  = Ok (Some (mkRef (Some id) None None None)).
Proof using Hid.
  pose proof plain_id_path as Hpath. unfold GUI.parse_vimeo_url.
  assert (re.search (re.id_slash_hash "vimeo.com/")
            ("https://player.vimeo.com/video/" +:+ id) = None) as ->.
  { cbn [String.append]. skip_literal. apply search_none with path_char;
      [|done].
    intros t Ht. by apply id_slash_hash_path. }
  assert (re.search (re.id_slash_hash "player.vimeo.com/video/")
            ("https://player.vimeo.com/video/" +:+ id) = None) as ->.
  { cbn [String.append]. skip_literal.
    rewrite search_skip
      by exact (id_slash_hash_no_hash "player.vimeo.com/video/").
    skip_literal. apply search_none with path_char; [|done].
    intros t Ht. by apply id_slash_hash_path. }
  assert (re.search (re.id_after "vimeo.com/")
            ("https://player.vimeo.com/video/" +:+ id) = None) as ->.
  { cbn [String.append]. skip_literal. apply search_none with path_char;
      [|done].
    intros t Ht. by apply id_after_path. }
  assert (re.search (re.id_after "player.vimeo.com/video/")
            ("https://player.vimeo.com/video/" +:+ id) = Some id) as ->;
    [|done].
  cbn [String.append]. skip_literal. apply search_here.
  exact (id_after_at "player.vimeo.com/video/").
Qed.

Lemma GUI_plain_player_hash :
  GUI.parse_vimeo_url ("https://player.vimeo.com/video/" +:+ id +:+ "/" +:+ hash)
  = Ok (Some (mkRef (Some id) (Some hash) None None)).
Proof using Hid Hhash_set Hhash.
  unfold GUI.parse_vimeo_url.
  assert (re.search (re.id_slash_hash "vimeo.com/")
            ("https://player.vimeo.com/video/" +:+ id +:+ "/" +:+ hash)
          = None) as ->.
  { cbn [String.append]. skip_literal.
    apply search_none with path_char; [|exact plain_id_hash_path].
    intros t Ht. by apply id_slash_hash_path. }
  assert (re.search (re.id_slash_hash "player.vimeo.com/video/")
            ("https://player.vimeo.com/video/" +:+ id +:+ "/" +:+ hash)
          = Some (id, hash)) as ->; [|done].
  cbn [String.append]. skip_literal. apply search_here.
  exact (id_slash_hash_at "player.vimeo.com/video/").
Qed.

Lemma CLI_plain_vimeo :
  CLI.parse_vimeo_url ("https://vimeo.com/" +:+ id)
  = Ok (mkRef (Some id) None None None).
Proof using Hid.
  pose proof plain_id_set as Hid_set.
  pose proof (urlparse_plain "vimeo.com" eq_refl id plain_id_path) as Hparse.
  change ("https://" +:+ "vimeo.com" +:+ "/" +:+ id)
    with ("https://vimeo.com/" +:+ id) in Hparse.
  unfold CLI.parse_vimeo_url. rewrite Hparse.
  cbn [mbind res_bind urllib.path urllib.query urllib.fragment urllib.netloc].
  rewrite path_parts_1 by by apply isdigit_alnum.
  change (String.eqb "vimeo.com" "vimeo.com") with true. cbv iota.
  cbn [lookup list_lookup]. finish_reference.
Qed.

Lemma CLI_plain_vimeo_hash :
  CLI.parse_vimeo_url ("https://vimeo.com/" +:+ id +:+ "/" +:+ hash)
  = Ok (mkRef (Some id) (Some hash) None None).
Proof using Hid Hhash_set Hhash.
  pose proof plain_id_set as Hid_set.
  pose proof (urlparse_plain "vimeo.com" eq_refl (id +:+ "/" +:+ hash)
                plain_id_hash_path) as Hparse.
  change ("https://" +:+ "vimeo.com" +:+ "/" +:+ id +:+ "/" +:+ hash)
    with ("https://vimeo.com/" +:+ id +:+ "/" +:+ hash) in Hparse.
  unfold CLI.parse_vimeo_url. rewrite Hparse.
  cbn [mbind res_bind urllib.path urllib.query urllib.fragment urllib.netloc].
  rewrite path_parts_2 by (done || by apply isdigit_alnum).
  change (String.eqb "vimeo.com" "vimeo.com") with true. cbv iota.
  cbn [lookup list_lookup]. rewrite startswith_alnum by done.
  cbn [negb]. finish_reference.
Qed.

Lemma CLI_plain_player :
  CLI.parse_vimeo_url ("https://player.vimeo.com/video/" +:+ id)
  = Ok (mkRef (Some id) None None None).
Proof using Hid.
  pose proof plain_id_set as Hid_set.
  assert (PyStr.all_chars path_char ("video" +:+ "/" +:+ id) = true) as Hpath.
  { rewrite !all_chars_app, plain_id_path. reflexivity. }
  pose proof (urlparse_plain "player.vimeo.com" eq_refl
                ("video" +:+ "/" +:+ id) Hpath) as Hparse.
  change ("https://" +:+ "player.vimeo.com" +:+ "/" +:+ "video" +:+ "/" +:+ id)
    with ("https://player.vimeo.com/video/" +:+ id) in Hparse.
  unfold CLI.parse_vimeo_url. rewrite Hparse.
  cbn [mbind res_bind urllib.path urllib.query urllib.fragment urllib.netloc].
  rewrite path_parts_2 by (done || by apply isdigit_alnum).
  change (String.eqb "player.vimeo.com" "vimeo.com") with false.
  change (PyStr.contains "player.vimeo.com" "player.vimeo.com") with true.
  cbv iota. change (String.eqb "video" "video") with true.
  cbn [lookup list_lookup]. finish_reference.
Qed.

Lemma CLI_plain_player_hash :
  CLI.parse_vimeo_url
    ("https://player.vimeo.com/video/" +:+ id +:+ "/" +:+ hash)
  = Ok (mkRef (Some id) (Some hash) None None).
Proof using Hid Hhash_set Hhash.
  pose proof plain_id_set as Hid_set.
  assert (PyStr.all_chars path_char
            ("video" +:+ "/" +:+ id +:+ "/" +:+ hash) = true) as Hpath.
  { rewrite all_chars_app, (all_chars_app _ "/"), plain_id_hash_path.
    reflexivity. }
  pose proof (urlparse_plain "player.vimeo.com" eq_refl
                ("video" +:+ "/" +:+ id +:+ "/" +:+ hash) Hpath) as Hparse.
  change ("https://" +:+ "player.vimeo.com" +:+ "/" +:+ "video" +:+ "/"
          +:+ id +:+ "/" +:+ hash)
    with ("https://player.vimeo.com/video/" +:+ id +:+ "/" +:+ hash)
    in Hparse.
  unfold CLI.parse_vimeo_url. rewrite Hparse.
  cbn [mbind res_bind urllib.path urllib.query urllib.fragment urllib.netloc].
  rewrite path_parts_3 by (done || by apply isdigit_alnum).
  change (String.eqb "player.vimeo.com" "vimeo.com") with false.
  change (PyStr.contains "player.vimeo.com" "player.vimeo.com") with true.
  cbv iota. change (String.eqb "video" "video") with true.
  cbn [lookup list_lookup]. finish_reference.
Qed.
End Plain.

(** X8. On the plain forms of a link the two resolvers agree.  For a
    video id made of the digits [0] to [9] and an unlock hash made of
    ASCII letters and digits, the page link, the page link with the
    hash, the player link and the player link with the hash are resolved
    by both to the video id, with the hash when there is one, and no
    token. *)
Theorem resolvers_agree_on_plain_links id hash :
  PyStr.isdigit id = true →
  PyStr.truthy hash = true → PyStr.all_chars PyStr.is_alnum hash = true →
  let bare := mkRef (Some id) None None None in
  let unlocked := mkRef (Some id) (Some hash) None None in
  let page := "https://vimeo.com/" +:+ id in
  let player := "https://player.vimeo.com/video/" +:+ id in
  CLI.parse_vimeo_url page = Ok bare
  ∧ GUI.parse_vimeo_url page = Ok (Some bare)
  ∧ CLI.parse_vimeo_url (page +:+ "/" +:+ hash) = Ok unlocked
  ∧ GUI.parse_vimeo_url (page +:+ "/" +:+ hash) = Ok (Some unlocked)
  ∧ CLI.parse_vimeo_url player = Ok bare
  ∧ GUI.parse_vimeo_url player = Ok (Some bare)
  ∧ CLI.parse_vimeo_url (player +:+ "/" +:+ hash) = Ok unlocked
  ∧ GUI.parse_vimeo_url (player +:+ "/" +:+ hash) = Ok (Some unlocked).
Proof.
  intros Hid Hset Hhash bare unlocked page player. unfold page, player.
  rewrite !string_app_assoc.
  split; [by apply CLI_plain_vimeo|]. split; [by apply GUI_plain_vimeo|].
  split; [by apply CLI_plain_vimeo_hash|].
  split; [by apply GUI_plain_vimeo_hash|].
  split; [by apply CLI_plain_player|]. split; [by apply GUI_plain_player|].
  split; [by apply CLI_plain_player_hash|]. by apply GUI_plain_player_hash.
Qed.

Lemma resolvers_agree_on_plain_links_witness :
  PyStr.isdigit "325572565" = true
  ∧ PyStr.all_chars PyStr.is_alnum "9d31d005e2" = true
  ∧ CLI.parse_vimeo_url "https://vimeo.com/325572565/9d31d005e2"
    = Ok (mkRef (Some "325572565") (Some "9d31d005e2") None None)
  ∧ GUI.parse_vimeo_url "https://vimeo.com/325572565/9d31d005e2"
    = Ok (Some (mkRef (Some "325572565") (Some "9d31d005e2") None None)).
Proof.
  split; [reflexivity|]. split; [reflexivity|].
  destruct (resolvers_agree_on_plain_links "325572565" "9d31d005e2"
              eq_refl eq_refl eq_refl) as (_ & _ & Hcli & Hgui & _).
  split; [exact Hcli|exact Hgui].
Defined.

(** X9. A first path segment that is no number.  For a link on
    [vimeo.com] whose path is a name that starts with an ASCII letter, a
    slash and a second segment, both made of ASCII letters and digits,
    the command-line resolver returns the name as the video id and the
    second segment as the unlock hash, where the GUI resolver returns
    nothing. *)
Theorem first_segment_taken_as_video_id c name second :
  PyStr.is_alpha c = true →
  PyStr.all_chars PyStr.is_alnum name = true →
  PyStr.truthy second = true →
  PyStr.all_chars PyStr.is_alnum second = true →
  let url := "https://vimeo.com/" +:+ String c name +:+ "/" +:+ second in
  CLI.parse_vimeo_url url
  = Ok (mkRef (Some (String c name)) (Some second) None None)
  ∧ GUI.parse_vimeo_url url = Ok None.
Proof.
  intros Hc Hname Hset Hsecond url.
  assert (PyStr.is_alnum c = true) as Hc'.
  { unfold PyStr.is_alnum. by rewrite Hc. }
  assert (PyStr.is_digit c = false) as Hnot.
  { revert Hc. clear. by_cases_on_char c. }
  assert (PyStr.all_chars PyStr.is_alnum (String c name) = true) as Hfirst.
  { cbn [PyStr.all_chars]. by rewrite Hc', Hname. }
  assert (PyStr.all_chars path_char (String c name +:+ "/" +:+ second) = true)
    as Hpath.
  { rewrite !all_chars_app, (alnum_path (String c name)),
      (alnum_path second) by done.
    reflexivity. }
  split.
  - pose proof (urlparse_plain "vimeo.com" eq_refl
                  (String c name +:+ "/" +:+ second) Hpath) as Hparse.
    change ("https://" +:+ "vimeo.com" +:+ "/" +:+ String c name +:+ "/"
            +:+ second) with url in Hparse.
    unfold CLI.parse_vimeo_url. rewrite Hparse.
    cbn [mbind res_bind urllib.path urllib.query urllib.fragment
         urllib.netloc].
    rewrite path_parts_2 by done.
    change (String.eqb "vimeo.com" "vimeo.com") with true. cbv iota.
    cbn [lookup list_lookup]. rewrite startswith_alnum by done.
    cbn [negb]. reflexivity.
  - unfold GUI.parse_vimeo_url, url.
    assert (re.search (re.id_slash_hash "vimeo.com/")
              ("https://vimeo.com/" +:+ String c name +:+ "/" +:+ second)
            = None) as ->.
    { cbn [String.append]. skip_literal. rewrite search_skip.
      2:{ unfold re.id_slash_hash.
          cbn [PyStr.drop_prefix PyStr.eqc Ascii.eqb Bool.eqb mbind
               option_bind].
          by rewrite digits_none by (done || by apply alnum_ascii). }
      skip_literal. apply search_none with path_char; [|done].
      intros t Ht. by apply id_slash_hash_path. }
    assert (re.search (re.id_slash_hash "player.vimeo.com/video/")
              ("https://vimeo.com/" +:+ String c name +:+ "/" +:+ second)
            = None) as ->.
    { cbn [String.append]. skip_literal. apply search_none with path_char;
        [|done].
      intros t Ht. by apply id_slash_hash_path. }
    assert (re.search (re.id_after "vimeo.com/")
              ("https://vimeo.com/" +:+ String c name +:+ "/" +:+ second)
            = None) as ->.
    { cbn [String.append]. skip_literal. rewrite search_skip.
      2:{ unfold re.id_after.
          cbn [PyStr.drop_prefix PyStr.eqc Ascii.eqb Bool.eqb mbind
               option_bind].
          by rewrite digits_none by (done || by apply alnum_ascii). }
      skip_literal. apply search_none with path_char; [|done].
      intros t Ht. by apply id_after_path. }
    assert (re.search (re.id_after "player.vimeo.com/video/")
              ("https://vimeo.com/" +:+ String c name +:+ "/" +:+ second)
            = None) as ->.
    { cbn [String.append]. skip_literal. apply search_none with path_char;
        [|done].
      intros t Ht. by apply id_after_path. }
    change ("https://vimeo.com/" +:+ String c name +:+ "/" +:+ second)
      with (String "h" ("ttps://vimeo.com/" +:+ String c name +:+ "/"
                        +:+ second)).
    destruct (strip_space_keeps_head "h"
                ("ttps://vimeo.com/" +:+ String c name +:+ "/" +:+ second))
      as [r ->]; [done..|].
    by rewrite str_isdigit_head.
Qed.

Lemma first_segment_taken_as_video_id_witness :
  PyStr.is_alpha "c" = true
  ∧ CLI.parse_vimeo_url "https://vimeo.com/channels/staffpicks"
    = Ok (mkRef (Some "channels") (Some "staffpicks") None None)
  ∧ GUI.parse_vimeo_url "https://vimeo.com/channels/staffpicks" = Ok None.
Proof.
  split; [reflexivity|].
  apply (first_segment_taken_as_video_id "c" "hannels" "staffpicks");
    reflexivity.
Defined.

(** * More on the selection *)

(** X10. For [best] the two downloaders select the same rendition: the
    head of the stable sort by decreasing height of the command-line
    downloader is what [max] returns in the GUI downloader. *)
Theorem best_stream_agrees streams :
  CLI.select_stream "best" streams = GUI.best_stream streams.
Proof.
  destruct streams as [|first rest]; [done|].
  destruct (head_sort_by (λ x, - height_of x) Z.geb height_of (first :: rest))
    as (r & Hr & Hmin); [intros a b; rewrite Z.geb_le; lia|done|].
  destruct (best_stream_first_max (first :: rest)) as (r' & Hr' & Hmax);
    [done|].
  unfold CLI.select_stream. cbn [String.eqb Ascii.eqb Bool.eqb].
  rewrite Hr, Hr'. f_equal.
  by apply (first_min_unique (λ x, - height_of x) (first :: rest)).
Qed.



(** * More on the extraction *)

Lemma keep_first_app a b seen :
  keep_first (a ++ b) seen
  = keep_first a seen ++ keep_first b (seen_after a seen).
Proof.
  revert seen. induction a as [|s a IH]; intros seen; simpl; [done|].
  destruct (stream_url s) as [k|]; [|apply IH].
  destruct (decide (k ∈ seen)); [apply IH|]. simpl. by rewrite IH.
Qed.

Lemma seen_after_mono l seen k : k ∈ seen → k ∈ seen_after l seen.
Proof.
  revert seen. induction l as [|s l IH]; intros seen Hk; simpl; [done|].
  apply IH. destruct (stream_url s) as [k'|]; [|done].
  destruct (decide (k' ∈ seen)); [done|].
  apply elem_of_union. by right.
Qed.

Lemma seen_after_urls l seen s k :
  s ∈ l → stream_url s = Some k → k ∈ seen_after l seen.
Proof.
  revert seen. induction l as [|x l IH]; intros seen; [by intros ?%elem_of_nil|].
  intros [->|Hs]%elem_of_cons Hk; simpl; [|by apply IH].
  rewrite Hk. apply seen_after_mono.
  destruct (decide (k ∈ seen)); [done|].
  apply elem_of_union. left. by apply elem_of_singleton.
Qed.

Lemma keep_first_seen l seen :
  (∀ s k, s ∈ l → stream_url s = Some k → k ∈ seen) →
  keep_first l seen = [].
Proof.
  induction l as [|s l IH]; simpl; [done|]. intros H.
  assert (keep_first l seen = []) as Hl.
  { apply IH. intros x k Hx. apply H. by apply list_elem_of_further. }
  destruct (stream_url s) as [k|] eqn:Hk; [|done].
  rewrite decide_True; [done|]. apply (H s k); [apply list_elem_of_here|done].
Qed.

Lemma keep_first_id l seen :
  Forall (λ s, ∃ k, stream_url s = Some k ∧ k ∉ seen) l →
  NoDup (stream_url <$> l) →
  keep_first l seen = l.
Proof.
  revert seen. induction l as [|s l IH]; intros seen; simpl; [done|].
  intros [(k & Hk & Hfresh) Hl]%Forall_cons [Hs Hnd]%NoDup_cons.
  rewrite Hk, decide_False by done. f_equal. apply IH; [|done].
  apply Forall_forall. intros x Hx.
  destruct (proj1 (Forall_forall _ _) Hl x Hx) as (kx & Hkx & Hfx).
  exists kx. split; [done|].
  intros [Heq%elem_of_singleton|?]%elem_of_union; [|done].
  apply Hs. assert (stream_url s = stream_url x) as -> by congruence.
  by apply list_elem_of_fmap_2.
Qed.

(** The loop raises on the first candidate of a certain kind, and on
    nothing else. *)
Lemma unique_loop_total streams seen acc :
  existsb raises_on streams = false →
  Common.unique_loop streams seen acc = Ok (acc ++ keep_first streams seen).
Proof.
  revert seen acc. induction streams as [|s rest IH]; intros seen acc; simpl.
  - intros _. by rewrite app_nil_r.
  - intros [Hs Hrest]%orb_false_elim. revert Hs. unfold raises_on.
    destruct s as [| | | |l|d]; simpl; try discriminate.
    + destruct (PyStr.contains "url" s); simpl; [discriminate|].
      intros _. by apply IH.
    + destruct (existsb _ l); simpl; [discriminate|]. intros _. by apply IH.
    + destruct (dict_get "url" d) as [u|] eqn:Hu; simpl; [|intros _; by apply IH].
      destruct (Py.hash u) as [k|] eqn:Hk; simpl; [|discriminate].
      intros _. destruct (decide (k ∈ seen)) as [Hin|Hin].
      * rewrite bool_decide_eq_false_2 by auto. by apply IH.
      * rewrite bool_decide_eq_true_2 by auto. simpl.
        rewrite IH by done. by rewrite <- app_assoc.
Qed.

Lemma unique_loop_no_raise streams seen acc out :
  Common.unique_loop streams seen acc = Ok out →
  existsb raises_on streams = false.
Proof.
  revert seen acc. induction streams as [|s rest IH]; intros seen acc; simpl;
    [done|].
  unfold raises_on.
  destruct s as [| | | |l|d]; simpl; try discriminate.
  - destruct (PyStr.contains "url" s); simpl; [discriminate|]. apply IH.
  - destruct (existsb _ l); simpl; [discriminate|]. apply IH.
  - destruct (dict_get "url" d) as [u|] eqn:Hu; simpl; [|apply IH].
    destruct (Py.hash u) as [k|] eqn:Hk; simpl; [|discriminate].
    destruct (bool_decide (k ∉ seen)); apply IH.
Qed.

Lemma keep_first_no_raise streams seen :
  existsb raises_on streams = false →
  existsb raises_on (keep_first streams seen) = false.
Proof.
  revert seen. induction streams as [|s rest IH]; intros seen; simpl; [done|].
  intros [Hs Hrest]%orb_false_elim.
  destruct (stream_url s) as [k|]; [|by apply IH].
  destruct (decide (k ∈ seen)); [by apply IH|].
  simpl. rewrite Hs. by apply IH.
Qed.

Lemma extend_app streams v out :
  Common.extend streams v = Ok out → ∃ new, out = streams ++ new.
Proof.
  unfold Common.extend. destruct (Py.iter v) as [new|]; simpl; [|discriminate].
  intros [= <-]. by exists new.
Qed.

Lemma probe_progressive_download_app config_data streams out :
  Common.probe_progressive_download config_data streams = Ok out →
  ∃ new, out = streams ++ new.
Proof.
  unfold Common.probe_progressive_download.
  destruct (py_and _ _) as [[]|]; simpl; [| |discriminate].
  - destruct (Py.getitem config_data "video") as [video|]; simpl;
      [|discriminate].
    destruct (Py.getitem video "progressive_download") as [p|]; simpl;
      [|discriminate].
    destruct (Py.truth p); [apply extend_app|].
    intros [= <-]. exists []. by rewrite app_nil_r.
  - intros [= <-]. exists []. by rewrite app_nil_r.
Qed.

Lemma mime_loop_app items streams out :
  Common.mime_loop items streams = Ok out → ∃ new, out = streams ++ new.
Proof.
  revert streams. induction items as [|[mime_type mime_streams] items IH];
    intros streams; simpl.
  - intros [= <-]. exists []. by rewrite app_nil_r.
  - destruct (_ && _).
    + destruct (Common.extend streams mime_streams) as [s1|] eqn:He; simpl;
        [|discriminate].
      destruct (extend_app _ _ _ He) as [new1 ->].
      intros [new2 ->]%IH. exists (new1 ++ new2). by rewrite app_assoc.
    + simpl. apply IH.
Qed.

Lemma probe_mime_app config_data streams out :
  Common.probe_mime config_data streams = Ok out →
  ∃ new, out = streams ++ new.
Proof.
  unfold Common.probe_mime.
  destruct (Common.has_files config_data) as [[]|]; simpl; [| |discriminate].
  - destruct (Common.files_of config_data) as [file_info|]; simpl;
      [|discriminate].
    destruct (Py.contains "mime" file_info) as [[]|]; simpl;
      [| |discriminate].
    + destruct (Py.getitem file_info "mime") as [mime|]; simpl;
        [|discriminate].
      destruct (Py.items mime) as [items|]; simpl; [|discriminate].
      apply mime_loop_app.
    + intros [= <-]. exists []. by rewrite app_nil_r.
  - intros [= <-]. exists []. by rewrite app_nil_r.
Qed.

Lemma nested_loop_app items streams out :
  Common.nested_loop items streams = Ok out → ∃ new, out = streams ++ new.
Proof.
  revert streams. induction items as [|[key value] items IH];
    intros streams; simpl.
  - intros [= <-]. exists []. by rewrite app_nil_r.
  - destruct (Common.looks_like_streams value) as [[]|]; simpl;
      [| |discriminate].
    + destruct (Common.extend streams value) as [s1|] eqn:He; simpl;
        [|discriminate].
      destruct (extend_app _ _ _ He) as [new1 ->].
      intros [new2 ->]%IH. exists (new1 ++ new2). by rewrite app_assoc.
    + apply IH.
Qed.

Lemma probe_nested_app config_data streams out :
  Common.probe_nested config_data streams = Ok out →
  ∃ new, out = streams ++ new.
Proof.
  unfold Common.probe_nested.
  destruct (Common.has_files config_data) as [[]|]; simpl; [| |discriminate].
  - destruct (Common.files_of config_data) as [files|]; simpl;
      [|discriminate].
    destruct (Py.items files) as [items|]; simpl; [|discriminate].
    apply nested_loop_app.
  - intros [= <-]. exists []. by rewrite app_nil_r.
Qed.

(** X12. The streams listed under [request.files.progressive] come
    first.  When the extraction returns, its result starts with the
    streams of that list, in their order and each url once; when every
    stream of the list has a url and the urls are pairwise distinct, the
    result starts with the list itself, whatever the other probed places
    hold. *)
Theorem progressive_streams_first top request files progressive out :
  dict_get "request" top = Some (JDict request) →
  dict_get "files" request = Some (JDict files) →
  dict_get "progressive" files = Some (JList progressive) →
  (GUI.extract_streams (JDict top) = Ok out
   ∨ ∃ msgs, CLI.extract_streams (JDict top) = Ok (msgs, out)) →
  keep_first progressive ∅ `prefix_of` out
  ∧ (Forall (λ s, is_Some (stream_url s)) progressive →
     NoDup (stream_url <$> progressive) →
     progressive `prefix_of` out).
Proof.
  intros Hrequest Hfiles Hprogressive H.
  assert (GUI.extract_streams (JDict top) = Ok out) as Hgui.
  { destruct H as [H|[msgs H]]; [done|].
    by apply CLI_extract_streams_GUI with msgs. }
  clear H. unfold GUI.extract_streams, Common.collect_streams in Hgui.
  rewrite (shaped_probe_progressive top request files Hrequest Hfiles),
    Hprogressive in Hgui.
  cbn [Common.extend Py.iter mbind res_bind app] in Hgui.
  destruct (Common.probe_progressive_download _ _) as [s2|] eqn:H2;
    simpl in Hgui; [|discriminate].
  destruct (Common.probe_mime _ _) as [s3|] eqn:H3; simpl in Hgui;
    [|discriminate].
  destruct (Common.probe_nested _ _) as [s4|] eqn:H4; simpl in Hgui;
    [|discriminate].
  apply probe_progressive_download_app in H2 as [n2 ->].
  apply probe_mime_app in H3 as [n3 ->].
  apply probe_nested_app in H4 as [n4 ->].
  apply unique_loop_spec in Hgui. simpl in Hgui. subst out.
  rewrite <- !app_assoc, keep_first_app.
  split; [by eexists|]. intros Hurls Hnd.
  rewrite (keep_first_id progressive ∅); [by eexists| |done].
  eapply Forall_impl; [exact Hurls|]. intros s [k Hk]. exists k.
  split; [done|]. apply not_elem_of_empty.
Qed.

Lemma progressive_streams_first_witness :
  let low := JDict [("url", JStr "https://cdn.example/360.mp4");
                    ("height", JNum 360)] in
  let high := JDict [("url", JStr "https://cdn.example/720.mp4");
                     ("height", JNum 720)] in
  let other := JDict [("url", JStr "https://cdn.example/1080.mp4");
                      ("height", JNum 1080)] in
  let files := [("progressive", JList [low; high])] in
  let request := [("files", JDict files)] in
  let top := [("request", JDict request);
              ("video", JDict [("progressive_download",
                                JList [other; low])])] in
  GUI.extract_streams (JDict top) = Ok [low; high; other]
  ∧ keep_first [low; high] ∅ `prefix_of` [low; high; other]
  ∧ (Forall (λ s, is_Some (stream_url s)) [low; high] →
     NoDup (stream_url <$> [low; high]) →
     [low; high] `prefix_of` [low; high; other]).
Proof.
  intros low high other files request top.
  assert (GUI.extract_streams (JDict top) = Ok [low; high; other]) as H
    by by vm_compute.
  split; [exact H|].
  exact (progressive_streams_first top request files [low; high]
           [low; high; other] eq_refl eq_refl eq_refl (or_introl H)).
Defined.

(** X13. The de-duplication is idempotent.  When the loop returns for a
    list of candidates, it returns its own result unchanged, and it
    returns the same result for the candidates listed twice and for the
    candidates followed by the result. *)
Theorem unique_idempotent streams out :
  Common.unique streams = Ok out →
  Common.unique out = Ok out
  ∧ Common.unique (streams ++ streams) = Ok out
  ∧ Common.unique (streams ++ out) = Ok out.
Proof.
  unfold Common.unique. intros H.
  pose proof (unique_loop_no_raise _ _ _ _ H) as Hraise.
  apply unique_loop_spec in H. simpl in H. subst out.
  assert (existsb raises_on (keep_first streams ∅) = false) as Hkept
    by by apply keep_first_no_raise.
  split; [|split].
  - rewrite unique_loop_total by done. simpl. f_equal.
    apply keep_first_id; [|apply keep_first_NoDup].
    apply Forall_forall. intros s Hs.
    destruct (keep_first_fresh _ _ _ Hs) as (k & Hk & _).
    exists k. split; [done|]. apply not_elem_of_empty.
  - rewrite unique_loop_total by (by rewrite existsb_app, Hraise).
    simpl. rewrite keep_first_app.
    rewrite (keep_first_seen streams (seen_after streams ∅));
      [by rewrite app_nil_r|].
    intros s k. apply seen_after_urls.
  - rewrite unique_loop_total by (by rewrite existsb_app, Hraise, Hkept).
    simpl. rewrite keep_first_app.
    rewrite (keep_first_seen (keep_first streams ∅) (seen_after streams ∅));
      [by rewrite app_nil_r|].
    intros s k Hs. apply seen_after_urls.
    eapply elem_of_sublist; [done|apply keep_first_sublist].
Qed.

Lemma unique_idempotent_witness :
  let a := JDict [("url", JStr "https://cdn.example/a.mp4")] in
  let a' := JDict [("url", JStr "https://cdn.example/a.mp4");
                   ("height", JNum 360)] in
  let b := JDict [("url", JStr "https://cdn.example/b.mp4")] in
  let streams := [a; JDict [("height", JNum 1)]; b; a'] in
  Common.unique streams = Ok [a; b]
  ∧ Common.unique [a; b] = Ok [a; b]
  ∧ Common.unique (streams ++ streams) = Ok [a; b]
  ∧ Common.unique (streams ++ [a; b]) = Ok [a; b].
Proof.
  intros a a' b streams.
  assert (Common.unique streams = Ok [a; b]) as H by by vm_compute.
  split; [exact H|]. exact (unique_idempotent streams [a; b] H).
Defined.

(** * What a fetch writes *)

Lemma string_app_nil_r (s : string) : s +:+ "" = s.
Proof.
  induction s as [|c s IH]; cbn [String.append]; [done|]. by rewrite IH.
Qed.

Lemma write_write save_path a b fs :
  write save_path b (<[save_path := a]> fs) = <[save_path := a +:+ b]> fs.
Proof.
  unfold write. rewrite lookup_insert_eq. simpl. by rewrite insert_insert_eq.
Qed.

Lemma CLI_write_chunks_done content save_path written fs fs' :
  CLI.write_chunks content save_path (<[save_path := written]> fs)
  = (true, fs') →
  fs' = <[save_path := written +:+ payload content]> fs.
Proof.
  revert written. induction content as [|[bytes|bytes|] rest IH];
    intros written; cbn [CLI.write_chunks payload foldr chunk_bytes].
  - intros [= <-]. by rewrite string_app_nil_r.
  - destruct bytes as [|c bytes]; cbn [PyStr.truthy PyStr.is_empty negb].
    + apply IH.
    + rewrite write_write. intros ->%IH. by rewrite string_app_assoc.
  - destruct bytes as [|c bytes]; cbn [PyStr.truthy PyStr.is_empty negb];
      [apply IH|discriminate].
  - discriminate.
Qed.

Lemma CLI_write_chunks_failed content save_path written fs fs' :
  CLI.write_chunks content save_path (<[save_path := written]> fs)
  = (false, fs') →
  delete save_path fs' = delete save_path fs.
Proof.
  revert written. induction content as [|[bytes|bytes|] rest IH];
    intros written; cbn [CLI.write_chunks].
  - discriminate.
  - destruct (PyStr.truthy bytes); [rewrite write_write|]; apply IH.
  - destruct (PyStr.truthy bytes); [|apply IH].
    intros [= <-]. apply delete_insert_eq.
  - intros [= <-]. apply delete_insert_eq.
Qed.

(** The file system after a fetch of the command-line downloader. *)
Lemma CLI_download_file_files net url save_path w ok w' :
  CLI.download_file net url save_path w = (ok, w') →
  requests w' = requests w ++ [(Media, url)]
  ∧ if ok
    then ∃ response,
           net (requests w) url = Some response
           ∧ raises_for_status response = false
           ∧ files w' = <[save_path := payload (content response)]> (files w)
    else files w' = delete save_path (files w).
Proof.
  unfold CLI.download_file, session_get. simpl.
  destruct (net (requests w) url) as [response|]; [|by intros [= <- <-]].
  destruct (raises_for_status response) eqn:Hstatus; [by intros [= <- <-]|].
  unfold open_wb, remove_if_exists.
  destruct (CLI.write_chunks _ _ _) as [[] fs'] eqn:Hw; intros [= <- <-].
  - split; [done|]. exists response. simpl.
    apply CLI_write_chunks_done in Hw. by rewrite Hw.
  - split; [done|]. simpl. by apply CLI_write_chunks_failed in Hw.
Qed.

(** X14. A fetch of the command-line downloader sends one request, for
    the address it is given, and touches no file but the destination.
    When it returns [True] the server answered without an error status and
    the destination holds the blocks of the body, joined in the order
    received, whatever was there before; when it returns [False] there is
    no file at the destination, not even one that was there before. *)
Theorem CLI_download_file_effect net url save_path w ok w' :
  CLI.download_file net url save_path w = (ok, w') →
  requests w' = requests w ++ [(Media, url)]
  ∧ (∀ path, path ≠ save_path → files w' !! path = files w !! path)
  ∧ if ok
    then ∃ response,
           net (requests w) url = Some response
           ∧ raises_for_status response = false
           ∧ files w' !! save_path = Some (payload (content response))
    else files w' !! save_path = None.
Proof.
  intros [Hrequests Hfiles]%CLI_download_file_files.
  split; [done|]. destruct ok.
  - destruct Hfiles as (response & Hnet & Hstatus & ->). split.
    + intros path Hpath. by rewrite lookup_insert_ne.
    + exists response. by rewrite lookup_insert_eq.
  - rewrite Hfiles. split.
    + intros path Hpath. by rewrite lookup_delete_ne.
    + apply lookup_delete_eq.
Qed.

Lemma CLI_download_file_effect_witness :
  let net : network :=
    λ _ _, Some (mkResponse 200 None [Data "ab"; Data ""; Data "cd"]) in
  let w := mkWorld [] {["video.mp4" := "old"; "other" := "kept"]} in
  ∃ w',
    CLI.download_file net "https://cdn.example/v" "video.mp4" w = (true, w')
    ∧ requests w' = requests w ++ [(Media, "https://cdn.example/v")]
    ∧ (∀ path, path ≠ "video.mp4" → files w' !! path = files w !! path)
    ∧ ∃ response,
        net (requests w) "https://cdn.example/v" = Some response
        ∧ raises_for_status response = false
        ∧ files w' !! "video.mp4" = Some (payload (content response)).
Proof.
  intros net w.
  destruct (CLI.download_file net "https://cdn.example/v" "video.mp4" w)
    as [ok w'] eqn:H.
  assert (ok = true) as -> by (by vm_compute in H; injection H as <- _).
  exists w'. split; [done|].
  exact (CLI_download_file_effect net "https://cdn.example/v" "video.mp4" w
           true w' H).
Defined.

Lemma GUI_write_loop_effect content cancelled i save_path written fs o fs' :
  GUI.write_loop content cancelled i save_path (<[save_path := written]> fs)
  = (o, fs') →
  match o with
  | GUI.Completed =>
      fs' = <[save_path := written +:+ payload content]> fs
      ∧ ∀ j, (j < length content)%nat → cancelled (i + j)%nat = false
  | GUI.Cancelled => fs' = delete save_path fs
  | GUI.Failed =>
      ∃ received rest,
        content = received ++ rest ∧ rest ≠ []
        ∧ fs' = <[save_path := written +:+ payload received]> fs
  | GUI.Dismissed => False
  end.
Proof.
  revert i written. induction content as [|[data|data|] rest IH];
    intros i written; cbn [GUI.write_loop].
  - intros [= <- <-]. cbn [payload foldr]. rewrite string_app_nil_r.
    split; [done|]. intros j Hj. simpl in Hj. lia.
  - destruct (cancelled i) eqn:Hi.
    { intros [= <- <-]. apply delete_insert_eq. }
    rewrite write_write. intros H. specialize (IH _ _ H).
    destruct o; [| |..].
    + destruct IH as [-> Hrest]. cbn [payload foldr chunk_bytes].
      rewrite string_app_assoc. split; [done|].
      intros [|j] Hj; [by rewrite Nat.add_0_r|].
      replace (i + S j)%nat with (S i + j)%nat by lia.
      apply Hrest. simpl in Hj. lia.
    + done.
    + destruct IH as (received & rest' & -> & Hne & ->).
      exists (Data data :: received), rest'. split; [done|]. split; [done|].
      cbn [payload foldr chunk_bytes]. by rewrite string_app_assoc.
    + done.
  - destruct (cancelled i).
    { intros [= <- <-]. apply delete_insert_eq. }
    intros [= <- <-]. exists [], (WriteError data :: rest).
    split; [done|]. split; [done|]. cbn [payload foldr].
    by rewrite string_app_nil_r.
  - intros [= <- <-]. exists [], (ReadError :: rest).
    split; [done|]. split; [done|]. cbn [payload foldr].
    by rewrite string_app_nil_r.
Qed.

(** The file system after a fetch of the GUI downloader. *)
Lemma GUI_download_file_files net cancelled url save_path w o w' :
  GUI.download_file net cancelled url save_path w = (o, w') →
  requests w' = requests w ++ [(Media, url)]
  ∧ match o with
    | GUI.Completed =>
        ∃ response,
          net (requests w) url = Some response
          ∧ raises_for_status response = false
          ∧ files w' = <[save_path := payload (content response)]> (files w)
          ∧ ∀ j, (j < length (content response))%nat → cancelled j = false
    | GUI.Cancelled => files w' = delete save_path (files w)
    | GUI.Failed =>
        files w' = files w
        ∨ ∃ response received rest,
            net (requests w) url = Some response
            ∧ content response = received ++ rest ∧ rest ≠ []
            ∧ files w' = <[save_path := payload received]> (files w)
    | GUI.Dismissed => False
    end.
Proof.
  unfold GUI.download_file, session_get. simpl.
  destruct (net (requests w) url) as [response|];
    [|intros [= <- <-]; split; [done|by left]].
  destruct (raises_for_status response) eqn:Hstatus;
    [intros [= <- <-]; split; [done|by left]|].
  unfold open_wb.
  destruct (GUI.write_loop _ _ _ _ _) as [o' fs'] eqn:Hw.
  intros [= <- <-]. split; [done|]. simpl.
  apply GUI_write_loop_effect in Hw. destruct o'.
  - destruct Hw as [-> Hc]. exists response. done.
  - done.
  - destruct Hw as (received & rest & Hcontent & Hne & ->).
    right. exists response, received, rest. done.
  - done.
Qed.

(** X15. A fetch of the GUI downloader sends one request, for the
    address it is given, and touches no file but the destination.  When
    it completes, the destination holds the blocks of the body joined in
    the order received, and the cancel flag was clear each time the loop
    looked at it; when it is cancelled there is no file at the
    destination; when it fails, the destination is as it was before (the
    request itself failed) or it holds the blocks received before the
    failure. *)
Theorem GUI_download_file_effect net cancelled url save_path w o w' :
  GUI.download_file net cancelled url save_path w = (o, w') →
  requests w' = requests w ++ [(Media, url)]
  ∧ (∀ path, path ≠ save_path → files w' !! path = files w !! path)
  ∧ match o with
    | GUI.Completed =>
        ∃ response,
          net (requests w) url = Some response
          ∧ raises_for_status response = false
          ∧ files w' !! save_path = Some (payload (content response))
          ∧ ∀ j, (j < length (content response))%nat → cancelled j = false
    | GUI.Cancelled => files w' !! save_path = None
    | GUI.Failed =>
        files w' !! save_path = files w !! save_path
        ∨ ∃ response received rest,
            net (requests w) url = Some response
            ∧ content response = received ++ rest ∧ rest ≠ []
            ∧ files w' !! save_path = Some (payload received)
    | GUI.Dismissed => False
    end.
Proof.
  intros [Hrequests Hfiles]%GUI_download_file_files.
  split; [done|]. destruct o.
  - destruct Hfiles as (response & Hnet & Hstatus & -> & Hc). split.
    + intros path Hpath. by rewrite lookup_insert_ne.
    + exists response. by rewrite lookup_insert_eq.
  - rewrite Hfiles. split.
    + intros path Hpath. by rewrite lookup_delete_ne.
    + apply lookup_delete_eq.
  - destruct Hfiles as [->|(response & received & rest & Hnet & Hc & Hne & ->)].
    + split; [done|by left].
    + split.
      * intros path Hpath. by rewrite lookup_insert_ne.
      * right. exists response, received, rest.
        by rewrite lookup_insert_eq.
  - done.
Qed.

Lemma GUI_download_file_effect_witness :
  let net : network :=
    λ _ _, Some (mkResponse 200 None [Data "ab"; Data "cd"; ReadError]) in
  let w := mkWorld [] {["video.mp4" := "old"]} in
  ∃ w',
    GUI.download_file net (λ _, false) "https://cdn.example/v" "video.mp4" w
    = (GUI.Failed, w')
    ∧ files w' !! "video.mp4" = Some "abcd"
    ∧ requests w' = requests w ++ [(Media, "https://cdn.example/v")]
    ∧ (∀ path, path ≠ "video.mp4" → files w' !! path = files w !! path)
    ∧ (files w' !! "video.mp4" = files w !! "video.mp4"
       ∨ ∃ response received rest,
           net (requests w) "https://cdn.example/v" = Some response
           ∧ content response = received ++ rest ∧ rest ≠ []
           ∧ files w' !! "video.mp4" = Some (payload received)).
Proof.
  intros net w.
  destruct (GUI.download_file net (λ _, false) "https://cdn.example/v"
              "video.mp4" w) as [o w'] eqn:H.
  assert (o = GUI.Failed ∧ files w' !! "video.mp4" = Some "abcd")
    as [-> Hfile] by (by vm_compute in H; injection H as <- <-).
  exists w'. split; [done|]. split; [done|].
  exact (GUI_download_file_effect net (λ _, false) "https://cdn.example/v"
           "video.mp4" w GUI.Failed w' H).
Defined.

(** * A whole run *)

Lemma main_url_spec r :
  main_url r
  = if is_set (unlock_hash r)
    then "https://vimeo.com/" +:+ default "" (video_id r) +:+ "/"
         +:+ default "" (unlock_hash r)
    else "https://vimeo.com/" +:+ default "" (video_id r).
Proof.
  unfold main_url. destruct (is_set (unlock_hash r)); [done|].
  by rewrite string_app_nil_r.
Qed.

Lemma video_page_url_spec r :
  video_page_url r
  = if is_set (unlock_hash r)
    then "https://vimeo.com/" +:+ default "" (video_id r) +:+ "/"
         +:+ default "" (unlock_hash r)
    else if is_set (share_token r)
    then "https://vimeo.com/" +:+ default "" (video_id r) +:+ "?share="
         +:+ default "" (share_token r)
    else "https://vimeo.com/" +:+ default "" (video_id r).
Proof.
  unfold video_page_url. destruct (is_set (unlock_hash r)); [done|].
  destruct (is_set (share_token r)); [done|]. by rewrite string_app_nil_r.
Qed.

Lemma embed_url_spec r :
  embed_url r
  = if is_set (unlock_hash r)
    then "https://player.vimeo.com/video/" +:+ default "" (video_id r)
         +:+ "/" +:+ default "" (unlock_hash r)
    else "https://player.vimeo.com/video/" +:+ default "" (video_id r).
Proof.
  unfold embed_url. destruct (is_set (unlock_hash r)); [done|].
  by rewrite string_app_nil_r.
Qed.

Local Arguments String.append : simpl never.



(** X17. Whatever link it is given, a run of the GUI downloader sends
    its requests ahead of the fetch over https to the two hosts of the
    site: the page of the video is asked from [vimeo.com], the
    configuration and the embed page from [player.vimeo.com], as
    [urlparse] reads the addresses. *)
Theorem GUI_requests_hosts net cancelled plan url fs o w' :
  GUI.download_video net cancelled plan url (mkWorld [] fs) = (o, w') →
  ∀ s u, (s, u) ∈ requests w' → s ≠ Media →
    ∃ p, urllib.urlparse u = Ok p
         ∧ urllib.scheme p = "https" ∧ urllib.netloc p = host_of s.
Proof.
  unfold GUI.download_video.
  destruct (GUI.parse_vimeo_url url) as [[r|]|]; simpl.
  2,3: intros [= _ <-] s u Hin; by apply elem_of_nil in Hin.
  unfold session_get. simpl.
  set (page := if is_set (unlock_hash r) then _ else _).
  set (config := GUI.build_config_url _ _ _ _).
  set (embed := if is_set (unlock_hash r)
                then "https://player.vimeo.com/video/" +:+ _ else _).
  assert (∃ p, urllib.urlparse page = Ok p
               ∧ urllib.scheme p = "https" ∧ urllib.netloc p = "vimeo.com")
    as Hpage.
  { unfold page.
    destruct (is_set (unlock_hash r)); [|destruct (is_set (share_token r))];
      apply urlparse_vimeo_host. }
  assert (∃ p, urllib.urlparse config = Ok p
               ∧ urllib.scheme p = "https"
               ∧ urllib.netloc p = "player.vimeo.com") as Hconfig
    by apply config_url_host.
  assert (∃ p, urllib.urlparse embed = Ok p
               ∧ urllib.scheme p = "https"
               ∧ urllib.netloc p = "player.vimeo.com") as Hembed.
  { unfold embed.
    destruct (is_set (unlock_hash r)); apply (urlparse_player_host (_ +:+ _)). }
  assert (∀ (l : list (step * string)) s u,
            (s, u) ∈ l →
            (∀ x, x ∈ l → x = (Landing, page) ∨ x = (Config, config)
                          ∨ x = (Embed, embed) ∨ x.1 = Media) →
            s ≠ Media →
            ∃ p, urllib.urlparse u = Ok p
                 ∧ urllib.scheme p = "https" ∧ urllib.netloc p = host_of s)
    as Hall.
  { intros l s u Hin Hl Hs.
    destruct (Hl _ Hin) as [[= -> ->]|[[= -> ->]|[[= -> ->]|?]]]; done. }
  assert (∀ l : list (step * string),
            (∀ x, x ∈ l → x = (Landing, page) ∨ x = (Config, config)
                          ∨ x = (Embed, embed) ∨ x.1 = Media) →
            ∀ m, ∀ x, x ∈ l ++ [(Media, m)] →
                 x = (Landing, page) ∨ x = (Config, config)
                 ∨ x = (Embed, embed) ∨ x.1 = Media) as Hmedia.
  { intros l Hl m x [Hx| ->%list_elem_of_singleton]%elem_of_app; auto. }
  intros H s u Hin. apply (Hall (requests w') s u Hin). clear Hin s u.
  revert H.
  destruct (net [] page) as [page_response|].
  2:{ intros [= _ <-]. simpl. trace_cases. }
  destruct (net [(Landing, page)] config) as [response|].
  2:{ intros [= _ <-]. simpl. trace_cases. }
  destruct (status_code response =? 200); simpl.
  { destruct (json_body response) as [config_data|].
    2:{ intros [= _ <-]. simpl. trace_cases. }
    destruct (plan config_data) as [o'|[download_url save_path]].
    { intros [= _ <-]. simpl. trace_cases. }
    intros H%GUI_download_file_requests. rewrite H. simpl.
    apply (Hmedia [_; _]). trace_cases. }
  destruct (net [(Landing, page); (Config, config)] embed)
    as [embed_response|]; simpl.
  2:{ intros [= _ <-]. simpl. trace_cases. }
  destruct (net [(Landing, page); (Config, config); (Embed, embed)] config)
    as [r2|]; simpl.
  2:{ intros [= _ <-]. simpl. trace_cases. }
  destruct (status_code r2 =? 200); simpl.
  2:{ intros [= _ <-]. simpl. trace_cases. }
  destruct (json_body r2) as [config_data|].
  2:{ intros [= _ <-]. simpl. trace_cases. }
  destruct (plan config_data) as [o'|[download_url save_path]].
  { intros [= _ <-]. simpl. trace_cases. }
  intros H%GUI_download_file_requests. rewrite H. simpl.
  apply (Hmedia [_; _; _; _]). trace_cases.
Qed.

Lemma GUI_requests_hosts_witness :
  let net : network :=
    λ trace _,
      Some (mkResponse (if decide (length trace = 1%nat) then 403 else 200)
              (Some (JDict [])) [Data "ab"]) in
  let plan : json → GUI.outcome + string * string :=
    λ _, inr ("https://cdn.example/v.mp4", "video.mp4") in
  ∃ w',
    GUI.download_video net (λ _, false) plan
      "https://vimeo.com/325572565/9d31d005e2" (mkWorld [] ∅)
    = (GUI.Completed, w')
    ∧ (requests w').*1 = [Landing; Config; Embed; Config; Media]
    ∧ ∀ s u, (s, u) ∈ requests w' → s ≠ Media →
        ∃ p, urllib.urlparse u = Ok p
             ∧ urllib.scheme p = "https" ∧ urllib.netloc p = host_of s.
Proof.
  intros net plan.
  destruct (GUI.download_video net (λ _, false) plan
              "https://vimeo.com/325572565/9d31d005e2" (mkWorld [] ∅))
    as [o w'] eqn:H.
  assert (o = GUI.Completed
          ∧ (requests w').*1 = [Landing; Config; Embed; Config; Media])
    as [-> Hsteps] by (by vm_compute in H; injection H as <- <-).
  exists w'. split; [done|]. split; [done|].
  exact (GUI_requests_hosts net (λ _, false) plan
           "https://vimeo.com/325572565/9d31d005e2" ∅ GUI.Completed w' H).
Defined.

(** X18. A run of the command-line downloader from the link to the
    file.  Either it returns [False] without a fetch, and the files are
    as before; or it has sent three requests: for the page of the video,
    for the configuration at the address built from the reference that
    the link resolves to, and for the stream that the steps in between
    choose from the body of the answer to the second.  Then, when it
    returns [True], the output file holds the body of the third answer
    and the other files are as before; when it returns [False], the only
    change is that no file is left at the output path. *)
Theorem CLI_download_video_effect net plan url fs ok w' :
  CLI.download_video net plan url (mkWorld [] fs) = Ok (ok, w') →
  (ok = false ∧ files w' = fs ∧ ∀ u, (Media, u) ∉ requests w')
  ∨ ∃ r response config_data stream_url output_file,
      let page := main_url r in
      let config := CLI.build_config_url (default "" (video_id r))
                      (unlock_hash r) (h_param r) (share_token r) in
      CLI.parse_vimeo_url url = Ok r
      ∧ net [(Landing, page)] config = Some response
      ∧ raises_for_status response = false
      ∧ json_body response = Some config_data
      ∧ plan config_data = Some (stream_url, output_file)
      ∧ requests w'
        = [(Landing, page); (Config, config); (Media, stream_url)]
      ∧ if ok
        then ∃ media,
               net [(Landing, page); (Config, config)] stream_url
               = Some media
               ∧ raises_for_status media = false
               ∧ files w' = <[output_file := payload (content media)]> fs
        else files w' = delete output_file fs.
Proof.
  assert (∀ l : list (step * string),
            Forall (λ x, x.1 ≠ Media) l → ∀ u, (Media, u) ∉ l) as Hno.
  { intros l Hl u Hu. by apply (proj1 (Forall_forall _ _) Hl _ Hu). }
  unfold CLI.download_video.
  destruct (CLI.parse_vimeo_url url) as [r|] eqn:Hr; simpl; [|discriminate].
  destruct (is_set (video_id r)); simpl.
  2:{ intros [= <- <-]. left. split; [done|]. split; [done|].
      apply Hno. by repeat constructor. }
  unfold session_get. simpl.
  rewrite <- (main_url_spec r).
  set (page := main_url r).
  set (config := CLI.build_config_url _ _ _ _).
  destruct (net [(Landing, page)] config) as [response|] eqn:Hconfig.
  2:{ intros [= <- <-]. left. split; [done|]. split; [done|].
      apply Hno. by repeat constructor. }
  destruct (raises_for_status response) eqn:Hstatus.
  { intros [= <- <-]. left. split; [done|]. split; [done|].
    apply Hno. by repeat constructor. }
  destruct (json_body response) as [config_data|] eqn:Hjson.
  2:{ intros [= <- <-]. left. split; [done|]. split; [done|].
      apply Hno. by repeat constructor. }
  destruct (plan config_data) as [[stream_url output_file]|] eqn:Hplan.
  2:{ intros [= <- <-]. left. split; [done|]. split; [done|].
      apply Hno. by repeat constructor. }
  intros [= H]. apply CLI_download_file_files in H as [Hreq Hfiles].
  simpl in Hreq, Hfiles. right.
  exists r, response, config_data, stream_url, output_file. cbv zeta.
  fold page config. by destruct ok.
Qed.

Lemma CLI_download_video_effect_witness :
  let net : network :=
    λ trace _,
      Some (mkResponse 200 (Some (JDict []))
              (if decide (length trace = 2%nat)
               then [Data "ab"; Data "cd"] else [])) in
  let plan : json → option (string * string) :=
    λ _, Some ("https://cdn.example/v.mp4", "video.mp4") in
  let url := "https://vimeo.com/325572565/9d31d005e2?h=abc" in
  let fs : gmap string string := {["video.mp4" := "old"]} in
  ∃ w',
    CLI.download_video net plan url (mkWorld [] fs) = Ok (true, w')
    ∧ files w' !! "video.mp4" = Some "abcd"
    ∧ ((true = false ∧ files w' = fs ∧ ∀ u, (Media, u) ∉ requests w')
       ∨ ∃ r response config_data stream_url output_file,
           let page := main_url r in
           let config := CLI.build_config_url (default "" (video_id r))
                           (unlock_hash r) (h_param r) (share_token r) in
           CLI.parse_vimeo_url url = Ok r
           ∧ net [(Landing, page)] config = Some response
           ∧ raises_for_status response = false
           ∧ json_body response = Some config_data
           ∧ plan config_data = Some (stream_url, output_file)
           ∧ requests w'
             = [(Landing, page); (Config, config); (Media, stream_url)]
           ∧ ∃ media,
               net [(Landing, page); (Config, config)] stream_url
               = Some media
               ∧ raises_for_status media = false
               ∧ files w' = <[output_file := payload (content media)]> fs).
Proof.
  intros net plan url fs.
  destruct (CLI.download_video net plan url (mkWorld [] fs))
    as [[ok w']|e] eqn:H; [|by vm_compute in H].
  assert (ok = true ∧ files w' !! "video.mp4" = Some "abcd")
    as [-> Hfile] by (by vm_compute in H; injection H as <- <-).
  exists w'. split; [done|]. split; [done|].
  exact (CLI_download_video_effect net plan url fs true w' H).
Defined.

(** The steps of a run of the GUI downloader from the answer that holds
    the configuration on. *)
Lemma GUI_fetch_effect net cancelled plan earlier config fs response o w' :
  (∀ u, (Media, u) ∉ earlier) →
  match json_body response with
  | None => (GUI.Failed, mkWorld (earlier ++ [(Config, config)]) fs)
  | Some config_data =>
      match plan config_data with
      | inl o => (o, mkWorld (earlier ++ [(Config, config)]) fs)
      | inr (download_url, save_path) =>
          GUI.download_file net cancelled download_url save_path
            (mkWorld (earlier ++ [(Config, config)]) fs)
      end
  end = (o, w') →
  (files w' = fs ∧ ∀ u, (Media, u) ∉ requests w')
  ∨ ∃ config_data download_url save_path,
      let before := earlier ++ [(Config, config)] in
      json_body response = Some config_data
      ∧ plan config_data = inr (download_url, save_path)
      ∧ requests w' = before ++ [(Media, download_url)]
      ∧ match o with
        | GUI.Completed =>
            ∃ media,
              net before download_url = Some media
              ∧ raises_for_status media = false
              ∧ files w' = <[save_path := payload (content media)]> fs
        | GUI.Cancelled => files w' = delete save_path fs
        | GUI.Failed =>
            files w' = fs
            ∨ ∃ media received rest,
                net before download_url = Some media
                ∧ content media = received ++ rest ∧ rest ≠ []
                ∧ files w' = <[save_path := payload received]> fs
        | GUI.Dismissed => False
        end.
Proof.
  intros Hearlier.
  assert (∀ u, (Media, u) ∉ earlier ++ [(Config, config)]) as Hbefore.
  { intros u [?| [=]%list_elem_of_singleton]%elem_of_app.
    by apply (Hearlier u). }
  destruct (json_body response) as [config_data|];
    [|intros [= <- <-]; by left].
  destruct (plan config_data) as [o'|[download_url save_path]] eqn:Hplan;
    [intros [= <- <-]; by left|].
  intros [Hrequests Hfiles]%GUI_download_file_files.
  simpl in Hrequests, Hfiles. right.
  exists config_data, download_url, save_path. cbv zeta.
  split; [done|]. split; [done|]. split; [done|].
  destruct o; [|done..].
  destruct Hfiles as (media & Hnet & Hstatus & Hfiles & _). by exists media.
Qed.

(** X19. A run of the GUI downloader from the link to the file.  Either
    no stream is fetched, and the files are as before; or the run ends
    with the one fetch of the stream that the steps in between choose
    from the body of the answer, of status 200, to its last request for
    the configuration (the first one or, after a visit of the embed page,
    the second), at the address built from the reference that the link
    resolves to.  Then, when the fetch completes, the file chosen in the
    save dialog holds the body of the answer; when it is cancelled, no
    file is left there; when it fails, the files are as before or that
    file holds the blocks received before the failure.  The other files
    are as before. *)
Theorem GUI_download_video_effect net cancelled plan url fs o w' :
  GUI.download_video net cancelled plan url (mkWorld [] fs) = (o, w') →
  (files w' = fs ∧ ∀ u, (Media, u) ∉ requests w')
  ∨ ∃ r earlier response config_data download_url save_path,
      let page := video_page_url r in
      let config := GUI.build_config_url (default "" (video_id r))
                      (unlock_hash r) (h_param r) (share_token r) in
      let before := earlier ++ [(Config, config)] in
      GUI.parse_vimeo_url url = Ok (Some r)
      ∧ (earlier = [(Landing, page)]
         ∨ earlier = [(Landing, page); (Config, config);
                       (Embed, embed_url r)])
      ∧ net earlier config = Some response
      ∧ status_code response = 200
      ∧ json_body response = Some config_data
      ∧ plan config_data = inr (download_url, save_path)
      ∧ requests w' = before ++ [(Media, download_url)]
      ∧ match o with
        | GUI.Completed =>
            ∃ media,
              net before download_url = Some media
              ∧ raises_for_status media = false
              ∧ files w' = <[save_path := payload (content media)]> fs
        | GUI.Cancelled => files w' = delete save_path fs
        | GUI.Failed =>
            files w' = fs
            ∨ ∃ media received rest,
                net before download_url = Some media
                ∧ content media = received ++ rest ∧ rest ≠ []
                ∧ files w' = <[save_path := payload received]> fs
        | GUI.Dismissed => False
        end.
Proof.
  assert (∀ l : list (step * string),
            Forall (λ x, x.1 ≠ Media) l → ∀ u, (Media, u) ∉ l) as Hno.
  { intros l Hl u Hu. by apply (proj1 (Forall_forall _ _) Hl _ Hu). }
  unfold GUI.download_video.
  destruct (GUI.parse_vimeo_url url) as [[r|]|] eqn:Hr; simpl.
  2,3: intros [= <- <-]; left; split; [done|]; apply Hno; by repeat constructor.
  unfold session_get. simpl.
  rewrite <- (video_page_url_spec r), <- (embed_url_spec r).
  set (page := video_page_url r).
  set (config := GUI.build_config_url _ _ _ _).
  set (embed := embed_url r).
  destruct (net [] page) as [page_response|].
  2:{ intros [= <- <-]; left; split; [done|]; apply Hno; by repeat constructor. }
  destruct (net [(Landing, page)] config) as [response|] eqn:Hfirst.
  2:{ intros [= <- <-]; left; split; [done|]; apply Hno; by repeat constructor. }
  destruct (status_code response =? 200) eqn:Hstatus; simpl.
  { intros H.
    apply (GUI_fetch_effect net cancelled plan [(Landing, page)] config)
      in H as [H|(config_data & download_url & save_path & H)];
      [by left| |apply Hno; by repeat constructor].
    right. exists r, [(Landing, page)], response, config_data, download_url,
             save_path.
    cbv zeta in *. fold page config. apply Z.eqb_eq in Hstatus.
    destruct H as (? & ? & ? & ?). by auto 10. }
  destruct (net [(Landing, page); (Config, config)] embed)
    as [embed_response|]; simpl.
  2:{ intros [= <- <-]; left; split; [done|]; apply Hno; by repeat constructor. }
  destruct (net [(Landing, page); (Config, config); (Embed, embed)] config)
    as [r2|] eqn:Hsecond; simpl.
  2:{ intros [= <- <-]; left; split; [done|]; apply Hno; by repeat constructor. }
  destruct (status_code r2 =? 200) eqn:Hstatus2; simpl.
  2:{ intros [= <- <-]; left; split; [done|]; apply Hno; by repeat constructor. }
  intros H.
  apply (GUI_fetch_effect net cancelled plan
           [(Landing, page); (Config, config); (Embed, embed)] config)
    in H as [H|(config_data & download_url & save_path & H)];
    [by left| |apply Hno; by repeat constructor].
  right. exists r, [(Landing, page); (Config, config); (Embed, embed)], r2,
           config_data, download_url, save_path.
  cbv zeta in *. fold page config embed. apply Z.eqb_eq in Hstatus2.
  destruct H as (? & ? & ? & ?). by auto 10.
Qed.

Lemma GUI_download_video_effect_witness :
  let net : network :=
    λ trace _,
      Some (mkResponse (if decide (length trace = 1%nat) then 403 else 200)
              (Some (JDict []))
              (if decide (length trace = 4%nat)
               then [Data "ab"; Data "cd"; Data "ef"] else [])) in
  let plan : json → GUI.outcome + string * string :=
    λ _, inr ("https://cdn.example/v.mp4", "video.mp4") in
  let cancelled : nat → bool := λ i, bool_decide (i = 2%nat) in
  let url := "https://vimeo.com/325572565" in
  let fs : gmap string string :=
    {["video.mp4" := "old"; "other" := "kept"]} in
  ∃ w',
    GUI.download_video net cancelled plan url (mkWorld [] fs)
    = (GUI.Cancelled, w')
    ∧ files w' = {["other" := "kept"]}
    ∧ (requests w').*1 = [Landing; Config; Embed; Config; Media]
    ∧ ((files w' = fs ∧ ∀ u, (Media, u) ∉ requests w')
       ∨ ∃ r earlier response config_data download_url save_path,
           let page := video_page_url r in
           let config := GUI.build_config_url (default "" (video_id r))
                           (unlock_hash r) (h_param r) (share_token r) in
           let before := earlier ++ [(Config, config)] in
           GUI.parse_vimeo_url url = Ok (Some r)
           ∧ (earlier = [(Landing, page)]
              ∨ earlier = [(Landing, page); (Config, config);
                            (Embed, embed_url r)])
           ∧ net earlier config = Some response
           ∧ status_code response = 200
           ∧ json_body response = Some config_data
           ∧ plan config_data = inr (download_url, save_path)
           ∧ requests w' = before ++ [(Media, download_url)]
           ∧ files w' = delete save_path fs).
Proof.
  intros net plan cancelled url fs.
  destruct (GUI.download_video net cancelled plan url (mkWorld [] fs))
    as [o w'] eqn:H.
  assert (o = GUI.Cancelled ∧ files w' = {["other" := "kept"]}
          ∧ (requests w').*1 = [Landing; Config; Embed; Config; Media])
    as (-> & Hfile & Hsteps) by (by vm_compute in H; injection H as <- <-).
  exists w'. split; [done|]. split; [done|]. split; [done|].
  exact (GUI_download_video_effect net cancelled plan url fs GUI.Cancelled
           w' H).
Defined.
